(** * Market-analyst pipeline (day-03-market-analyst/backend)

    A shallow embedding of the stock analysis core of the repository:
    - [ai_analyzer.py]  : technical indicators and the recommendation engine,
    - [news_fetcher.py] : keyword sentiment aggregation,
    - [database.py]     : the SQLite cache of historical bars,
    - [stock_data.py]   : the history gateway in front of the cache.

    Conventions.  Python floats are modelled by exact rationals ([Q]); where
    the source relies on IEEE special values (division by zero in the RSI,
    NaN produced by short rolling windows) the extended type [flt] is used.
    Python exceptions are values of [exn]; a [try] body is a computation in
    the error monad [result], and the [except] handler is the match on it. *)

From Stdlib Require Import ZArith QArith Qround Qminmax Qabs Qreduction Lqa Lia.
From Stdlib Require Import String Ascii.
From stdpp Require Import base option list gmap strings sorting pretty.

Set Warnings "-register-all".
Local Open Scope string_scope.
Local Open Scope Z_scope.

(* ===================================================================== *)
(** ** Python values, exceptions and the error monad                      *)
(* ===================================================================== *)

Module Py.

(** The dynamically typed values that reach the recommendation engine
    through its [Dict] arguments: ints, floats, strings, [None] and nested
    dicts.  A dict is kept as an association list read at its first match. *)
Inductive value : Type :=
  | VInt (z : Z)
  | VFloat (q : Q)
  | VStr (s : string)
  | VNone
  | VDict (d : list (string * value)).

Abbreviation dict := (list (string * value)).

Inductive exn : Type :=
  | TypeError (msg : string)
  | AttributeError (msg : string)
  | KeyError (msg : string)
  | IndexError (msg : string)
  | Exception (msg : string).

(** [str(e)] *)
Definition str_exn (e : exn) : string :=
  match e with
  | TypeError m | AttributeError m | KeyError m | IndexError m | Exception m => m
  end.

Definition result (A : Type) : Type := (exn + A)%type.

#[global] Instance result_ret : MRet result := fun _ x => inr x.
#[global] Instance result_bind : MBind result := fun _ _ f m =>
  match m with
  | inl e => inl e
  | inr x => f x
  end.

Definition raise {A} (e : exn) : result A := inl e.

(** [type(v).__name__] *)
Definition type_name (v : value) : string :=
  match v with
  | VInt _ => "int"
  | VFloat _ => "float"
  | VStr _ => "str"
  | VNone => "NoneType"
  | VDict _ => "dict"
  end.

Fixpoint dict_lookup (d : dict) (k : string) : option value :=
  match d with
  | [] => None
  | (k', v) :: d' => if String.eqb k' k then Some v else dict_lookup d' k
  end.

(** [k in d] *)
Definition dict_mem (d : dict) (k : string) : bool :=
  match dict_lookup d k with
  | Some _ => true
  | None => false
  end.

(** [d.get(k, dflt)] on a dict *)
Definition dict_get (d : dict) (k : string) (dflt : value) : value :=
  match dict_lookup d k with
  | Some v => v
  | None => dflt
  end.

(** [d[k]] *)
Definition py_item (d : dict) (k : string) : result value :=
  match dict_lookup d k with
  | Some v => mret v
  | None => raise (KeyError ("'" ++ k ++ "'"))
  end.

(** [v.get(k, dflt)] on an arbitrary value: only dicts have the method. *)
Definition py_get (v : value) (k : string) (dflt : value) : result value :=
  match v with
  | VDict d => mret (dict_get d k dflt)
  | _ => raise (AttributeError
                  ("'" ++ type_name v ++ "' object has no attribute 'get'"))
  end.

Definition num_of (v : value) : option Q :=
  match v with
  | VInt z => Some (inject_Z z)
  | VFloat q => Some q
  | _ => None
  end.

Definition Qltb (x y : Q) : bool := negb (Qle_bool y x).

Definition unorderable (op : string) (a b : value) : exn :=
  TypeError ("'" ++ op ++ "' not supported between instances of '"
               ++ type_name a ++ "' and '" ++ type_name b ++ "'").

(** [a < b]: numbers compare by value, strings lexicographically, every
    other pairing raises [TypeError]. *)
Definition py_lt (a b : value) : result bool :=
  match num_of a, num_of b with
  | Some x, Some y => mret (Qltb x y)
  | _, _ =>
      match a, b with
      | VStr s, VStr t => mret (String.ltb s t)
      | _, _ => raise (unorderable "<" a b)
      end
  end.

(** [a > b] *)
Definition py_gt (a b : value) : result bool :=
  match num_of a, num_of b with
  | Some x, Some y => mret (Qltb y x)
  | _, _ =>
      match a, b with
      | VStr s, VStr t => mret (String.ltb t s)
      | _, _ => raise (unorderable ">" a b)
      end
  end.

(** [v == s] for a string literal [s]; never raises. *)
Definition eq_str (v : value) (s : string) : bool :=
  match v with
  | VStr t => String.eqb t s
  | _ => false
  end.

(** [round(x, 1)]: nearest multiple of one tenth, ties to the even one. *)
Definition round_half_even (x : Q) : Z :=
  let f := Qfloor x in
  let r := (x - inject_Z f)%Q in
  match (r ?= 1 # 2)%Q with
  | Lt => f
  | Gt => f + 1
  | Eq => if Z.even f then f else f + 1
  end.

Definition round1 (x : Q) : Q := Qred (round_half_even (x * 10) # 10).

End Py.

(* ===================================================================== *)
(** ** ai_analyzer.py: the recommendation engine                          *)
(* ===================================================================== *)

Module Recommendation.
Import Py.

(** The dict returned by [_generate_recommendation].  The keys ['score'],
    ['factors'] and ['reasoning'] exist only on the scored path and
    ['error'] only on the handler's path, hence the options. *)
Record rec_dict : Type := mk_rec {
  recommendation : string;
  action : string;
  confidence : Q;
  score : option Z;
  factors : option (list string);
  reasoning : option string;
  error : option string
}.

(** The running [score] and [factors] variables. *)
Abbreviation tally := (Z * list string)%type.

Definition bump (t : tally) (delta : Z) (factor : string) : tally :=
  (fst t + delta, (snd t ++ [factor])%list).

Definition reasoning_map (recommendation : string) : option string :=
  if String.eqb recommendation "strong_buy" then
    Some "Strong technical indicators and positive sentiment suggest this is an excellent buying opportunity."
  else if String.eqb recommendation "buy" then
    Some "Multiple positive indicators suggest this stock has good upward potential."
  else if String.eqb recommendation "hold" then
    Some "Mixed signals suggest maintaining current position and monitoring closely."
  else if String.eqb recommendation "sell" then
    Some "Several negative indicators suggest it may be time to consider selling."
  else if String.eqb recommendation "strong_sell" then
    Some "Strong negative indicators suggest immediate selling may be prudent."
  else None.

Definition _generate_reasoning (recommendation : string) (factors : list string)
  : string :=
  let base_reasoning :=
    default "Analysis is inconclusive." (reasoning_map recommendation) in
  match factors with
  | [] => base_reasoning
  | _ => base_reasoning ++ " Key factors include: "
           ++ String.concat ", " (firstn 3 factors)
  end.

(** Lines 366-383: the block guarded by ['indicators' in technical]. *)
Definition technical_factors (technical : dict) (t : tally) : result tally :=
  if dict_mem technical "indicators" then
    ind ← py_item technical "indicators";
    rsi ← py_get ind "rsi" (VInt 50);
    oversold ← py_lt rsi (VInt 30);
    t ← (if oversold : bool then mret (bump t 2 "RSI oversold (bullish)")
         else
           overbought ← py_gt rsi (VInt 70);
           mret (if overbought : bool
                 then bump t (-2) "RSI overbought (bearish)"
                 else t));
    ind ← py_item technical "indicators";
    macd ← py_get ind "macd" (VInt 0);
    ind ← py_item technical "indicators";
    macd_signal ← py_get ind "macd_signal" (VInt 0);
    above ← py_gt macd macd_signal;
    mret (if above : bool
          then bump t 1 "MACD bullish crossover"
          else bump t (-1) "MACD bearish crossover")
  else mret t.

(** Lines 385-391. *)
Definition trend_factors (trend : dict) (t : tally) : tally :=
  if eq_str (dict_get trend "trend" VNone) "bullish" then
    bump t 2 "Strong bullish trend"
  else if eq_str (dict_get trend "trend" VNone) "bearish" then
    bump t (-2) "Strong bearish trend"
  else t.

(** Lines 393-400. *)
Definition news_factors (news : dict) (t : tally) : tally :=
  let news_sentiment := dict_get news "overall_sentiment" (VStr "neutral") in
  if eq_str news_sentiment "positive" then
    bump t 1 "Positive news sentiment"
  else if eq_str news_sentiment "negative" then
    bump t (-1) "Negative news sentiment"
  else t.

(** Lines 402-406. *)
Definition risk_factors (risk : dict) (t : tally) : tally :=
  let risk_level := dict_get risk "risk_level" (VStr "medium") in
  if eq_str risk_level "high" then bump t (-1) "High volatility risk" else t.

(** Lines 408-428: tier, action and the confidence before rounding. *)
Definition classify (score : Z) : string * string * Q :=
  if 3 <=? score then
    ("strong_buy", "BUY", Qmin (inject_Z score / 5 * 100) 95)
  else if 1 <=? score then
    ("buy", "BUY", Qmin (inject_Z score / 3 * 100) 80)
  else if score <=? -3 then
    ("strong_sell", "SELL", Qmin (inject_Z (Z.abs score) / 5 * 100) 95)
  else if score <=? -1 then
    ("sell", "SELL", Qmin (inject_Z (Z.abs score) / 3 * 100) 80)
  else
    ("hold", "HOLD", 60%Q).

(** Lines 408-437: the returned dict for a final score and factor list. *)
Definition conclude (t : tally) : rec_dict :=
  let '(score, factors) := t in
  let '(recommendation, action, confidence) := classify score in
  {| recommendation := recommendation;
     action := action;
     confidence := round1 confidence;
     score := Some score;
     factors := Some factors;
     reasoning := Some (_generate_reasoning recommendation factors);
     error := None |}.

(** The body of the [try] (lines 362-437).  [volume] is accepted and never
    read, as in the source. *)
Definition generate_recommendation_try
    (technical trend volume risk news : dict) : result rec_dict :=
  t ← technical_factors technical (0, []);
  mret (conclude (risk_factors risk (news_factors news (trend_factors trend t)))).

(** The [except Exception as e] handler (lines 439-445). *)
Definition recommendation_fallback (e : exn) : rec_dict :=
  {| recommendation := "hold";
     action := "HOLD";
     confidence := 50;
     score := None;
     factors := None;
     reasoning := None;
     error := Some (str_exn e) |}.

Definition _generate_recommendation
    (technical trend volume risk news : dict) : rec_dict :=
  match generate_recommendation_try technical trend volume risk news with
  | inr r => r
  | inl e => recommendation_fallback e
  end.

End Recommendation.

(* ===================================================================== *)
(** ** ai_analyzer.py: technical indicators                               *)
(* ===================================================================== *)

Module Indicators.
Import Py.

(** One row of the OHLCV frame; [Date] is the index entry, in seconds. *)
Record bar : Type := mk_bar {
  Date : Z;
  Open : Q;
  High : Q;
  Low : Q;
  Close : Q;
  Volume : Q
}.

Abbreviation DataFrame := (list bar).

(** A float as pandas sees it: a finite number, an infinity or NaN.
    Rounding and the sign of zero are not represented. *)
Inductive flt : Type :=
  | Fin (q : Q)
  | PInf
  | NInf
  | NaN.

Definition finite (x : flt) : option Q :=
  match x with
  | Fin q => Some q
  | _ => None
  end.

(** [pd.isna] *)
Definition isna (x : flt) : bool :=
  match x with
  | NaN => true
  | _ => false
  end.

Definition fneg (x : flt) : flt :=
  match x with
  | Fin q => Fin (- q)
  | PInf => NInf
  | NInf => PInf
  | NaN => NaN
  end.

Definition fadd (x y : flt) : flt :=
  match x, y with
  | NaN, _ | _, NaN => NaN
  | Fin a, Fin b => Fin (a + b)
  | PInf, NInf | NInf, PInf => NaN
  | PInf, _ | _, PInf => PInf
  | NInf, _ | _, NInf => NInf
  end.

Definition fsub (x y : flt) : flt := fadd x (fneg y).

(** IEEE division: a finite non-zero number over zero is an infinity,
    zero over zero is NaN, a finite number over an infinity is zero. *)
Definition fdiv (x y : flt) : flt :=
  match x, y with
  | NaN, _ | _, NaN => NaN
  | Fin a, Fin b =>
      if Qeq_bool b 0 then
        (if Qeq_bool a 0 then NaN else if Qltb 0 a then PInf else NInf)
      else Fin (a / b)
  | Fin _, (PInf | NInf) => Fin 0
  | (PInf | NInf), (PInf | NInf) => NaN
  | PInf, Fin b => if Qltb b 0 then NInf else PInf
  | NInf, Fin b => if Qltb b 0 then PInf else NInf
  end.

(** [x > y] and [x < y]; false as soon as one side is NaN. *)
Definition fgt (x y : flt) : bool :=
  match x, y with
  | NaN, _ | _, NaN => false
  | Fin a, Fin b => Qltb b a
  | PInf, (Fin _ | NInf) => true
  | Fin _, NInf => true
  | _, _ => false
  end.

Definition flt_lt (x y : flt) : bool := fgt y x.

(** [s.iloc[-1]] *)
Definition iloc_last {A} (s : list A) : result A :=
  match last s with
  | Some x => mret x
  | None => raise (IndexError "single positional indexer is out-of-bounds")
  end.

Definition Qsum (l : list Q) : Q := foldr Qplus 0%Q l.

Definition mean (l : list Q) : Q := (Qsum l / inject_Z (Z.of_nat (length l)))%Q.

(** The [w] entries that end at position [i]. *)
Definition window {A} (w i : nat) (s : list A) : list A :=
  take w (drop (S i - w) s).

(** [s.rolling(window=w).agg()]: NaN until [w] observations are there, and
    NaN for a window that holds a NaN ([min_periods] is the window size). *)
Definition rolling (w : nat) (agg : list Q → flt) (s : list flt) : list flt :=
  (λ i, if decide (w ≤ S i)%nat then
          match mapM finite (window w i s) with
          | Some qs => agg qs
          | None => NaN
          end
        else NaN) <$> seq 0 (length s).

Definition rolling_mean (w : nat) : list flt → list flt :=
  rolling w (λ qs, Fin (mean qs)).

Definition Qmax_list (l : list Q) : flt :=
  match l with
  | [] => NaN
  | x :: l' => Fin (foldr Qmax x l')
  end.

Definition Qmin_list (l : list Q) : flt :=
  match l with
  | [] => NaN
  | x :: l' => Fin (foldr Qmin x l')
  end.

(** [s.max()] and [s.min()], which skip NaN. *)
Definition series_max (s : list flt) : flt := Qmax_list (omap finite s).
Definition series_min (s : list flt) : flt := Qmin_list (omap finite s).

(** The consecutive differences [p1 - p0, p2 - p1, ...]. *)
Definition diffsQ (prices : list Q) : list Q :=
  zip_with (λ a b, (b - a)%Q) prices (tail prices).

(** [prices.diff()]: NaN in front of the differences. *)
Definition diff (prices : list Q) : list flt :=
  match prices with
  | [] => []
  | _ => NaN :: (Fin <$> diffsQ prices)
  end.

(** [s.where(cond, other)] *)
Definition where_ (cond : flt → bool) (other : flt) (s : list flt) : list flt :=
  (λ x, if cond x then x else other) <$> s.

(** [delta.where(delta > 0, 0)] rolled, line 129. *)
Definition rsi_gain (prices : list Q) : list flt :=
  rolling_mean 14 (where_ (λ d, fgt d (Fin 0)) (Fin 0) (diff prices)).

(** [(-delta.where(delta < 0, 0))] rolled, line 130. *)
Definition rsi_loss (prices : list Q) : list flt :=
  rolling_mean 14 (fneg <$> where_ (λ d, flt_lt d (Fin 0)) (Fin 0) (diff prices)).

(** [100 - (100 / (1 + rs))], line 133. *)
Definition rsi_of_rs (rs : flt) : flt :=
  fsub (Fin 100) (fdiv (Fin 100) (fadd (Fin 1) rs)).

Definition rsi_series (prices : list Q) : list flt :=
  let rs := zip_with fdiv (rsi_gain prices) (rsi_loss prices) in
  rsi_of_rs <$> rs.

Definition calculate_rsi_try (prices : list Q) : result flt :=
  if decide (length prices < 14 + 1)%nat then mret (Fin 50)
  else
    x ← iloc_last (rsi_series prices);
    mret (if isna x then Fin 50 else x).

Definition _calculate_rsi (prices : list Q) : flt :=
  match calculate_rsi_try prices with
  | inr r => r
  | inl _ => Fin 50
  end.

Definition fmul (x y : flt) : flt :=
  match x, y with
  | NaN, _ | _, NaN => NaN
  | Fin a, Fin b => Fin (a * b)
  | Fin a, (PInf | NInf) as i | (PInf | NInf) as i, Fin a =>
      if Qeq_bool a 0 then NaN else if Qltb 0 a then i else fneg i
  | PInf, PInf | NInf, NInf => PInf
  | PInf, NInf | NInf, PInf => NInf
  end.

(** [prices.ewm(span=n).mean()] with the pandas defaults ([adjust=True]):
    the weighted mean of all entries so far, the weight decaying by
    [1 - alpha] per step; [num] and [den] carry the two running sums. *)
Fixpoint ewm_from (alpha num den : Q) (xs : list Q) : list Q :=
  match xs with
  | [] => []
  | x :: xs' =>
      let num' := (x + (1 - alpha) * num)%Q in
      let den' := (1 + (1 - alpha) * den)%Q in
      (num' / den')%Q :: ewm_from alpha num' den' xs'
  end.

Definition ewm_mean (span : Z) (xs : list Q) : list Q :=
  ewm_from (2 / (inject_Z span + 1))%Q 0%Q 0%Q xs.

Record macd_data : Type := mk_macd {
  macd : flt;
  macd_signal : flt;
  macd_histogram : flt
}.

Definition macd_zero : macd_data :=
  {| macd := Fin 0; macd_signal := Fin 0; macd_histogram := Fin 0 |}.

Definition calculate_macd_try (prices : list Q) : result macd_data :=
  if decide (length prices < 26)%nat then mret macd_zero
  else
    let ema_12 := ewm_mean 12 prices in
    let ema_26 := ewm_mean 26 prices in
    let macd := zip_with Qminus ema_12 ema_26 in
    let macd_signal := ewm_mean 9 macd in
    let macd_histogram := zip_with Qminus macd macd_signal in
    m ← iloc_last macd;
    s ← iloc_last macd_signal;
    h ← iloc_last macd_histogram;
    mret {| macd := Fin m; macd_signal := Fin s; macd_histogram := Fin h |}.

Definition _calculate_macd (prices : list Q) : macd_data :=
  match calculate_macd_try prices with
  | inr r => r
  | inl _ => macd_zero
  end.

Record bb_data : Type := mk_bb {
  bb_upper : flt;
  bb_middle : flt;
  bb_lower : flt
}.

(** The bands of lines 164-168 and 183-187 around the last close. *)
Definition bb_around (current_price : Q) : bb_data :=
  {| bb_upper := Fin (current_price * 1.02);
     bb_middle := Fin current_price;
     bb_lower := Fin (current_price * 0.98) |}.

Record support_resistance : Type := mk_sr {
  resistance_level : flt;
  support_level : flt
}.

(** Lines 191-201. *)
Definition find_support_resistance_try (df : DataFrame)
  : result support_resistance :=
  let highs := rolling 5 Qmax_list (Fin <$> (High <$> df)) in
  let lows := rolling 5 Qmin_list (Fin <$> (Low <$> df)) in
  resistance ← (match highs with
                | _ :: _ => mret (series_max highs)
                | [] => p ← iloc_last (Close <$> df); mret (Fin (p * 1.05))
                end);
  support ← (match lows with
             | _ :: _ => mret (series_min lows)
             | [] => p ← iloc_last (Close <$> df); mret (Fin (p * 0.95))
             end);
  mret {| resistance_level := resistance; support_level := support |}.

(** The handler of lines 202-207 reads the last close again, so it raises
    in its turn when there is none. *)
Definition _find_support_resistance (df : DataFrame)
  : result support_resistance :=
  match find_support_resistance_try df with
  | inr r => mret r
  | inl _ =>
      current_price ← iloc_last (Close <$> df);
      mret {| resistance_level := Fin (current_price * 1.05);
              support_level := Fin (current_price * 0.95) |}
  end.

Record indicators : Type := mk_indicators {
  sma_5 : flt;
  sma_10 : flt;
  sma_20 : flt;
  rsi : flt;
  ind_macd : macd_data;
  ind_bb : bb_data;
  ind_sr : support_resistance
}.

Record price_analysis : Type := mk_price_analysis {
  ma_position : string;
  ma_signal : string;
  bb_position : string
}.

Definition _analyze_price_position (current_price : Q) (ind : indicators)
  : price_analysis :=
  let '(ma_position, ma_signal) :=
    if fgt (Fin current_price) (sma_20 ind)
    then ("above", "bullish") else ("below", "bearish") in
  let bb_position :=
    if fgt (Fin current_price) (bb_upper (ind_bb ind)) then "overbought"
    else if flt_lt (Fin current_price) (bb_lower (ind_bb ind)) then "oversold"
    else "normal" in
  {| ma_position := ma_position;
     ma_signal := ma_signal;
     bb_position := bb_position |}.

Definition _generate_technical_signals (ind : indicators) (current_price : Q)
  : list string :=
  let signals :=
    if fgt (rsi ind) (Fin 70) then ["RSI indicates overbought condition"]
    else if flt_lt (rsi ind) (Fin 30) then ["RSI indicates oversold condition"]
    else [] in
  let signals :=
    (signals ++
       [if fgt (macd (ind_macd ind)) (macd_signal (ind_macd ind))
        then "MACD shows bullish momentum"
        else "MACD shows bearish momentum"])%list in
  (signals ++
     [if fgt (sma_5 ind) (sma_20 ind)
      then "Short-term MA above long-term MA (bullish)"
      else "Short-term MA below long-term MA (bearish)"])%list.

(** The dict returned by [_technical_analysis]: either the three result
    keys or the single key ['error']. *)
Inductive technical : Type :=
  | Technical (ind : indicators) (pa : price_analysis) (signals : list string)
  | TechnicalError (error : string).

Section WithSqrt.

(** The square root of [Series.std], a numpy primitive. *)
Variable sqrt : Q → Q.

(** Sample standard deviation (pandas [ddof=1]). *)
Definition sample_std (qs : list Q) : Q :=
  let m := mean qs in
  sqrt (Qsum ((λ x, (x - m) * (x - m))%Q <$> qs)
          / (inject_Z (Z.of_nat (length qs)) - 1))%Q.

(** Lines 162-180. *)
Definition calculate_bollinger_bands_try (prices : list Q) : result bb_data :=
  if decide (length prices < 20)%nat then
    current_price ← iloc_last prices;
    mret (bb_around current_price)
  else
    let sma := rolling_mean 20 (Fin <$> prices) in
    let std := rolling 20 (λ qs, Fin (sample_std qs)) (Fin <$> prices) in
    let upper := zip_with fadd sma ((λ x, fmul x (Fin 2)) <$> std) in
    let lower := zip_with fsub sma ((λ x, fmul x (Fin 2)) <$> std) in
    u ← iloc_last upper;
    u ← (if isna u then p ← iloc_last prices; mret (Fin (p * 1.02))
         else mret u);
    m ← iloc_last sma;
    m ← (if isna m then p ← iloc_last prices; mret (Fin p) else mret m);
    l ← iloc_last lower;
    l ← (if isna l then p ← iloc_last prices; mret (Fin (p * 0.98))
         else mret l);
    mret {| bb_upper := u; bb_middle := m; bb_lower := l |}.

(** The handler of lines 181-187 indexes [prices] once more. *)
Definition _calculate_bollinger_bands (prices : list Q) : result bb_data :=
  match calculate_bollinger_bands_try prices with
  | inr r => mret r
  | inl _ =>
      current_price ← iloc_last prices;
      mret (bb_around current_price)
  end.

(** [df['Close'].rolling(window=n).mean().iloc[-1] if len(df) >= n else
    current_price] *)
Definition sma (n : nat) (df : DataFrame) (current_price : Q) : result flt :=
  if decide (n ≤ length df)%nat
  then iloc_last (rolling_mean n (Fin <$> (Close <$> df)))
  else mret (Fin current_price).

(** The body of the [try] of [_technical_analysis] (lines 87-117). *)
Definition technical_analysis_try (df : DataFrame) (current_price : Q)
  : result technical :=
  s5 ← sma 5 df current_price;
  s10 ← sma 10 df current_price;
  s20 ← sma 20 df current_price;
  let r := _calculate_rsi (Close <$> df) in
  let macd_data := _calculate_macd (Close <$> df) in
  bb ← _calculate_bollinger_bands (Close <$> df);
  sr ← _find_support_resistance df;
  let ind := {| sma_5 := s5; sma_10 := s10; sma_20 := s20; rsi := r;
                ind_macd := macd_data; ind_bb := bb; ind_sr := sr |} in
  mret (Technical ind
          (_analyze_price_position current_price ind)
          (_generate_technical_signals ind current_price)).

Definition _technical_analysis (df : DataFrame) (current_price : Q)
  : technical :=
  match technical_analysis_try df current_price with
  | inr t => t
  | inl e => TechnicalError ("Technical analysis error: " ++ str_exn e)
  end.

End WithSqrt.

End Indicators.

(* ===================================================================== *)
(** ** news_fetcher.py: keyword sentiment                                 *)
(* ===================================================================== *)

Module News.

(** An article is a dict of text fields.  Articles are objects: the list
    handed to [analyze_news_sentiment] holds references into a store, so
    that a write through one reference is seen through every alias. *)
Abbreviation article := (gmap string string).
Abbreviation store := (gmap nat article).

Definition positive_keywords : list string :=
  ["profit"; "growth"; "increase"; "rise"; "gain"; "bull"; "up"; "surge";
   "rally"; "boost"; "positive"; "strong"; "beat"; "exceed"; "outperform";
   "upgrade"; "buy"; "recommend"; "bullish"; "optimistic"].

Definition negative_keywords : list string :=
  ["loss"; "decline"; "fall"; "drop"; "bear"; "down"; "crash"; "plunge";
   "negative"; "weak"; "miss"; "underperform"; "downgrade"; "sell";
   "bearish"; "pessimistic"; "warning"; "concern"; "risk"].

(** [str.lower] on the ASCII letters; other bytes are kept.  Text is taken
    to be ASCII: [str.lower] also folds letters outside ASCII (the Kelvin
    sign becomes k), which this function does not. *)
Definition lower_ascii (c : ascii) : ascii :=
  let n := nat_of_ascii c in
  if (65 <=? n)%nat && (n <=? 90)%nat then ascii_of_nat (n + 32) else c.

Fixpoint lower (s : string) : string :=
  match s with
  | EmptyString => EmptyString
  | String c s' => String (lower_ascii c) (lower s')
  end.

(** [keyword in text] *)
Fixpoint contains (keyword text : string) : bool :=
  String.prefix keyword text ||
  match text with
  | EmptyString => false
  | String _ text' => contains keyword text'
  end.

(** [sum(1 for keyword in keywords if keyword in text)] *)
Definition keyword_hits (keywords : list string) (text : string) : Z :=
  Z.of_nat (length (List.filter (λ keyword, contains keyword text) keywords)).

(** Lines 210-223: the label and the signed score of one article. *)
Definition article_sentiment (a : article) : string * Z :=
  let text :=
    lower (default "" (a !! "title") ++ " " ++ default "" (a !! "description")) in
  let positive_score := keyword_hits positive_keywords text in
  let negative_score := keyword_hits negative_keywords text in
  if negative_score <? positive_score then ("positive", 1)
  else if positive_score <? negative_score then ("negative", -1)
  else ("neutral", 0).

(** The loop of lines 209-226; [article['sentiment'] = sentiment] writes
    into the object the reference points to.  The references of a Python
    list are never dangling; one that is not in the store reads as an empty
    dict and its write is dropped. *)
Fixpoint score_articles (h : store) (articles : list nat)
    (sentiment_scores : list Z) : store * list Z :=
  match articles with
  | [] => (h, sentiment_scores)
  | ref :: rest =>
      let '(sentiment, score) := article_sentiment (default ∅ (h !! ref)) in
      score_articles (alter (insert "sentiment" sentiment) ref h) rest
        (sentiment_scores ++ [score])%list
  end.

(** The returned dict; the keys ['articles_analyzed'] and
    ['sentiment_score'] are absent from the early return of lines 187-193. *)
Record summary : Type := mk_summary {
  overall_sentiment : string;
  positive_count : Z;
  negative_count : Z;
  neutral_count : Z;
  confidence : Q;
  articles_analyzed : option Z;
  sentiment_score : option Q
}.

Definition Zsum (l : list Z) : Z := foldr Z.add 0 l.

Definition analyze_news_sentiment (h : store) (articles : list nat)
  : store * summary :=
  match articles with
  | [] =>
      (h, {| overall_sentiment := "neutral";
             positive_count := 0;
             negative_count := 0;
             neutral_count := 0;
             confidence := 0;
             articles_analyzed := None;
             sentiment_score := None |})
  | _ =>
      let '(h', sentiment_scores) := score_articles h articles [] in
      let avg_score :=
        match sentiment_scores with
        | [] => 0%Q
        | _ => (inject_Z (Zsum sentiment_scores)
                 / inject_Z (Z.of_nat (length sentiment_scores)))%Q
        end in
      let overall_sentiment :=
        if Py.Qltb 0.1 avg_score then "positive"
        else if Py.Qltb avg_score (-0.1) then "negative"
        else "neutral" in
      let positive_count :=
        Z.of_nat (length (List.filter (λ score, 0 <? score) sentiment_scores)) in
      let negative_count :=
        Z.of_nat (length (List.filter (λ score, score <? 0) sentiment_scores)) in
      let neutral_count :=
        Z.of_nat (length sentiment_scores) - positive_count - negative_count in
      (h', {| overall_sentiment := overall_sentiment;
              positive_count := positive_count;
              negative_count := negative_count;
              neutral_count := neutral_count;
              confidence := Qabs avg_score;
              articles_analyzed := Some (Z.of_nat (length articles));
              sentiment_score := Some ((avg_score + 1) * 5)%Q |})
  end.

End News.

(* ===================================================================== *)
(** ** database.py: the cache of historical bars                          *)
(* ===================================================================== *)

Module Database.
Import Indicators.

(** A row of [historical_data]; [date] is a calendar day (days since the
    epoch), which orders like the ['YYYY-MM-DD'] text SQLite stores.  The
    [created_at] column is left out: nothing reads it. *)
Record hist_row : Type := mk_row {
  id : Z;
  symbol : string;
  date : Z;
  open_price : Q;
  high : Q;
  low : Q;
  close_price : Q;
  volume : Q
}.

Record tracking : Type := mk_tracking {
  last_historical_date : option Z;
  fetch_count : Z
}.

(** The tables the history path touches, in row-id order, with the
    AUTOINCREMENT counter of [historical_data]. *)
Record db : Type := mk_db {
  historical_data : list hist_row;
  historical_seq : Z;
  fetch_tracking : gmap string tracking;
  configuration : gmap string string
}.

(** [create_tables] on a new file, with [_insert_default_config]. *)
Definition create_tables : db :=
  {| historical_data := [];
     historical_seq := 0;
     fetch_tracking := ∅;
     configuration :=
       list_to_map
         [("default_fetch_days", "5");
          ("fetch_symbols", "AAPL,GOOGL,MSFT,AMZN,TSLA,META,NVDA,NFLX,DIS,ORCL");
          ("fetch_interval_minutes", "15");
          ("max_retries", "3");
          ("rate_limit_delay", "0.2")] |}.

(** [datetime.date()] of a time in seconds. *)
Definition day_of (t : Z) : Z := t / 86400.

(** The columns of [UNIQUE(symbol, date)]. *)
Definition key (r : hist_row) : string * Z := (symbol r, date r).

(** [INSERT OR REPLACE INTO historical_data]: the rows that clash on the
    unique key are deleted, then the new row is added under a fresh id.
    The values are kept as the numbers of the bar, which is what sqlite3
    stores for rows of floats; module [Binding] below gives the upsert with
    the dtype of the rows, whose integers sqlite3 stores as bytes. *)
Definition insert_or_replace (t : db) (sym : string) (b : bar) : db :=
  let d := day_of (Date b) in
  let row := {| id := historical_seq t + 1; symbol := sym; date := d;
                open_price := Open b; high := High b; low := Low b;
                close_price := Close b; volume := Volume b |} in
  {| historical_data :=
       filter (λ r, key r ≠ (sym, d)) (historical_data t) ++ [row];
     historical_seq := historical_seq t + 1;
     fetch_tracking := fetch_tracking t;
     configuration := configuration t |}.

(** The loop of lines 202-215 over the rows of the frame. *)
Definition insert_rows (t : db) (sym : string) (df : DataFrame) : db :=
  foldl (λ t b, insert_or_replace t sym b) t df.

(** [store_historical_data] (lines 199-226).  No statement of the body
    raises on a frame of numbers, so the rollback handler is not reached. *)
Definition store_historical_data (t : db) (sym : string) (df : DataFrame) : db :=
  let t := insert_rows t sym df in
  match last df with
  | None => t
  | Some b =>
      {| historical_data := historical_data t;
         historical_seq := historical_seq t;
         fetch_tracking :=
           alter (λ ft, {| last_historical_date := Some (day_of (Date b));
                           fetch_count := fetch_count ft |})
             sym (fetch_tracking t);
         configuration := configuration t |}
  end.

Definition by_date (r1 r2 : hist_row) : Prop := date r1 ≤ date r2.

#[global] Instance by_date_dec r1 r2 : Decision (by_date r1 r2).
Proof. unfold by_date. apply _. Defined.

Definition row_bar (r : hist_row) : bar :=
  {| Date := date r * 86400; Open := open_price r; High := high r;
     Low := low r; Close := close_price r; Volume := volume r |}.

(** The clause [date >= start_date] of the query, which is there only
    when [days] is given and not zero; [start_date] is [days] days before
    today. *)
Definition since (now : Z) (days : option Z) (d : Z) : bool :=
  match days with
  | Some n => if n =? 0 then true else day_of now - n <=? d
  | None => true
  end.

(** The [WHERE] clause: the rows of the symbol that pass the date test. *)
Definition selected (now : Z) (sym : string) (days : option Z)
    (rows : list hist_row) : list hist_row :=
  filter (λ r, symbol r = sym ∧ since now days (date r)) rows.

(** [get_historical_data] of the database (lines 335-362): the selected
    rows, ordered by date. *)
Definition get_historical_data (t : db) (now : Z) (sym : string)
    (days : option Z) : DataFrame :=
  let results := merge_sort by_date (selected now sym days (historical_data t)) in
  row_bar <$> results.

(** [get_last_historical_date]: [SELECT MAX(date)], as a midnight time. *)
Definition get_last_historical_date (t : db) (sym : string) : option Z :=
  match date <$> filter (λ r, symbol r = sym) (historical_data t) with
  | [] => None
  | d :: ds => Some (foldr Z.max d ds * 86400)
  end.

Definition get_config_value (t : db) (k : string) (dflt : string) : string :=
  default dflt (configuration t !! k).

End Database.

(* ===================================================================== *)
(** ** stock_data.py: the history gateway                                 *)
(* ===================================================================== *)

Module Gateway.
Import Py Indicators.

Record StockDataFetcher : Type := mk_fetcher {
  api_key : option string;
  db : Database.db
}.

Inductive source : Type := AlphaVantage | YahooFinance.

(** What a call leaves behind: the returned frame or the raised exception,
    the database, and the requests made to the price sources. *)
Record outcome : Type := mk_outcome {
  returned : result DataFrame;
  db_after : Database.db;
  fetches : list (source * string * string)
}.

Definition _period_to_days (period : string) : Z :=
  if String.eqb period "1d" then 1
  else if String.eqb period "5d" then 5
  else if String.eqb period "1mo" then 30
  else if String.eqb period "3mo" then 90
  else if String.eqb period "6mo" then 180
  else if String.eqb period "1y" then 365
  else if String.eqb period "2y" then 730
  else if String.eqb period "5y" then 1825
  else if String.eqb period "10y" then 3650
  else 30.

(** Truth value of [self.api_key]. *)
Definition has_key (k : option string) : bool :=
  match k with
  | None | Some EmptyString => false
  | Some _ => true
  end.

Definition nonempty {A} (l : list A) : bool :=
  match l with
  | [] => false
  | _ => true
  end.

Section Sources.

(** The two network collaborators, [_get_historical_alpha_vantage] and
    [_get_historical_free_api]: given symbol and period they return a frame
    or raise. *)
Variable alpha_vantage : string → string → result DataFrame.
Variable free_api : string → string → result DataFrame.

(** The cache test of lines 215-223: the stored window when it is not empty
    and the newest bar of the symbol is less than a day old. *)
Definition fresh_cache (t : Database.db) (now : Z) (sym : string) (days : Z)
  : option DataFrame :=
  let db_data := Database.get_historical_data t now sym (Some days) in
  if nonempty db_data then
    match Database.get_last_historical_date t sym with
    | Some last_date =>
        if (now - last_date) / 86400 <? 1 then Some db_data else None
    | None => None
    end
  else None.

(** The period of lines 210-211. *)
Definition resolve_period (self : StockDataFetcher) (period : option string)
  : string :=
  match period with
  | Some p => p
  | None => Database.get_config_value (db self) "default_fetch_days" "5" ++ "d"
  end.

(** The request of lines 226-229, to the source the key selects. *)
Definition fetch (self : StockDataFetcher) (sym period : string)
  : source * result DataFrame :=
  if has_key (api_key self)
  then (AlphaVantage, alpha_vantage sym period)
  else (YahooFinance, free_api sym period).

(** [get_historical_data] of the fetcher (lines 210-246); [now] is the
    clock, read as one instant for the whole call. *)
Definition get_historical_data (self : StockDataFetcher) (now : Z)
    (sym : string) (period : option string) (force_fetch : bool) : outcome :=
  let period := resolve_period self period in
  let days := _period_to_days period in
  match (if force_fetch then None else fresh_cache (db self) now sym days) with
  | Some db_data =>
      {| returned := mret db_data; db_after := db self; fetches := [] |}
  | None =>
      let '(src, fetched) := fetch self sym period in
      match fetched with
      | inr df =>
          {| returned := mret df;
             db_after :=
               if nonempty df
               then Database.store_historical_data (db self) sym df
               else db self;
             fetches := [(src, sym, period)] |}
      | inl e =>
          let db_data :=
            Database.get_historical_data (db self) now sym (Some days) in
          {| returned :=
               if nonempty db_data then mret db_data
               else raise (Exception ("No historical data available for "
                                        ++ sym ++ ": " ++ str_exn e));
             db_after := db self;
             fetches := [(src, sym, period)] |}
      end
  end.

End Sources.

End Gateway.

(* ===================================================================== *)
(** ** The scoring table of the specification (section 4.5)               *)
(* ===================================================================== *)

Module Table.
Import Py.

Record inputs : Type := mk_inputs {
  technical : dict;
  trend : dict;
  volume : dict;
  risk : dict;
  news : dict
}.

(** The numeric indicator [k] of a technical analysis, with the default the
    engine reads for a missing key; nothing when the analysis carries no
    indicators or the entry is not a number. *)
Definition indicator (i : inputs) (k : string) (dflt : Z) : option Q :=
  match dict_lookup (technical i) "indicators" with
  | Some (VDict ind) => num_of (dict_get ind k (VInt dflt))
  | _ => None
  end.

Definition rsi_below (bound : Q) (i : inputs) : bool :=
  match indicator i "rsi" 50 with
  | Some r => Qltb r bound
  | None => false
  end.

Definition rsi_above (bound : Q) (i : inputs) : bool :=
  match indicator i "rsi" 50 with
  | Some r => Qltb bound r
  | None => false
  end.

Definition macd_above_signal (i : inputs) : bool :=
  match indicator i "macd" 0, indicator i "macd_signal" 0 with
  | Some m, Some s => Qltb s m
  | _, _ => false
  end.

Definition macd_at_most_signal (i : inputs) : bool :=
  match indicator i "macd" 0, indicator i "macd_signal" 0 with
  | Some m, Some s => Qle_bool m s
  | _, _ => false
  end.

Definition trend_is (label : string) (i : inputs) : bool :=
  eq_str (dict_get (trend i) "trend" VNone) label.

Definition sentiment_is (label : string) (i : inputs) : bool :=
  eq_str (dict_get (news i) "overall_sentiment" (VStr "neutral")) label.

Definition risk_is (label : string) (i : inputs) : bool :=
  eq_str (dict_get (risk i) "risk_level" (VStr "medium")) label.

Record row : Type := mk_row {
  condition : inputs → bool;
  delta : Z;
  factor_text : string
}.

(** The nine rows, in the order of the table. *)
Definition table : list row :=
  [ mk_row (rsi_below 30) 2 "RSI oversold (bullish)";
    mk_row (rsi_above 70) (-2) "RSI overbought (bearish)";
    mk_row macd_above_signal 1 "MACD bullish crossover";
    mk_row macd_at_most_signal (-1) "MACD bearish crossover";
    mk_row (trend_is "bullish") 2 "Strong bullish trend";
    mk_row (trend_is "bearish") (-2) "Strong bearish trend";
    mk_row (sentiment_is "positive") 1 "Positive news sentiment";
    mk_row (sentiment_is "negative") (-1) "Negative news sentiment";
    mk_row (risk_is "high") (-1) "High volatility risk" ].

(** The sum of the deltas of the rows whose condition holds. *)
Definition table_score (i : inputs) : Z :=
  foldr Z.add 0 (delta <$> List.filter (λ r, condition r i) table).

(** The delta of the row a factor string belongs to. *)
Definition factor_delta (text : string) : Z :=
  match List.find (λ r, String.eqb (factor_text r) text) table with
  | Some r => delta r
  | None => 0
  end.

(** The score re-derived from a list of factor strings. *)
Definition rederive (factors : list string) : Z :=
  foldr Z.add 0 (factor_delta <$> factors).

(** The indicator block is absent, or a dict whose three entries, where
    present, are numbers. *)
Definition numeric_indicators (technical : dict) : bool :=
  match dict_lookup technical "indicators" with
  | None => true
  | Some (VDict ind) =>
      bool_decide (is_Some (num_of (dict_get ind "rsi" (VInt 50))))
      && bool_decide (is_Some (num_of (dict_get ind "macd" (VInt 0))))
      && bool_decide (is_Some (num_of (dict_get ind "macd_signal" (VInt 0))))
  | Some _ => false
  end.

Definition run (i : inputs) : Recommendation.rec_dict :=
  Recommendation._generate_recommendation
    (technical i) (trend i) (volume i) (risk i) (news i).

(** The tier rule of section 4.5 for a total score [s], the confidence
    formula being passed through [rounding] (the identity in the wording of
    the specification). *)
Definition tier_rule (rounding : Q → Q) (s : Z) (r : Recommendation.rec_dict)
  : Prop :=
  let tier := Recommendation.recommendation r in
  let action := Recommendation.action r in
  let confidence := Recommendation.confidence r in
  (3 ≤ s →
   tier = "strong_buy" ∧ action = "BUY"
   ∧ (confidence == rounding (Qmin (inject_Z s / 5 * 100) 95))%Q)
  ∧ (1 ≤ s < 3 →
     tier = "buy" ∧ action = "BUY"
     ∧ (confidence == rounding (Qmin (inject_Z s / 3 * 100) 80))%Q)
  ∧ (s ≤ -3 →
     tier = "strong_sell" ∧ action = "SELL"
     ∧ (confidence == rounding (Qmin (inject_Z (Z.abs s) / 5 * 100) 95))%Q)
  ∧ (-3 < s ≤ -1 →
     tier = "sell" ∧ action = "SELL"
     ∧ (confidence == rounding (Qmin (inject_Z (Z.abs s) / 3 * 100) 80))%Q)
  ∧ (s = 0 →
     tier = "hold" ∧ action = "HOLD" ∧ (confidence == 60)%Q).

End Table.

(* ===================================================================== *)
(** ** The RSI of the specification (section 4.3)                         *)
(* ===================================================================== *)

Module RsiSpec.
Import Indicators.

(** The last [n] entries of a list. *)
Definition last_n {A} (n : nat) (l : list A) : list A :=
  drop (length l - n) l.

(** The gain and the loss of one period, from its price difference. *)
Definition gain_of (d : Q) : Q := if Py.Qltb 0 d then d else 0%Q.
Definition loss_of (d : Q) : Q := (- (if Py.Qltb d 0 then d else 0))%Q.

(** The average gain and the average loss over the last 14 periods. *)
Definition average_gain (prices : list Q) : Q :=
  mean (gain_of <$> last_n 14 (diffsQ prices)).

Definition average_loss (prices : list Q) : Q :=
  mean (loss_of <$> last_n 14 (diffsQ prices)).

(** The RSI of an average gain and an average loss, as floats. *)
Definition rsi_of (g l : flt) : flt := rsi_of_rs (fdiv g l).

(** An entry of a rolled series of gains or losses: NaN, or a finite
    number that is not negative. *)
Definition nonneg_or_nan (x : flt) : Prop :=
  x = NaN ∨ ∃ q, x = Fin q ∧ (0 <= q)%Q.

End RsiSpec.

(* ===================================================================== *)
(** ** The per-article sentiment of the specification (section 4.4)       *)
(* ===================================================================== *)

Module NewsSpec.
Import News.

(** Positive keyword matches minus negative keyword matches in the title
    and the description. *)
Definition keyword_score (a : article) : Z :=
  let text :=
    lower (default "" (a !! "title") ++ " " ++ default "" (a !! "description")) in
  keyword_hits positive_keywords text - keyword_hits negative_keywords text.

Definition sign_label (z : Z) : string :=
  if 0 <? z then "positive" else if z <? 0 then "negative" else "neutral".

(** The article with its ['sentiment'] key set to the label of its score. *)
Definition mark (a : article) : article :=
  <["sentiment" := sign_label (keyword_score a)]> a.

End NewsSpec.

(* ===================================================================== *)
(** ** The cache contract of the specification (section 4.1)              *)
(* ===================================================================== *)

Module CacheSpec.
Import Indicators Database.

(** The database after a sequence of upserts into a new file. *)
Definition upserts (ops : list (string * DataFrame)) : db :=
  foldl (λ t op, store_historical_data t (fst op) (snd op)) create_tables ops.

(** The constraint [UNIQUE(symbol, date)] on the stored rows. *)
Definition unique_keys (rows : list hist_row) : Prop := NoDup (key <$> rows).

(** What a row stores, its row id apart. *)
Definition content (r : hist_row) : string * Z * bar :=
  (symbol r, date r, row_bar r).

(** A bar as the cache hands it back: dated at midnight of its day. *)
Definition stored (b : bar) : bar :=
  {| Date := day_of (Date b) * 86400; Open := Open b; High := High b;
     Low := Low b; Close := Close b; Volume := Volume b |}.

(** The keys an upsert of [df] for [sym] writes. *)
Definition keys_of (sym : string) (df : DataFrame) : list (string * Z) :=
  (λ b, (sym, day_of (Date b))) <$> df.

(** The order of a Series: by the date of the bars. *)
Definition by_Date (b1 b2 : bar) : Prop := Date b1 ≤ Date b2.
Definition before (b1 b2 : bar) : Prop := Date b1 < Date b2.

End CacheSpec.

(* ===================================================================== *)
(** ** The gateway contract of the specification (section 4.2)            *)
(* ===================================================================== *)

Module GatewaySpec.
Import Py Indicators.

(** The cache holds data of the symbol fresher than one day: its newest
    bar is dated less than a day before [now]. *)
Definition fresher_than_a_day (t : Database.db) (now : Z) (sym : string)
  : Prop :=
  ∃ last_date, Database.get_last_historical_date t sym = Some last_date
               ∧ now - last_date < 86400.

(** The cache holds some bar of the symbol, of whatever age. *)
Definition holds_any_data (t : Database.db) (now : Z) (sym : string) : Prop :=
  Database.get_historical_data t now sym None ≠ [].

(** The failure the gateway raises when it has nothing to return. *)
Definition DataUnavailable (sym : string) (e : exn) : exn :=
  Exception ("No historical data available for " ++ sym ++ ": " ++ str_exn e).

End GatewaySpec.

(* ===================================================================== *)
(** ** Concrete inputs used below                                         *)
(* ===================================================================== *)

Module Examples.
Import Py Indicators.

(** RSI 50, MACD above its signal, sideways trend, neutral news, low risk:
    the only factor is the MACD crossover and the score is 1. *)
Definition buy_inputs : Table.inputs :=
  {| Table.technical :=
       [("indicators",
         VDict [("rsi", VFloat 50); ("macd", VFloat 1); ("macd_signal", VFloat 0)])];
     Table.trend := [("trend", VStr "sideways")];
     Table.volume := [("volume_trend", VStr "normal")];
     Table.risk := [("risk_level", VStr "low")];
     Table.news := [("overall_sentiment", VStr "neutral")] |}.

(** An oversold, bullish, well-reported but volatile stock: score 5. *)
Definition strong_buy_inputs : Table.inputs :=
  {| Table.technical :=
       [("indicators",
         VDict [("rsi", VFloat 20); ("macd", VFloat 1); ("macd_signal", VInt 0)])];
     Table.trend := [("trend", VStr "bullish")];
     Table.volume := [];
     Table.risk := [("risk_level", VStr "high")];
     Table.news := [("overall_sentiment", VStr "positive")] |}.

(** A technical analysis whose RSI entry is a string: [rsi < 30] raises. *)
Definition faulty_inputs : Table.inputs :=
  {| Table.technical := [("indicators", VDict [("rsi", VStr "n/a")])];
     Table.trend := [("trend", VStr "bullish")];
     Table.volume := [];
     Table.risk := [];
     Table.news := [] |}.

(** Fifteen closes rising by one from 100 to 114. *)
Definition rising_closes : list Q :=
  (λ n, inject_Z (100 + Z.of_nat n)) <$> seq 0 15.

(** Fifteen equal closes. *)
Definition flat_closes : list Q := replicate 15 100%Q.

(** Seventeen closes that rise and fall. *)
Definition mixed_closes : list Q :=
  [1; 2; 3; 2; 3; 4; 3; 4; 5; 4; 5; 6; 5; 6; 7; 6; 7]%Q.

Definition bar_on (day : Z) (close : Q) : bar :=
  {| Date := day * 86400 + 34200; Open := close; High := close + 1;
     Low := close - 1; Close := close; Volume := 1000 |}.

(** A cache that holds two bars of AAPL, of day 1 and day 2. *)
Definition old_cache : Database.db :=
  Database.store_historical_data Database.create_tables "AAPL"
    [bar_on 1 100; bar_on 2 101].

Definition keyless (t : Database.db) : Gateway.StockDataFetcher :=
  {| Gateway.api_key := None; Gateway.db := t |}.

(** A price source that is down. *)
Definition source_down : string → string → result DataFrame :=
  λ sym _, raise (Exception ("Failed to fetch historical data for " ++ sym
                               ++ ": timeout")).

(** A price source that answers with one bar of day 100. *)
Definition source_up : string → string → result DataFrame :=
  λ _ _, mret [bar_on 100 110].

(** A price source whose newest bar is of day 2: it answers with the bars
    of day 1 and day 2. *)
Definition source_two_days : string → string → result DataFrame :=
  λ _ _, mret [bar_on 1 100; bar_on 2 101].

(** Two articles, the first one listed twice. *)
Definition newsroom : News.store :=
  {[ 1%nat := {[ "title" := "Apple profit SURGE";
                 "description" := "strong growth";
                 "sentiment" := "neutral" ]};
     2%nat := {[ "title" := "Stocks crash"; "link" := "http://example.org/a" ]} ]}.

End Examples.

(* ===================================================================== *)
(** ** ai_analyzer.py: trend, volume and drawdown                         *)
(* ===================================================================== *)

Module Analysis.
Import Py Indicators.

(** [s.iloc[-k]] *)
Definition iloc_neg {A} (k : nat) (s : list A) : result A :=
  match (if decide (0 < k ≤ length s)%nat then s !! (length s - k)%nat
         else None) with
  | Some x => mret x
  | None => raise (IndexError "single positional indexer is out-of-bounds")
  end.

(** [abs(x)] *)
Definition fabs (x : flt) : flt :=
  match x with
  | Fin q => Fin (Qabs q)
  | PInf | NInf => PInf
  | NaN => NaN
  end.

(** The builtin [min(a, b)]: [b] when [b < a], else [a]. *)
Definition py_min (a b : flt) : flt := if flt_lt b a then b else a.

(** [(a - b) / b * 100] on numpy floats: a zero [b] gives an infinity or
    NaN, not an exception. *)
Definition percent_change (a b : Q) : flt :=
  fmul (fdiv (fsub (Fin a) (Fin b)) (Fin b)) (Fin 100).

(** The dict of [_trend_analysis]; the two changes are present only on the
    computed path and ['error'] only on the handler's. *)
Record trend_dict : Type := mk_trend {
  trend : string;
  strength : flt;
  short_term_change : option flt;
  medium_term_change : option flt;
  trend_error : option string
}.

(** Lines 275-283: direction and strength from the short-term change. *)
Definition classify_trend (short_term_change : flt) : string * flt :=
  if fgt short_term_change (Fin 2) then
    ("bullish", py_min (fdiv (fabs short_term_change) (Fin 5)) (Fin 1))
  else if flt_lt short_term_change (Fin (-2)) then
    ("bearish", py_min (fdiv (fabs short_term_change) (Fin 5)) (Fin 1))
  else ("sideways", Fin 0.5).

(** Lines 267-290. *)
Definition trend_analysis_try (df : DataFrame) : result trend_dict :=
  if decide (length df < 5)%nat then
    mret {| trend := "insufficient_data"; strength := Fin 0;
            short_term_change := None; medium_term_change := None;
            trend_error := None |}
  else
    let closes := Close <$> df in
    c1 ← iloc_neg 1 closes;
    c5 ← iloc_neg 5 closes;
    let short_term_change := percent_change c1 c5 in
    medium_term_change ←
      (if decide (10 ≤ length df)%nat then
         c1 ← iloc_neg 1 closes;
         c10 ← iloc_neg 10 closes;
         mret (percent_change c1 c10)
       else mret short_term_change);
    let '(trend, strength) := classify_trend short_term_change in
    mret {| trend := trend; strength := strength;
            short_term_change := Some short_term_change;
            medium_term_change := Some medium_term_change;
            trend_error := None |}.

Definition _trend_analysis (df : DataFrame) : trend_dict :=
  match trend_analysis_try df with
  | inr r => r
  | inl e => {| trend := "unknown"; strength := Fin 0;
                short_term_change := None; medium_term_change := None;
                trend_error := Some (str_exn e) |}
  end.

(** The dict of [_volume_analysis]; a frame always has its [Volume]
    column here. *)
Record volume_dict : Type := mk_volume {
  volume_trend : string;
  volume_ratio : option Q;
  recent_avg_volume : option Q;
  overall_avg_volume : option Q
}.

(** Lines 298-318; nothing in the body raises. *)
Definition _volume_analysis (df : DataFrame) : volume_dict :=
  if decide (length df < 5)%nat then
    {| volume_trend := "unknown"; volume_ratio := None;
       recent_avg_volume := None; overall_avg_volume := None |}
  else
    let volumes := Volume <$> df in
    let recent_volume := mean (drop (length volumes - 5) volumes) in
    let avg_volume := mean volumes in
    let volume_ratio :=
      if Qltb 0 avg_volume then (recent_volume / avg_volume)%Q else 1%Q in
    let volume_trend :=
      if Qltb 1.5 volume_ratio then "increasing"
      else if Qltb volume_ratio 0.7 then "decreasing"
      else "normal" in
    {| volume_trend := volume_trend; volume_ratio := Some volume_ratio;
       recent_avg_volume := Some recent_volume;
       overall_avg_volume := Some avg_volume |}.

(** [prices.expanding().max()]: the running peak. *)
Fixpoint expanding_max_from (peak : Q) (prices : list Q) : list Q :=
  match prices with
  | [] => []
  | p :: prices' =>
      let peak' := Qmax peak p in
      peak' :: expanding_max_from peak' prices'
  end.

Definition expanding_max (prices : list Q) : list Q :=
  match prices with
  | [] => []
  | p :: prices' => p :: expanding_max_from p prices'
  end.

(** [_calculate_max_drawdown] (lines 352-355): the least of
    [(price - peak) / peak]; the minimum skips NaN and is NaN when nothing
    is left.  No step raises, so the handler's 0.0 is not reached. *)
Definition _calculate_max_drawdown (prices : list Q) : flt :=
  let peak := expanding_max prices in
  let drawdown :=
    zip_with (λ p k, fdiv (fsub (Fin p) (Fin k)) (Fin k)) prices peak in
  series_min drawdown.

End Analysis.

(* ===================================================================== *)
(** ** news_fetcher.py: collecting the articles                           *)
(* ===================================================================== *)

Module NewsSearch.
Import Py News.

(** [str.upper] on the ASCII letters; other bytes are kept. *)
Definition upper_ascii (c : ascii) : ascii :=
  let n := nat_of_ascii c in
  if (97 <=? n)%nat && (n <=? 122)%nat then ascii_of_nat (n - 32) else c.

Fixpoint upper (s : string) : string :=
  match s with
  | EmptyString => EmptyString
  | String c s' => String (upper_ascii c) (upper s')
  end.

Definition company_map : list (string * string) :=
  [("AAPL", "Apple Inc"); ("GOOGL", "Alphabet Google");
   ("MSFT", "Microsoft Corporation"); ("AMZN", "Amazon"); ("TSLA", "Tesla");
   ("META", "Meta Facebook"); ("NVDA", "NVIDIA"); ("NFLX", "Netflix");
   ("DIS", "Disney"); ("ORCL", "Oracle")].

(** [company_map.get(symbol.upper(), '')] *)
Definition _get_company_name (symbol : string) : string :=
  match List.find (λ kv, String.eqb (fst kv) (upper symbol)) company_map with
  | Some kv => snd kv
  | None => ""
  end.

(** [article.get('title', '').lower()], the key of the duplicate test. *)
Definition title_key (a : article) : string :=
  lower (default "" (a !! "title")).

(** [x.get('published_date', '')], the key of the sort. *)
Definition published (a : article) : string :=
  default "" (a !! "published_date").

(** Lines 53-59: the first article of every title is kept. *)
Fixpoint unique_by_title (seen_titles : gset string) (articles : list article)
  : list article :=
  match articles with
  | [] => []
  | a :: rest =>
      if decide (title_key a ∈ seen_titles) then
        unique_by_title seen_titles rest
      else a :: unique_by_title ({[title_key a]} ∪ seen_titles) rest
  end.

(** [list.sort(key=published, reverse=True)]: greatest key first, articles
    with equal keys in their original order. *)
Fixpoint insert_newest_first (a : article) (sorted : list article)
  : list article :=
  match sorted with
  | [] => [a]
  | b :: rest =>
      if String.ltb (published a) (published b)
      then b :: insert_newest_first a rest
      else a :: b :: rest
  end.

Definition sort_newest_first (articles : list article) : list article :=
  foldr insert_newest_first [] articles.

(** Lines 40-42 and the slice of line 44. *)
Definition queries_for (symbol : string) : list string :=
  let company_names := _get_company_name symbol in
  let queries := [symbol; symbol ++ " stock"; symbol ++ " earnings"] in
  let queries :=
    match company_names with
    | EmptyString => queries
    | _ =>
        (queries ++ [company_names; String.append company_names " stock"])%list
    end in
  take 3 queries.

Section Search.

(** [_search_google_news], the request to the news source: the articles
    found for a query and a number of days, or an exception. *)
Variable search : string → Z → result (list article).

(** The loop of lines 44-50: the results of the queries that succeed, in
    the order of the queries. *)
Fixpoint gather (queries : list string) (days : Z) : list article :=
  match queries with
  | [] => []
  | query :: rest =>
      match search query days with
      | inr articles => (articles ++ gather rest days)%list
      | inl _ => gather rest days
      end
  end.

(** [get_stock_news] (lines 33-64), with the queries it sends.  Nothing
    outside the guarded request raises, so the outer handler is not
    reached. *)
Definition get_stock_news (symbol : string) (days : Z)
  : list article * list string :=
  let queries := queries_for symbol in
  let news_articles := gather queries days in
  let unique_articles := unique_by_title ∅ news_articles in
  (take 10 (sort_newest_first unique_articles), queries).

Definition market_queries : list string :=
  ["stock market"; "S&P 500"; "nasdaq"; "dow jones"].

(** The loop of lines 305-310: the first two articles of every query. *)
Fixpoint gather_two (queries : list string) : list article :=
  match queries with
  | [] => []
  | query :: rest =>
      match search query 3 with
      | inr articles => (take 2 articles ++ gather_two rest)%list
      | inl _ => gather_two rest
      end
  end.

(** The loop of lines 313-319: first articles of every title, up to
    [limit] of them. *)
Fixpoint unique_up_to (limit : Z) (seen_titles : gset string)
    (unique_articles all_articles : list article) : list article :=
  match all_articles with
  | [] => unique_articles
  | a :: rest =>
      if decide ((title_key a ∉ seen_titles)
                 ∧ (Z.of_nat (length unique_articles) < limit)) then
        unique_up_to limit ({[title_key a]} ∪ seen_titles)
          (unique_articles ++ [a]) rest
      else unique_up_to limit seen_titles unique_articles rest
  end.

(** [get_market_news] (lines 301-321). *)
Definition get_market_news (limit : Z) : list article :=
  unique_up_to limit ∅ [] (gather_two market_queries).

End Search.

End NewsSearch.

(* ===================================================================== *)
(** ** Further inputs and notions used by the properties below            *)
(* ===================================================================== *)

Module AnalysisSpec.
Import Py Indicators.

(** An entry of a drawdown series of positive prices: a finite number
    greater than -1 and at most 0. *)
Definition drawdown_entry (x : flt) : Prop :=
  ∃ d, x = Fin d ∧ (-1 < d <= 0)%Q.

(** A stand-in for the square root on rationals: the integer root of the
    floor.  It is used where a concrete root is needed to run the bands. *)
Definition floor_sqrt (q : Q) : Q := inject_Z (Z.sqrt (Qfloor q)).

(** Five bars closing at 100, 101, 102, 103 and 104. *)
Definition five_bars : DataFrame :=
  [Examples.bar_on 1 100; Examples.bar_on 2 101; Examples.bar_on 3 102;
   Examples.bar_on 4 103; Examples.bar_on 5 104].

(** Two bars. *)
Definition two_bars : DataFrame :=
  [Examples.bar_on 1 100; Examples.bar_on 2 101].

End AnalysisSpec.

Module NewsNotions.
Import Py News NewsSearch.

(** The score the sentiment loop records for the article behind a
    reference. *)
Definition score_of (h : store) (ref : nat) : Z :=
  snd (article_sentiment (default ∅ (h !! ref))).

(** A list of article scores: each one is 1, -1 or 0. *)
Definition signs (l : list Z) : Prop := Forall (λ z, z = 1 ∨ z = -1 ∨ z = 0) l.

(** Newest first: the first article is not older than the second, in the
    order of the publication strings. *)
Definition not_older (a b : article) : Prop :=
  String.ltb (published a) (published b) = false.

End NewsNotions.

(* ===================================================================== *)
(** ** database.py: the tracking table                                    *)
(* ===================================================================== *)

Module Tracking.
Import Indicators Database.

(** [_update_fetch_tracking] (lines 232-245), which [store_stock_data] runs
    after it has logged a quote: INSERT OR REPLACE of the row of the symbol,
    with the old fetch count plus one.  The statement names no
    [last_historical_date], so the new row holds NULL there. *)
Definition _update_fetch_tracking (t : db) (sym : string) : db :=
  {| historical_data := historical_data t;
     historical_seq := historical_seq t;
     fetch_tracking :=
       <[sym := {| last_historical_date := None;
                   fetch_count :=
                     default 0 (fetch_count <$> fetch_tracking t !! sym) + 1 |}]>
         (fetch_tracking t);
     configuration := configuration t |}.

(** The writes that touch the tracking table. *)
Inductive write : Type :=
  | Quote (sym : string)
  | History (sym : string) (df : DataFrame).

Definition apply_write (t : db) (w : write) : db :=
  match w with
  | Quote sym => _update_fetch_tracking t sym
  | History sym df => store_historical_data t sym df
  end.

Definition writes (ws : list write) : db := foldl apply_write create_tables ws.

Definition is_quote (sym : string) (w : write) : bool :=
  match w with
  | Quote s => String.eqb s sym
  | History _ _ => false
  end.

(** How many quotes of the symbol were stored. *)
Definition quotes_of (sym : string) (ws : list write) : Z :=
  Z.of_nat (length (List.filter (is_quote sym) ws)).

End Tracking.

(* ===================================================================== *)
(** ** db_manager.py: the configured number of days                       *)
(* ===================================================================== *)

Module Manager.
Import Database.

(** [set_config_value] (database.py, lines 383-396). *)
Definition set_config_value (t : db) (k v : string) : db :=
  {| historical_data := historical_data t;
     historical_seq := historical_seq t;
     fetch_tracking := fetch_tracking t;
     configuration := <[k := v]> (configuration t) |}.

(** [DatabaseManager.set_fetch_days] (db_manager.py, lines 49-58): the
    database afterwards, the success flag and the message. *)
Definition set_fetch_days (t : db) (days : Z) : db * (bool * string) :=
  if decide (days < 1 ∨ days > 365)
  then (t, (false, "Days must be between 1 and 365"))
  else (set_config_value t "default_fetch_days" (pretty days),
        (true, "Default fetch days set to: " ++ pretty days)).

End Manager.

(* ===================================================================== *)
(** ** stock_data.py: market hours                                        *)
(* ===================================================================== *)

Module Market.

(** A naive [datetime]: the calendar day, counted from 1970-01-01, and the
    microseconds since midnight.  Days are far from the ends of the range
    of [datetime], so that adding a few days does not overflow. *)
Record datetime : Type := mk_datetime {
  day : Z;
  usec : Z
}.

(** [weekday()]: Monday is 0 and Sunday is 6; 1970-01-01 was a Thursday. *)
Definition weekday (d : datetime) : Z := (day d + 3) mod 7.

(** 09:30:00 and 16:00:00 in microseconds since midnight. *)
Definition open_usec : Z := (9 * 3600 + 30 * 60) * 1000000.
Definition close_usec : Z := 16 * 3600 * 1000000.

(** [d.replace(hour=9, minute=30, second=0, microsecond=0)]. *)
Definition at_open (d : datetime) : datetime :=
  {| day := day d; usec := open_usec |}.

(** [d.replace(hour=16, minute=0, second=0, microsecond=0)]. *)
Definition at_close (d : datetime) : datetime :=
  {| day := day d; usec := close_usec |}.

(** [d.replace(hour=9, minute=30).time()]: the seconds and microseconds
    of [d] are kept. *)
Definition half_past_nine_of (d : datetime) : Z :=
  open_usec + usec d mod 60000000.

(** [d + timedelta(days=n)]. *)
Definition plus_days (d : datetime) (n : Z) : datetime :=
  {| day := day d + n; usec := usec d |}.

(** Comparison of two datetimes. *)
Definition dt_le (a b : datetime) : Prop :=
  day a < day b ∨ (day a = day b ∧ usec a ≤ usec b).
Definition dt_lt (a b : datetime) : Prop :=
  day a < day b ∨ (day a = day b ∧ usec a < usec b).

#[global] Instance dt_le_dec a b : Decision (dt_le a b).
Proof. unfold dt_le. apply _. Defined.

(** The loop of lines 417-419, run for at most [fuel] rounds. *)
Fixpoint skip_weekend (fuel : nat) (now : datetime) (days_ahead : Z)
  : option Z :=
  match fuel with
  | O => None
  | S fuel =>
      if 5 <=? weekday (plus_days now days_ahead)
      then skip_weekend fuel now (days_ahead + 1)
      else Some days_ahead
  end.

(** [_get_next_market_open] (lines 409-423).  The clock is read twice:
    [now] at line 411 and [now2] inside the test of line 414. *)
Definition _get_next_market_open (fuel : nat) (now now2 : datetime)
  : option datetime :=
  if decide (usec now < half_past_nine_of now2 ∧ weekday now < 5)
  then Some (at_open now)
  else
    days_ahead ← skip_weekend fuel now 1;
    Some (at_open (plus_days now days_ahead)).

Record market_status : Type := mk_status {
  is_open : bool;
  current_time : datetime;
  market_open : string;
  market_close : string;
  next_open : option datetime;
  timezone : string
}.

(** [get_market_status] (lines 389-407); [now] is the reading of line 389,
    [now1] and [now2] are the readings of [_get_next_market_open], which is
    called only when the market is closed.  [None] when the loop runs out
    of fuel. *)
Definition get_market_status (fuel : nat) (now now1 now2 : datetime)
  : option market_status :=
  let market_open := at_open now in
  let market_close := at_close now in
  let is_weekday := bool_decide (weekday now < 5) in
  let is_market_hours :=
    bool_decide (dt_le market_open now ∧ dt_le now market_close) in
  let is_open := is_weekday && is_market_hours in
  next ← (if is_open then Some None
          else Some <$> _get_next_market_open fuel now1 now2);
  Some {| is_open := is_open;
          current_time := now;
          market_open := "09:30:00";
          market_close := "16:00:00";
          next_open := next;
          timezone := "ET" |}.

End Market.

(* ===================================================================== *)
(** ** Notions of the cache used by the properties below                  *)
(* ===================================================================== *)

Module CacheNotions.
Import Indicators Database.

(** The bar of the frame that is written last for its day. *)
Definition last_of_day (df : DataFrame) (b : bar) : Prop :=
  ∃ l1 l2, df = (l1 ++ b :: l2)%list
           ∧ ∀ b', b' ∈ l2 → day_of (Date b') ≠ day_of (Date b).

End CacheNotions.

(* ===================================================================== *)
(** ** ai_analyzer.py: the guard of the analysis                          *)
(* ===================================================================== *)

Module Orchestrator.
Import Py Indicators.



Section Analyze.

(** Lines 43-78 of [analyze_stock], which run the analyses, the
    recommendation and the summary (a request to the language model), and
    the report they assemble. *)
Variable report : Type.
Variable analyse : string → DataFrame → dict → Q → result report.


End Analyze.

End Orchestrator.

(* ===================================================================== *)
(** ** database.py: the history table with the binding of its values      *)
(* ===================================================================== *)

(** Module [Database] keeps the values of a bar as the numbers they are,
    which is how sqlite3 stores them for rows of floats.  Here the upsert
    and the query are given again with the dtype of the rows, which decides
    how sqlite3 binds the values it is handed. *)

Module Binding.
Import Indicators.

(** The dtype of the rows that [iterrows] yields: the common dtype of the
    five columns, which is [int64] when every column holds integers and
    [float64] as soon as one of them holds floats. *)
Inductive dtype : Type := float64 | int64.

(** A frame with the dtype of its rows; the values of an [int64] frame are
    whole numbers. *)
Definition frame : Type := dtype * DataFrame.

(** A value as sqlite3 keeps it and hands it back.  A [numpy.float64] is a
    Python float and is stored as the number it is.  A [numpy.int64] is no
    Python int: sqlite3 takes it through the buffer protocol and stores
    the eight bytes of the integer as a BLOB, which comes back as bytes. *)
Inductive cell : Type :=
  | Number (q : Q)
  | Bytes (q : Q).

(** What [row.get(...)] becomes when it is bound to the statement. *)
Definition bind (dt : dtype) (q : Q) : cell :=
  match dt with
  | float64 => Number q
  | int64 => Bytes q
  end.

(** A row of [historical_data], with the way its five values were bound. *)
Record bound_row : Type := mk_bound_row {
  fields : Database.hist_row;
  bound : dtype
}.

Record db : Type := mk_db {
  historical_data : list bound_row;
  historical_seq : Z;
  fetch_tracking : gmap string Database.tracking;
  configuration : gmap string string
}.

(** The database of module [Database]: the same rows, the binding of their
    values forgotten. *)
Definition erase (t : db) : Database.db :=
  {| Database.historical_data := fields <$> historical_data t;
     Database.historical_seq := historical_seq t;
     Database.fetch_tracking := fetch_tracking t;
     Database.configuration := configuration t |}.

(** [INSERT OR REPLACE INTO historical_data] (lines 203-215). *)
Definition insert_or_replace (t : db) (sym : string) (dt : dtype) (b : bar)
  : db :=
  let d := Database.day_of (Date b) in
  let row := {| Database.id := historical_seq t + 1;
                Database.symbol := sym;
                Database.date := d;
                Database.open_price := Open b;
                Database.high := High b;
                Database.low := Low b;
                Database.close_price := Close b;
                Database.volume := Volume b |} in
  {| historical_data :=
       filter (λ r, Database.key (fields r) ≠ (sym, d)) (historical_data t)
       ++ [{| fields := row; bound := dt |}];
     historical_seq := historical_seq t + 1;
     fetch_tracking := fetch_tracking t;
     configuration := configuration t |}.

(** The loop of lines 202-215 over the rows of the frame. *)
Definition insert_rows (t : db) (sym : string) (f : frame) : db :=
  foldl (λ t b, insert_or_replace t sym f.1 b) t f.2.

(** [store_historical_data] (lines 199-226). *)
Definition store_historical_data (t : db) (sym : string) (f : frame) : db :=
  let t := insert_rows t sym f in
  match last f.2 with
  | None => t
  | Some b =>
      {| historical_data := historical_data t;
         historical_seq := historical_seq t;
         fetch_tracking :=
           alter (λ ft, {| Database.last_historical_date :=
                             Some (Database.day_of (Date b));
                           Database.fetch_count := Database.fetch_count ft |})
             sym (fetch_tracking t);
         configuration := configuration t |}
  end.

(** A row of the frame that [get_historical_data] builds from the result
    of its query. *)
Record stored_bar : Type := mk_stored_bar {
  sDate : Z;
  sOpen : cell;
  sHigh : cell;
  sLow : cell;
  sClose : cell;
  sVolume : cell
}.

Definition row_bar (r : bound_row) : stored_bar :=
  {| sDate := Database.date (fields r) * 86400;
     sOpen := bind (bound r) (Database.open_price (fields r));
     sHigh := bind (bound r) (Database.high (fields r));
     sLow := bind (bound r) (Database.low (fields r));
     sClose := bind (bound r) (Database.close_price (fields r));
     sVolume := bind (bound r) (Database.volume (fields r)) |}.

Definition by_date (r1 r2 : bound_row) : Prop :=
  Database.date (fields r1) ≤ Database.date (fields r2).

#[global] Instance by_date_dec r1 r2 : Decision (by_date r1 r2).
Proof. unfold by_date. apply _. Defined.

Definition selected (now : Z) (sym : string) (days : option Z)
    (rows : list bound_row) : list bound_row :=
  filter (λ r, Database.symbol (fields r) = sym
               ∧ Database.since now days (Database.date (fields r))) rows.

(** [get_historical_data] (lines 335-362). *)
Definition get_historical_data (t : db) (now : Z) (sym : string)
    (days : option Z) : list stored_bar :=
  row_bar <$> merge_sort by_date (selected now sym days (historical_data t)).

(** A bar of a frame as it is read back: dated at midnight of its day, its
    values bound as the dtype of the frame has them. *)
Definition bound_bar (dt : dtype) (b : bar) : stored_bar :=
  {| sDate := Database.day_of (Date b) * 86400;
     sOpen := bind dt (Open b);
     sHigh := bind dt (High b);
     sLow := bind dt (Low b);
     sClose := bind dt (Close b);
     sVolume := bind dt (Volume b) |}.

(** What a row stores, its row id apart. *)
Definition content (r : bound_row) : string * Z * stored_bar :=
  (Database.symbol (fields r), Database.date (fields r), row_bar r).

End Binding.

(* ===================================================================== *)
(** * Properties                                                          *)
(* ===================================================================== *)

(** ** Comparison facts shared by the proofs *)

Lemma Qltb_lt (x y : Q) : Py.Qltb x y = true ↔ (x < y)%Q.
Proof.
  unfold Py.Qltb. rewrite negb_true_iff, <- not_true_iff_false, Qle_bool_iff.
  split; [apply Qnot_le_lt | apply Qlt_not_le].
Qed.

Lemma eq_str_exclusive (v : Py.value) (a b : string) :
  a ≠ b → Py.eq_str v a = true → Py.eq_str v b = true → False.
Proof.
  destruct v; simpl; try discriminate.
  rewrite !String.eqb_eq. congruence.
Qed.

(* ===================================================================== *)
(** ** The recommendation engine                                          *)
(* ===================================================================== *)

Module RecommendationFacts.
Import Py Recommendation Table.

#[local] Arguments conclude : simpl never.

(** Case analysis on the three string-valued inputs; a value cannot equal
    two different labels. *)
Ltac case_label v a b :=
  let H := fresh "H" in
  pose proof (eq_str_exclusive v a b) as H;
  destruct (eq_str v a), (eq_str v b); try (exfalso; by apply H); clear H.

Ltac case_labels trend news risk :=
  case_label (dict_get trend "trend" VNone) "bullish" "bearish";
  case_label (dict_get news "overall_sentiment" (VStr "neutral"))
    "positive" "negative";
  destruct (eq_str (dict_get risk "risk_level" (VStr "medium")) "high").

Ltac tally_done := eexists; split; [reflexivity | split; reflexivity].

Lemma table_score_sum (i : inputs) :
  table_score i =
  foldr (λ r acc, (if condition r i then delta r else 0) + acc) 0 table.
Proof.
  unfold table_score. generalize table. intros l.
  induction l as [|r l IH]; simpl; [done|].
  rewrite <- IH. destruct (condition r i); simpl; [reflexivity|].
  by rewrite Z.add_0_l.
Qed.

Lemma score_conclude (t : tally) : score (conclude t) = Some (fst t).
Proof. destruct t as [s fs]. unfold conclude. by destruct (classify s) as [[? ?] ?]. Qed.

Lemma factors_conclude (t : tally) : factors (conclude t) = Some (snd t).
Proof. destruct t as [s fs]. unfold conclude. by destruct (classify s) as [[? ?] ?]. Qed.

Lemma error_conclude (t : tally) : error (conclude t) = None.
Proof. destruct t as [s fs]. unfold conclude. by destruct (classify s) as [[? ?] ?]. Qed.

(** On numeric indicators the engine reaches its last line, and the tally
    it concludes from carries the table sum both as its score and as the
    sum of the deltas of its factor strings. *)
Lemma tally_is_table_sum (i : inputs) :
  numeric_indicators (technical i) = true →
  ∃ t, run i = conclude t
       ∧ fst t = table_score i
       ∧ rederive (snd t) = table_score i.
Proof.
  destruct i as [technical trend volume risk news]. simpl. intros Hnum.
  rewrite table_score_sum.
  unfold run, _generate_recommendation, generate_recommendation_try. simpl.
  unfold rsi_below, rsi_above, macd_above_signal, macd_at_most_signal,
    indicator, trend_is, sentiment_is, risk_is. simpl.
  unfold technical_factors, dict_mem, py_item, numeric_indicators in *.
  unfold trend_factors, news_factors, risk_factors.
  destruct (dict_lookup technical "indicators") as [[]|];
    try discriminate; simpl.
  - revert Hnum. rewrite !andb_true_iff, !bool_decide_eq_true.
    intros [[[r Hr] [m Hm]] [s Hs]].
    unfold py_lt, py_gt. rewrite Hr, Hm, Hs. simpl. unfold inject_Z.
    assert (Hle : Qle_bool m s = negb (Qltb s m))
      by (unfold Qltb; by rewrite negb_involutive).
    rewrite Hle.
    assert (Hex : Qltb r 30 = true → Qltb 70 r = true → False)
      by (rewrite !Qltb_lt; lra).
    destruct (Qltb r 30), (Qltb 70 r); try (exfalso; by apply Hex); simpl;
      destruct (Qltb s m); simpl; case_labels trend news risk; tally_done.
  - case_labels trend news risk; tally_done.
Qed.

(** C1.  For every combination of inputs with numeric indicators the
    engine returns a scored recommendation whose [score] is the sum of the
    deltas of the section 4.5 rows whose conditions hold, and summing the
    table deltas of the strings in its [factors] list gives the same
    total. *)
Theorem score_is_sum_of_table_deltas (i : inputs) :
  numeric_indicators (technical i) = true →
  ∃ fs, score (run i) = Some (table_score i)
        ∧ factors (run i) = Some fs
        ∧ rederive fs = table_score i
        ∧ error (run i) = None.
Proof.
  intros Hnum. destruct (tally_is_table_sum i Hnum) as (t & -> & Hs & Hf).
  exists (snd t).
  by rewrite score_conclude, factors_conclude, error_conclude, Hs.
Qed.

Lemma score_is_sum_of_table_deltas_witness :
  numeric_indicators (technical Examples.strong_buy_inputs) = true
  ∧ ∃ fs, score (run Examples.strong_buy_inputs)
            = Some (table_score Examples.strong_buy_inputs)
          ∧ factors (run Examples.strong_buy_inputs) = Some fs
          ∧ rederive fs = table_score Examples.strong_buy_inputs
          ∧ error (run Examples.strong_buy_inputs) = None.
Proof.
  split; [reflexivity|].
  apply (score_is_sum_of_table_deltas Examples.strong_buy_inputs).
  reflexivity.
Defined.

Lemma conclude_tier_rule (t : tally) : tier_rule round1 (fst t) (conclude t).
Proof.
  destruct t as [s fs]. unfold tier_rule, conclude, classify. simpl.
  destruct (Z.leb_spec 3 s); [|destruct (Z.leb_spec 1 s);
    [|destruct (Z.leb_spec s (-3)); [|destruct (Z.leb_spec s (-1))]]];
    simpl; repeat split; intros; try lia; reflexivity.
Qed.

(** C2, as stated: the confidence of a [buy] of score 1 would be
    [min(1/3*100, 80)], one third of a hundred.  The engine rounds it. *)
Lemma unrounded_confidence_counterexample :
  score (run Examples.buy_inputs) = Some 1
  ∧ confidence (run Examples.buy_inputs) = 33.3%Q
  ∧ ¬ tier_rule (λ q, q) 1 (run Examples.buy_inputs).
Proof.
  split; [reflexivity|]. split; [reflexivity|].
  intros (_ & Hbuy & _). destruct Hbuy as (_ & _ & Hc); [lia|].
  vm_compute in Hc. discriminate.
Qed.

(** C2, amended.  For every combination of inputs with numeric indicators
    the tier, the action and the confidence follow from the total score:
    at least 3 gives strong_buy/BUY, at least 1 buy/BUY, at most -3
    strong_sell/SELL, at most -1 sell/SELL and 0 hold/HOLD with confidence
    60; the confidence is the formula of the tier rounded to one decimal. *)
Theorem tier_action_confidence_from_score (i : inputs) :
  numeric_indicators (technical i) = true →
  ∃ s, score (run i) = Some s ∧ tier_rule round1 s (run i).
Proof.
  intros Hnum. destruct (tally_is_table_sum i Hnum) as (t & -> & _ & _).
  exists (fst t). split; [apply score_conclude | apply conclude_tier_rule].
Qed.

Lemma tier_action_confidence_from_score_witness :
  numeric_indicators (technical Examples.buy_inputs) = true
  ∧ ∃ s, score (run Examples.buy_inputs) = Some s
         ∧ tier_rule round1 s (run Examples.buy_inputs).
Proof.
  split; [reflexivity|].
  apply (tier_action_confidence_from_score Examples.buy_inputs).
  reflexivity.
Defined.

(** C3, as stated: a fault inside the engine would come back as HOLD with
    confidence 0.  The handler answers 50. *)
Lemma fault_confidence_counterexample :
  generate_recommendation_try
    (technical Examples.faulty_inputs) (trend Examples.faulty_inputs)
    (volume Examples.faulty_inputs) (risk Examples.faulty_inputs)
    (news Examples.faulty_inputs)
  = inl (TypeError "'<' not supported between instances of 'str' and 'int'")
  ∧ action (run Examples.faulty_inputs) = "HOLD"
  ∧ confidence (run Examples.faulty_inputs) = 50%Q
  ∧ ¬ (confidence (run Examples.faulty_inputs) == 0)%Q.
Proof.
  repeat split; try reflexivity. intros H. vm_compute in H. discriminate.
Qed.

(** C3, amended.  When a statement of the engine raises, the exception does
    not leave [_generate_recommendation]: the call returns the tier hold,
    the action HOLD, the confidence 50 and the text of the exception under
    ['error'], and no score, factors or reasoning. *)
Theorem scoring_fault_is_caught (technical trend volume risk news : dict)
    (e : exn) :
  generate_recommendation_try technical trend volume risk news = inl e →
  _generate_recommendation technical trend volume risk news
  = {| recommendation := "hold"; action := "HOLD"; confidence := 50;
       score := None; factors := None; reasoning := None;
       error := Some (str_exn e) |}.
Proof. unfold _generate_recommendation. by intros ->. Qed.

Lemma scoring_fault_is_caught_witness :
  run Examples.faulty_inputs
  = {| recommendation := "hold"; action := "HOLD"; confidence := 50;
       score := None; factors := None; reasoning := None;
       error := Some "'<' not supported between instances of 'str' and 'int'" |}.
Proof.
  apply (scoring_fault_is_caught _ _ _ _ _
           (TypeError "'<' not supported between instances of 'str' and 'int'")).
  reflexivity.
Defined.

(** The handler is reached exactly when the indicator block cannot be
    compared: every other input is scored and carries no ['error']. *)
Lemma scored_or_caught (technical trend volume risk news : dict) :
  let r := _generate_recommendation technical trend volume risk news in
  (∃ s fs, score r = Some s ∧ factors r = Some fs ∧ error r = None)
  ∨ (∃ e, generate_recommendation_try technical trend volume risk news = inl e
          ∧ r = recommendation_fallback e).
Proof.
  unfold _generate_recommendation, generate_recommendation_try.
  destruct (technical_factors technical (0, [])) as [e|t]; simpl.
  - right. by exists e.
  - left. eexists _, _.
    by rewrite score_conclude, factors_conclude, error_conclude.
Qed.

End RecommendationFacts.

(* ===================================================================== *)
(** ** The relative strength index                                        *)
(* ===================================================================== *)

Module RsiFacts.
Import Py Indicators RsiSpec.

Lemma Qsum_nonneg (l : list Q) : Forall (λ q, 0 <= q)%Q l → (0 <= Qsum l)%Q.
Proof.
  unfold Qsum. induction 1 as [|q l Hq _ IH]; simpl; [apply Qle_refl|].
  apply Qle_trans with (0 + 0)%Q; [apply Qle_refl|]. by apply Qplus_le_compat.
Qed.

Lemma mean_nonneg (l : list Q) : Forall (λ q, 0 <= q)%Q l → (0 <= mean l)%Q.
Proof.
  intros Hl. unfold mean, Qdiv. apply Qmult_le_0_compat.
  - by apply Qsum_nonneg.
  - apply Qinv_le_0_compat. change 0%Q with (inject_Z 0).
    rewrite <- Zle_Qle. lia.
Qed.

Lemma rolling_mean_nonneg (w : nat) (s : list flt) :
  Forall (λ x, ∀ q, x = Fin q → (0 <= q)%Q) s →
  Forall nonneg_or_nan (rolling_mean w s).
Proof.
  intros Hs. unfold rolling_mean, rolling. apply Forall_fmap, Forall_forall.
  intros i _. simpl. destruct (decide (w ≤ S i)%nat); [|by left].
  destruct (mapM finite (window w i s)) as [qs|] eqn:Hqs; [|by left].
  right. eexists. split; [reflexivity|]. apply mean_nonneg.
  apply mapM_Some_1 in Hqs.
  assert (Hw : Forall (λ x, ∀ q, x = Fin q → (0 <= q)%Q) (window w i s)).
  { unfold window. by apply Forall_take, Forall_drop. }
  clear -Hqs Hw. induction Hqs as [|x q l k Hx _ IH]; [constructor|].
  inversion_clear Hw as [|? ? Hx2 Hl]. constructor; [|by apply IH].
  apply Hx2. destruct x; by simplify_eq/=.
Qed.

Lemma gains_finite (prices : list Q) :
  Forall (λ x, ∀ q, x = Fin q → (0 <= q)%Q)
    (where_ (λ d, fgt d (Fin 0)) (Fin 0) (diff prices)).
Proof.
  unfold where_. apply Forall_fmap, Forall_forall. intros x _ q. simpl.
  destruct (fgt x (Fin 0)) eqn:Hx.
  - intros ->. simpl in Hx. apply Qltb_lt in Hx. lra.
  - intros [= <-]. apply Qle_refl.
Qed.

Lemma losses_finite (prices : list Q) :
  Forall (λ x, ∀ q, x = Fin q → (0 <= q)%Q)
    (fneg <$> where_ (λ d, flt_lt d (Fin 0)) (Fin 0) (diff prices)).
Proof.
  unfold where_. rewrite <- list_fmap_compose.
  apply Forall_fmap, Forall_forall. intros x _ q. unfold flt_lt.
  destruct x as [d| | |]; cbn; try destruct (Qltb d 0) eqn:Hd; cbn;
    intros ?; simplify_eq; try apply Qltb_lt in Hd; lra.
Qed.

Lemma rsi_of_range (g l : flt) :
  nonneg_or_nan g → nonneg_or_nan l →
  rsi_of g l = NaN ∨ ∃ q, rsi_of g l = Fin q ∧ (0 <= q <= 100)%Q.
Proof.
  intros [->|(a & -> & Ha)] [->|(b & -> & Hb)]; try (by left).
  unfold rsi_of, rsi_of_rs. simpl.
  destruct (Qeq_bool b 0) eqn:Hb0.
  - destruct (Qeq_bool a 0); [by left|].
    right. destruct (Qltb 0 a); simpl; eexists; (split; [reflexivity|]); lra.
  - apply Qeq_bool_neq in Hb0.
    assert (0 <= a / b)%Q as Hrs.
    { apply Qle_shift_div_l; lra. }
    simpl. destruct (Qeq_bool (1 + a / b) 0) eqn:H1.
    { apply Qeq_bool_iff in H1. lra. }
    right. simpl. eexists. split; [reflexivity|].
    assert (0 <= 100 / (1 + a / b))%Q by (apply Qle_shift_div_l; lra).
    assert (100 / (1 + a / b) <= 100)%Q by (apply Qle_shift_div_r; lra).
    lra.
Qed.

Lemma rsi_series_range (prices : list Q) :
  Forall (λ x, x = NaN ∨ ∃ q, x = Fin q ∧ (0 <= q <= 100)%Q) (rsi_series prices).
Proof.
  unfold rsi_series. apply Forall_fmap, Forall_forall. intros rs Hrs.
  apply elem_of_zip_with in Hrs as (g & l & -> & Hg & Hl).
  apply rsi_of_range.
  - eapply Forall_forall; [apply rolling_mean_nonneg, gains_finite | exact Hg].
  - eapply Forall_forall; [apply rolling_mean_nonneg, losses_finite | exact Hl].
Qed.

(** C5.  For every price series the computed RSI is a number between 0 and
    100, and for every series of fewer than 15 bars it is exactly 50. *)
Theorem rsi_range_and_short_default (prices : list Q) :
  (∃ q, _calculate_rsi prices = Fin q ∧ (0 <= q <= 100)%Q)
  ∧ ((length prices < 15)%nat → _calculate_rsi prices = Fin 50).
Proof.
  unfold _calculate_rsi, calculate_rsi_try. split.
  - destruct (decide (length prices < 14 + 1)%nat).
    { exists 50%Q. split; [reflexivity|lra]. }
    unfold iloc_last. destruct (last (rsi_series prices)) as [x|] eqn:Hlast; simpl.
    2: { exists 50%Q. split; [reflexivity|lra]. }
    apply last_Some_elem_of in Hlast.
    pose proof (rsi_series_range prices) as Hall.
    rewrite Forall_forall in Hall. destruct (Hall _ Hlast) as [->|(q & -> & Hq)]; simpl.
    + exists 50%Q. split; [reflexivity|lra].
    + by exists q.
  - intros Hlen. destruct (decide (length prices < 14 + 1)%nat); [done|lia].
Qed.

Lemma last_rolling (w : nat) (agg : list Q → flt) (s : list flt) (n : nat) :
  length s = S n → (w ≤ S n)%nat →
  last (rolling w agg s)
  = Some (match mapM finite (window w n s) with
          | Some qs => agg qs
          | None => NaN
          end).
Proof.
  intros Hlen Hw. unfold rolling.
  rewrite fmap_last, Hlen, seq_S, last_snoc. simpl.
  destruct (decide (w ≤ S n)%nat); [done|lia].
Qed.

Lemma length_diffsQ (prices : list Q) :
  length (diffsQ prices) = pred (length prices).
Proof.
  unfold diffsQ. rewrite length_zip_with.
  destruct prices as [|p ps]; [done|]. cbn [length tail pred]. lia.
Qed.

Lemma length_diff (prices : list Q) : length (diff prices) = length prices.
Proof.
  destruct prices as [|p ps]; [done|]. unfold diff.
  simpl length at 1. by rewrite length_fmap, length_diffsQ.
Qed.

Lemma mapM_finite_Fin (l : list Q) : mapM finite (Fin <$> l) = Some l.
Proof. by apply mapM_fmap_Some. Qed.

(** The last full window of a series that starts with the entry of the
    first bar and goes on with one entry per price difference. *)
Lemma window_of_diffs (f : Q → Q) (x : flt) (ds : list Q) (n : nat) :
  length ds = n → (14 ≤ n)%nat →
  window 14 n (x :: (Fin <$> (f <$> ds))) = Fin <$> (f <$> last_n 14 ds).
Proof.
  intros Hlen Hn. unfold window, last_n.
  replace (S n - 14)%nat with (S (n - 14)) by lia. simpl drop.
  rewrite Hlen, <- !fmap_drop. apply take_ge.
  rewrite !length_fmap, length_drop. lia.
Qed.

Lemma last_rsi_gain (prices : list Q) :
  (15 ≤ length prices)%nat →
  last (rsi_gain prices) = Some (Fin (average_gain prices)).
Proof.
  intros Hlen. unfold rsi_gain, rolling_mean.
  destruct prices as [|p ps] eqn:Hp; [simpl in Hlen; lia|]. rewrite <- Hp in *.
  assert (Hd : length (diffsQ prices) = length ps).
  { rewrite length_diffsQ, Hp. done. }
  assert (Hw : where_ (λ d, fgt d (Fin 0)) (Fin 0) (diff prices)
               = Fin 0 :: (Fin <$> (gain_of <$> diffsQ prices))).
  { unfold diff. rewrite Hp at 1. unfold where_. rewrite fmap_cons. f_equal.
    rewrite <- !list_fmap_compose. apply list_fmap_ext. intros _ d _. simpl.
    unfold gain_of. by destruct (Qltb 0 d). }
  rewrite (last_rolling _ _ _ (length ps)).
  - rewrite Hw, (window_of_diffs gain_of); [|done|rewrite Hp in Hlen; simpl in Hlen; lia].
    by rewrite mapM_finite_Fin.
  - rewrite Hw. simpl. by rewrite !length_fmap, Hd.
  - rewrite Hp in Hlen. simpl in Hlen. lia.
Qed.

Lemma last_rsi_loss (prices : list Q) :
  (15 ≤ length prices)%nat →
  last (rsi_loss prices) = Some (Fin (average_loss prices)).
Proof.
  intros Hlen. unfold rsi_loss, rolling_mean.
  destruct prices as [|p ps] eqn:Hp; [simpl in Hlen; lia|]. rewrite <- Hp in *.
  assert (Hd : length (diffsQ prices) = length ps).
  { rewrite length_diffsQ, Hp. done. }
  assert (Hw : fneg <$> where_ (λ d, flt_lt d (Fin 0)) (Fin 0) (diff prices)
               = Fin (- 0) :: (Fin <$> (loss_of <$> diffsQ prices))).
  { unfold diff. rewrite Hp at 1. unfold where_. rewrite !fmap_cons. f_equal.
    rewrite <- !list_fmap_compose. apply list_fmap_ext. intros _ d _. simpl.
    unfold loss_of, flt_lt. simpl. by destruct (Qltb d 0). }
  rewrite (last_rolling _ _ _ (length ps)).
  - rewrite Hw, (window_of_diffs loss_of); [|done|rewrite Hp in Hlen; simpl in Hlen; lia].
    by rewrite mapM_finite_Fin.
  - rewrite Hw. simpl. by rewrite !length_fmap, Hd.
  - rewrite Hp in Hlen. simpl in Hlen. lia.
Qed.

Lemma length_rolling (w : nat) (agg : list Q → flt) (s : list flt) :
  length (rolling w agg s) = length s.
Proof. unfold rolling. by rewrite length_fmap, length_seq. Qed.

Lemma last_zip_with {A B C} (f : A → B → C) (l : list A) (k : list B) :
  length l = length k →
  last (zip_with f l k)
  = match last l, last k with
    | Some x, Some y => Some (f x y)
    | _, _ => None
    end.
Proof.
  intros Hlen. rewrite !last_lookup, lookup_zip_with, length_zip_with, <- Hlen.
  rewrite Nat.min_id.
  destruct (l !! pred (length l)); simpl; [|done].
  by destruct (k !! pred (length l)).
Qed.

(** With 15 bars or more the function returns the RSI of the two averages
    of the specification, 50 standing in for NaN. *)
Lemma rsi_closed_form (prices : list Q) :
  (15 ≤ length prices)%nat →
  _calculate_rsi prices
  = let x := rsi_of (Fin (average_gain prices)) (Fin (average_loss prices)) in
    if isna x then Fin 50 else x.
Proof.
  intros Hlen. unfold _calculate_rsi, calculate_rsi_try.
  destruct (decide (length prices < 14 + 1)%nat); [lia|].
  unfold iloc_last, rsi_series. rewrite fmap_last, last_zip_with.
  - by rewrite last_rsi_gain, last_rsi_loss.
  - unfold rsi_gain, rsi_loss, rolling_mean.
    rewrite !length_rolling. unfold where_. by rewrite !length_fmap.
Qed.

(** C6, as stated: fifteen closes rising from 100 to 114 have no loss in
    their last 14 periods, and their RSI would be the neutral 50.  It is
    100. *)
Lemma rising_closes_rsi_counterexample :
  (15 ≤ length Examples.rising_closes)%nat
  ∧ (average_loss Examples.rising_closes == 0)%Q
  ∧ _calculate_rsi Examples.rising_closes = Fin 100
  ∧ _calculate_rsi Examples.rising_closes ≠ Fin 50.
Proof.
  split; [vm_compute; lia|]. split; [reflexivity|]. split; [reflexivity|].
  intros H. vm_compute in H. discriminate.
Qed.

(** C6, amended.  For every price series of at least 15 bars whose average
    loss over the last 14 periods is zero, the computed RSI is 100 when the
    average gain over these periods is positive (closes that rise), and it
    is the neutral 50 when the average gain is zero as well (flat closes). *)
Theorem rsi_without_losses (prices : list Q) :
  (15 ≤ length prices)%nat →
  (average_loss prices == 0)%Q →
  ((0 < average_gain prices)%Q → _calculate_rsi prices = Fin 100)
  ∧ ((average_gain prices == 0)%Q → _calculate_rsi prices = Fin 50).
Proof.
  intros Hlen Hloss. rewrite rsi_closed_form by done.
  unfold rsi_of, rsi_of_rs. simpl.
  apply Qeq_bool_iff in Hloss. rewrite Hloss. split.
  - intros Hg. destruct (Qeq_bool (average_gain prices) 0) eqn:H0.
    { apply Qeq_bool_iff in H0. lra. }
    apply Qltb_lt in Hg. by rewrite Hg.
  - intros Hg. apply Qeq_bool_iff in Hg. by rewrite Hg.
Qed.

Lemma rsi_without_losses_witness :
  _calculate_rsi Examples.rising_closes = Fin 100
  ∧ _calculate_rsi Examples.flat_closes = Fin 50.
Proof.
  split.
  - apply (rsi_without_losses Examples.rising_closes);
      [vm_compute; lia | reflexivity | reflexivity].
  - apply (rsi_without_losses Examples.flat_closes);
      [vm_compute; lia | reflexivity | reflexivity].
Defined.

Lemma rsi_range_and_short_default_witness :
  (length [100; 101; 99]%Q < 15)%nat
  ∧ _calculate_rsi [100; 101; 99]%Q = Fin 50.
Proof.
  split; [simpl; lia|].
  apply (rsi_range_and_short_default [100; 101; 99]%Q). simpl. lia.
Defined.

Lemma average_gain_nonneg (prices : list Q) : (0 <= average_gain prices)%Q.
Proof.
  apply mean_nonneg, Forall_fmap, Forall_forall. intros d _. simpl.
  unfold gain_of. destruct (Qltb 0 d) eqn:Hd; [|lra].
  apply Qltb_lt in Hd. lra.
Qed.

(** With losses in the window the result is the formula of section 4.3. *)
Lemma rsi_with_losses (prices : list Q) :
  (15 ≤ length prices)%nat →
  (0 < average_loss prices)%Q →
  ∃ q, _calculate_rsi prices = Fin q
       ∧ (q == 100 - 100 / (1 + average_gain prices / average_loss prices))%Q.
Proof.
  intros Hlen Hloss. rewrite rsi_closed_form by done.
  pose proof (average_gain_nonneg prices) as Hgain.
  unfold rsi_of, rsi_of_rs. simpl.
  destruct (Qeq_bool (average_loss prices) 0) eqn:H0.
  { apply Qeq_bool_iff in H0. lra. }
  assert (0 <= average_gain prices / average_loss prices)%Q
    by (apply Qle_shift_div_l; lra).
  simpl.
  destruct (Qeq_bool (1 + average_gain prices / average_loss prices) 0) eqn:H1.
  { apply Qeq_bool_iff in H1. lra. }
  simpl. eexists. split; [reflexivity|]. unfold Qminus. reflexivity.
Qed.

Example mixed_closes_rsi :
  _calculate_rsi Examples.mixed_closes = Fin (12600 # 196).
Proof. reflexivity. Qed.

End RsiFacts.

(* ===================================================================== *)
(** ** Technical analysis of an empty frame                               *)
(* ===================================================================== *)

Module TechnicalFacts.
Import Py Indicators.

(** The first three steps still give their defaults on an empty frame. *)
Lemma defaults_before_the_bands (sqrt : Q → Q) (current_price : Q) :
  sma 5 [] current_price = inr (Fin current_price)
  ∧ sma 20 [] current_price = inr (Fin current_price)
  ∧ _calculate_rsi [] = Fin 50
  ∧ _calculate_macd [] = macd_zero.
Proof. repeat split. Qed.

(** On an empty frame the Bollinger step reads the last close, in its
    body and again in its handler, and so does the support and resistance
    step; the exception is caught by [_technical_analysis]. *)
Lemma empty_frame_raises_in_the_bands (sqrt : Q → Q) (current_price : Q) :
  _calculate_bollinger_bands sqrt []
  = inl (IndexError "single positional indexer is out-of-bounds")
  ∧ _find_support_resistance []
    = inl (IndexError "single positional indexer is out-of-bounds")
  ∧ _technical_analysis sqrt [] current_price
    = TechnicalError
        "Technical analysis error: single positional indexer is out-of-bounds".
Proof. repeat split. Qed.

(** One bar is enough for the bands to fall back on the last close. *)
Example bands_of_one_bar (sqrt : Q → Q) :
  _calculate_bollinger_bands sqrt [100%Q] = inr (bb_around 100).
Proof. reflexivity. Qed.

End TechnicalFacts.

(* ===================================================================== *)
(** ** News sentiment                                                     *)
(* ===================================================================== *)

Module NewsFacts.
Import Py News NewsSpec.

(** C7.  The early return for an empty list: neutral, confidence 0, the
    three counts 0, and neither ['sentiment_score'] nor
    ['articles_analyzed']; the store is not touched. *)
Theorem sentiment_of_no_articles (h : store) :
  analyze_news_sentiment h []
  = (h, {| overall_sentiment := "neutral";
           positive_count := 0;
           negative_count := 0;
           neutral_count := 0;
           confidence := 0;
           articles_analyzed := None;
           sentiment_score := None |}).
Proof. reflexivity. Qed.

(** A list of neutral articles does carry the score 5. *)
Example sentiment_of_a_neutral_article :
  sentiment_score (snd (analyze_news_sentiment {[ 7%nat := ∅ ]} [7%nat]))
  = Some 5%Q.
Proof. reflexivity. Qed.

Lemma article_sentiment_label (a : article) :
  fst (article_sentiment a) = sign_label (keyword_score a).
Proof.
  unfold article_sentiment, sign_label, keyword_score.
  set (p := keyword_hits positive_keywords _).
  set (n := keyword_hits negative_keywords _).
  destruct (Z.ltb_spec n p), (Z.ltb_spec p n), (Z.ltb_spec 0 (p - n)),
    (Z.ltb_spec (p - n) 0); simpl; try lia; reflexivity.
Qed.

Lemma keyword_score_insert_sentiment (s : string) (a : article) :
  keyword_score (<["sentiment" := s]> a) = keyword_score a.
Proof. unfold keyword_score. by rewrite !lookup_insert_ne. Qed.

Lemma article_sentiment_insert_sentiment (s : string) (a : article) :
  article_sentiment (<["sentiment" := s]> a) = article_sentiment a.
Proof. unfold article_sentiment. by rewrite !lookup_insert_ne. Qed.

Lemma mark_mark (a : article) : mark (mark a) = mark a.
Proof.
  unfold mark. rewrite keyword_score_insert_sentiment. apply insert_insert_eq.
Qed.

Lemma score_articles_store (articles : list nat) (h : store) (scores : list Z)
    (ref : nat) :
  fst (score_articles h articles scores) !! ref
  = if decide (ref ∈ articles) then mark <$> h !! ref else h !! ref.
Proof.
  revert h scores. induction articles as [|r rest IH]; intros h scores.
  { simpl. destruct (decide (ref ∈ [])) as [Hin|]; [|done]. by apply elem_of_nil in Hin. }
  simpl. destruct (article_sentiment (default ∅ (h !! r))) as [sentiment score] eqn:Hs.
  rewrite IH.
  assert (Hstep : alter (insert "sentiment" sentiment) r h !! ref
                  = if decide (ref = r) then mark <$> h !! ref else h !! ref).
  { destruct (decide (ref = r)) as [->|Hne].
    - rewrite lookup_alter_eq. destruct (h !! r) as [a|]; [|done]. simpl in Hs |- *.
      unfold mark. rewrite <- article_sentiment_label. rewrite Hs. done.
    - by rewrite lookup_alter_ne. }
  rewrite Hstep.
  destruct (decide (ref ∈ r :: rest)) as [Hin|Hnin];
    destruct (decide (ref ∈ rest)) as [Hrest|Hrest];
    destruct (decide (ref = r)) as [->|Hne]; try done.
  all: try (exfalso; apply Hnin, elem_of_cons; by eauto).
  - destruct (h !! r) as [a|]; [|done]. simpl. by rewrite mark_mark.
  - apply elem_of_cons in Hin. tauto.
Qed.

(** C10.  For every non-empty list of articles the aggregation writes into
    its input: each listed article gets the key ['sentiment'] set to
    positive, negative or neutral by the sign of its keyword score, every
    other field of it is left as it was, and so is every article that is
    not in the list. *)
Theorem sentiment_written_into_articles (h : store) (articles : list nat) :
  articles ≠ [] →
  let h' := fst (analyze_news_sentiment h articles) in
  (∀ ref a, ref ∈ articles → h !! ref = Some a →
     ∃ a', h' !! ref = Some a'
           ∧ a' !! "sentiment" = Some (sign_label (keyword_score a))
           ∧ (∀ k, k ≠ "sentiment" → a' !! k = a !! k))
  ∧ (∀ ref, ref ∉ articles → h' !! ref = h !! ref).
Proof.
  intros Hne. 
  assert (Hfst : fst (analyze_news_sentiment h articles)
                 = fst (score_articles h articles [])).
  { unfold analyze_news_sentiment. destruct articles as [|r rest]; [done|].
    by destruct (score_articles h (r :: rest) []). }
  simpl. rewrite Hfst. split.
  - intros ref a Hin Ha. exists (mark a).
    rewrite score_articles_store, decide_True, Ha by done.
    split; [done|]. unfold mark. split; [apply lookup_insert_eq|].
    intros k Hk. by rewrite lookup_insert_ne.
  - intros ref Hnin. by rewrite score_articles_store, decide_False.
Qed.

Lemma sentiment_written_into_articles_witness :
  let h' := fst (analyze_news_sentiment Examples.newsroom [1; 2; 1]%nat) in
  (∀ ref a, ref ∈ [1; 2; 1]%nat → Examples.newsroom !! ref = Some a →
     ∃ a', h' !! ref = Some a'
           ∧ a' !! "sentiment" = Some (sign_label (keyword_score a))
           ∧ (∀ k, k ≠ "sentiment" → a' !! k = a !! k))
  ∧ (∀ ref, ref ∉ [1; 2; 1]%nat → h' !! ref = Examples.newsroom !! ref).
Proof.
  apply (sentiment_written_into_articles Examples.newsroom [1; 2; 1]%nat).
  discriminate.
Defined.

Example newsroom_summary :
  snd (analyze_news_sentiment Examples.newsroom [1; 2; 1]%nat)
  = {| overall_sentiment := "positive";
       positive_count := 2;
       negative_count := 1;
       neutral_count := 0;
       confidence := 1 # 3;
       articles_analyzed := Some 3;
       sentiment_score := Some (20 # 3) |}.
Proof. vm_compute. reflexivity. Qed.

End NewsFacts.

(* ===================================================================== *)
(** ** The cache of historical bars                                       *)
(* ===================================================================== *)

Module DatabaseFacts.
Import Py Indicators Database CacheSpec.

Lemma NoDup_fmap_inj_on {A B} (f : A → B) (l : list A) (x y : A) :
  NoDup (f <$> l) → x ∈ l → y ∈ l → f x = f y → x = y.
Proof.
  induction l as [|r l IH]; intros Hnd Hx Hy Hxy; [by apply elem_of_nil in Hx|].
  rewrite fmap_cons in Hnd. apply NoDup_cons in Hnd as [Hr Hl].
  apply elem_of_cons in Hx as [->|Hx]; apply elem_of_cons in Hy as [->|Hy].
  - done.
  - exfalso. apply Hr. rewrite Hxy. by apply list_elem_of_fmap_2.
  - exfalso. apply Hr. rewrite <- Hxy. by apply list_elem_of_fmap_2.
  - by apply IH.
Qed.

Lemma historical_data_store (t : db) (sym : string) (df : DataFrame) :
  historical_data (store_historical_data t sym df)
  = historical_data (insert_rows t sym df).
Proof. unfold store_historical_data. by destruct (last df). Qed.

(** *** The unique key survives every write *)

Lemma unique_keys_insert (t : db) (sym : string) (b : bar) :
  unique_keys (historical_data t) →
  unique_keys (historical_data (insert_or_replace t sym b)).
Proof.
  unfold unique_keys. simpl. intros Hnd.
  rewrite fmap_app. apply NoDup_app. split; [|split].
  - apply (NoDup_fmap_2_strong key).
    + intros x y Hx%list_elem_of_filter Hy%list_elem_of_filter.
      destruct Hx as [_ Hx], Hy as [_ Hy].
      by apply (NoDup_fmap_inj_on key (historical_data t)).
    + apply NoDup_filter. by eapply NoDup_fmap_1.
  - intros k Hk Hk2. apply list_elem_of_singleton in Hk2. subst k.
    apply list_elem_of_fmap in Hk as (r & Hr & Hin).
    apply list_elem_of_filter in Hin as [Hne _]. by apply Hne.
  - apply NoDup_singleton.
Qed.

Lemma unique_keys_store (t : db) (sym : string) (df : DataFrame) :
  unique_keys (historical_data t) →
  unique_keys (historical_data (store_historical_data t sym df)).
Proof.
  rewrite historical_data_store. unfold insert_rows. revert t.
  induction df as [|b df IH]; intros t Ht; [done|].
  simpl. by apply IH, unique_keys_insert.
Qed.

Lemma unique_keys_upserts (ops : list (string * DataFrame)) :
  unique_keys (historical_data (upserts ops)).
Proof.
  unfold upserts. induction ops as [|op ops IH] using rev_ind.
  - apply NoDup_nil_2.
  - rewrite foldl_app. simpl. by apply unique_keys_store.
Qed.

(** *** What the table holds after a write *)

Lemma content_insert (t : db) (sym : string) (b : bar) (x : string * Z * bar) :
  x ∈ content <$> historical_data (insert_or_replace t sym b)
  ↔ (x ∈ content <$> historical_data t ∧ x.1 ≠ (sym, day_of (Date b)))
    ∨ x = (sym, day_of (Date b), stored b).
Proof.
  simpl. rewrite fmap_app, elem_of_app. split.
  - intros [Hx|Hx]; apply list_elem_of_fmap in Hx as (r & -> & Hr).
    + apply list_elem_of_filter in Hr as [Hne Hr]. left. split; [|done].
      by apply list_elem_of_fmap_2.
    + right. apply list_elem_of_singleton in Hr. by subst r.
  - intros [[Hx Hne]| ->].
    + left. apply list_elem_of_fmap in Hx as (r & -> & Hr).
      by apply list_elem_of_fmap_2, list_elem_of_filter.
    + right. apply list_elem_of_fmap. eexists.
      split; [|by apply list_elem_of_singleton]. done.
Qed.

(** Rows under other keys are not touched by an upsert. *)
Lemma content_store_other (df : DataFrame) (t : db) (sym : string)
    (x : string * Z * bar) :
  x.1 ∉ keys_of sym df →
  x ∈ content <$> historical_data (insert_rows t sym df)
  ↔ x ∈ content <$> historical_data t.
Proof.
  revert t. induction df as [|b df IH]; intros t Hx; [done|].
  unfold keys_of in Hx. rewrite fmap_cons in Hx.
  apply not_elem_of_cons in Hx as [Hb Hdf].
  simpl. rewrite IH by done. rewrite content_insert. split.
  - intros [[? _]| ->]; [done|]. by destruct Hb.
  - intros ?. left. done.
Qed.

(** What an upsert leaves in the table depends only on the rows that were
    there under keys the frame does not mention. *)
Lemma content_store_agree (df : DataFrame) (t t' : db) (sym : string) :
  (∀ x, x.1 ∉ keys_of sym df →
        x ∈ content <$> historical_data t ↔ x ∈ content <$> historical_data t') →
  ∀ x, x ∈ content <$> historical_data (insert_rows t sym df)
       ↔ x ∈ content <$> historical_data (insert_rows t' sym df).
Proof.
  revert t t'. induction df as [|b df IH]; intros t t' Hagree x.
  { simpl. apply Hagree. unfold keys_of. simpl. apply not_elem_of_nil. }
  simpl. apply IH. clear x. intros x Hx. rewrite !content_insert.
  destruct (decide (x.1 = (sym, day_of (Date b)))) as [Heq|Hne].
  - split; (intros [[_ ?]| ->]; [done|by right]).
  - assert (x.1 ∉ keys_of sym (b :: df)) as Hx2.
    { unfold keys_of. rewrite fmap_cons. by apply not_elem_of_cons. }
    specialize (Hagree x Hx2). split; (intros [[? _]| ->]; [left; split; [tauto|done] | by right]).
Qed.

Lemma content_store_twice (t : db) (sym : string) (df : DataFrame)
    (x : string * Z * bar) :
  x ∈ content <$> historical_data
        (store_historical_data (store_historical_data t sym df) sym df)
  ↔ x ∈ content <$> historical_data (store_historical_data t sym df).
Proof.
  rewrite (historical_data_store (store_historical_data t sym df)).
  rewrite (historical_data_store t).
  change (x ∈ content <$> historical_data
            (insert_rows (store_historical_data t sym df) sym df)
          ↔ x ∈ content <$> historical_data (insert_rows t sym df)).
  apply content_store_agree. intros y Hy.
  rewrite historical_data_store. by apply content_store_other.
Qed.

(** *** From the table to the Series *)

#[local] Instance by_date_total : Total by_date.
Proof. intros r1 r2. unfold by_date. lia. Qed.

#[local] Instance by_Date_trans : Transitive by_Date.
Proof. intros b1 b2 b3. unfold by_Date. lia. Qed.

#[local] Instance before_trans : Transitive before.
Proof. intros b1 b2 b3. unfold before. lia. Qed.

#[local] Instance before_antisymm : AntiSymm (=) before.
Proof. intros b1 b2. unfold before. lia. Qed.

Lemma strictly_sorted (l : DataFrame) :
  StronglySorted by_Date l → NoDup (Date <$> l) → StronglySorted before l.
Proof.
  induction 1 as [|b l Hl IH Hb]; intros Hnd; [constructor|].
  rewrite fmap_cons in Hnd. apply NoDup_cons in Hnd as [Hnb Hnd].
  constructor; [by apply IH|].
  rewrite Forall_forall in Hb |- *. intros b' Hin.
  specialize (Hb b' Hin). unfold by_Date in Hb. unfold before.
  assert (Date b ≠ Date b').
  { intros Heq. apply Hnb. rewrite Heq. by apply list_elem_of_fmap_2. }
  lia.
Qed.

(** Two Series with the same bars and no date twice are the same list. *)
Lemma sorted_unique_dates (l1 l2 : DataFrame) :
  Sorted by_Date l1 → Sorted by_Date l2 → NoDup (Date <$> l1) → l1 ≡ₚ l2 →
  l1 = l2.
Proof.
  intros H1 H2 Hnd Hperm.
  apply (StronglySorted_unique before); [| |done].
  - apply strictly_sorted; [|done].
    by apply (Sorted_StronglySorted by_Date).
  - apply strictly_sorted; [|by rewrite <- Hperm].
    by apply (Sorted_StronglySorted by_Date).
Qed.

Lemma series_sorted (t : db) (now : Z) (sym : string) (days : option Z) :
  Sorted by_Date (get_historical_data t now sym days).
Proof.
  unfold get_historical_data. apply (Sorted_fmap _ by_date).
  - intros r1 r2. unfold by_date, by_Date. simpl. lia.
  - apply Sorted_merge_sort, _.
Qed.

Lemma series_permutation (t : db) (now : Z) (sym : string) (days : option Z) :
  get_historical_data t now sym days
  ≡ₚ row_bar <$> selected now sym days (historical_data t).
Proof. unfold get_historical_data. by rewrite merge_sort_Permutation. Qed.

Lemma selected_unique_dates (rows : list hist_row) (now : Z) (sym : string)
    (days : option Z) :
  unique_keys rows →
  NoDup (Date <$> (row_bar <$> selected now sym days rows)).
Proof.
  intros Hk. rewrite <- list_fmap_compose. apply NoDup_fmap_2_strong.
  - intros x y Hx%list_elem_of_filter Hy%list_elem_of_filter Hxy.
    destruct Hx as [[Hsx _] Hx], Hy as [[Hsy _] Hy]. simpl in Hxy.
    apply (NoDup_fmap_inj_on key rows); [done..|]. unfold key. f_equal; [congruence|lia].
  - apply NoDup_filter. by eapply NoDup_fmap_1.
Qed.

Lemma selected_bars (rows : list hist_row) (now : Z) (sym : string)
    (days : option Z) (b : bar) :
  b ∈ row_bar <$> selected now sym days rows
  ↔ ∃ x, x ∈ content <$> rows ∧ x.1.1 = sym ∧ since now days x.1.2 ∧ x.2 = b.
Proof.
  split.
  - intros (r & -> & Hr)%list_elem_of_fmap.
    apply list_elem_of_filter in Hr as [[Hs Hd] Hr].
    exists (content r). split; [by apply list_elem_of_fmap_2|done].
  - intros (x & (r & -> & Hr)%list_elem_of_fmap & Hs & Hd & <-).
    simpl. apply list_elem_of_fmap_2, list_elem_of_filter. done.
Qed.

(** Tables with unique keys and the same contents answer every query with
    the same Series. *)
Lemma series_of_content (t1 t2 : db) (now : Z) (sym : string) (days : option Z) :
  unique_keys (historical_data t1) → unique_keys (historical_data t2) →
  (∀ x, x ∈ content <$> historical_data t1 ↔ x ∈ content <$> historical_data t2) →
  get_historical_data t1 now sym days = get_historical_data t2 now sym days.
Proof.
  intros Hk1 Hk2 Hsame.
  apply sorted_unique_dates; [apply series_sorted..| |].
  - rewrite series_permutation. by apply selected_unique_dates.
  - rewrite !series_permutation. apply NoDup_Permutation.
    + eapply NoDup_fmap_1, selected_unique_dates, Hk1.
    + eapply NoDup_fmap_1, selected_unique_dates, Hk2.
    + intros b. rewrite !selected_bars. by setoid_rewrite Hsame.
Qed.

(** C9.  The cache is keyed by (symbol, date) and its upsert is
    idempotent: after any sequence of upserts into a new database,
    upserting a frame twice leaves every Series read from the cache
    identical to upserting it once, and no Series read from the cache
    holds two bars with the same date. *)
Theorem upsert_idempotent_and_dates_unique (ops : list (string * DataFrame))
    (sym : string) (df : DataFrame) (now : Z) (sym' : string)
    (days : option Z) :
  let t := upserts ops in
  get_historical_data
    (store_historical_data (store_historical_data t sym df) sym df)
    now sym' days
  = get_historical_data (store_historical_data t sym df) now sym' days
  ∧ NoDup (Date <$> get_historical_data t now sym' days).
Proof.
  simpl. pose proof (unique_keys_upserts ops) as Hk. split.
  - apply series_of_content.
    + by do 2 apply unique_keys_store.
    + by apply unique_keys_store.
    + apply content_store_twice.
  - rewrite series_permutation. by apply selected_unique_dates.
Qed.

(** The row ids do change: the second upsert stores the same bars under
    new ids. *)
Example upsert_twice_changes_ids :
  id <$> historical_data Examples.old_cache = [1; 2]
  ∧ id <$> historical_data
             (store_historical_data Examples.old_cache "AAPL"
                [Examples.bar_on 1 100; Examples.bar_on 2 101])
    = [3; 4].
Proof. split; reflexivity. Qed.

End DatabaseFacts.

(* ===================================================================== *)
(** ** The history gateway                                                *)
(* ===================================================================== *)

Module GatewayFacts.
Import Py Indicators Gateway GatewaySpec.

Lemma nonempty_true {A} (l : list A) : nonempty l = true ↔ l ≠ [].
Proof. by destruct l. Qed.

Lemma nonempty_false {A} (l : list A) : nonempty l = false ↔ l = [].
Proof. by destruct l. Qed.

(** [timedelta.days < 1] *)
Lemma days_lt_1 (a : Z) : a / 86400 < 1 ↔ a < 86400.
Proof.
  pose proof (Z.div_mod a 86400 ltac:(lia)).
  pose proof (Z.mod_pos_bound a 86400 ltac:(lia)). lia.
Qed.

(** The cache test of the gateway in the words of the specification. *)
Lemma fresh_cache_Some (t : Database.db) (now : Z) (sym : string) (days : Z)
    (data : DataFrame) :
  fresh_cache t now sym days = Some data
  ↔ data = Database.get_historical_data t now sym (Some days)
    ∧ data ≠ [] ∧ fresher_than_a_day t now sym.
Proof.
  unfold fresh_cache, fresher_than_a_day.
  destruct (nonempty _) eqn:Hne.
  - apply nonempty_true in Hne.
    destruct (Database.get_last_historical_date t sym) as [last_date|].
    + destruct (Z.ltb_spec ((now - last_date) / 86400) 1) as [Hlt|Hge].
      * split.
        -- intros [= <-]. split; [done|]. split; [done|].
           exists last_date. split; [done|]. by apply days_lt_1.
        -- intros (-> & _ & _). done.
      * split; [done|]. intros (_ & _ & d & [= <-] & Hd).
        apply days_lt_1 in Hd. lia.
    + split; [done|]. by intros (_ & _ & d & ? & _).
  - apply nonempty_false in Hne. split; [done|].
    intros (-> & ? & _). done.
Qed.

Section Contract.

Variable alpha_vantage free_api : string → string → result DataFrame.

(** C4, amended.  [get_historical_data(symbol, period, force_fetch)]:
    when [force_fetch] is false and the cache holds bars of the symbol in
    the requested window, the newest bar of the symbol being less than a
    day old, the cached Series is returned and no source is asked; when a
    source is asked and fails while the cache holds bars of the symbol in
    the requested window, these are returned as a degraded success; the
    call fails, with the failure of the source wrapped, exactly when a
    source is asked and fails and the cache holds no bar of the symbol in
    the requested window.  Freshness is the age of the newest bar and
    nothing else: a source is asked in every other case, whenever the cache
    was filled. *)
Theorem history_gateway_contract (self : StockDataFetcher) (now : Z)
    (sym : string) (period : option string) (force_fetch : bool) :
  let p := resolve_period self period in
  let cached :=
    Database.get_historical_data (db self) now sym (Some (_period_to_days p)) in
  let fetched := snd (fetch alpha_vantage free_api self sym p) in
  let out :=
    get_historical_data alpha_vantage free_api self now sym period force_fetch in
  (force_fetch = false → cached ≠ [] → fresher_than_a_day (db self) now sym →
   returned out = inr cached ∧ fetches out = [] ∧ db_after out = db self)
  ∧ (∀ e, fetches out ≠ [] → fetched = inl e → cached ≠ [] →
          returned out = inr cached ∧ db_after out = db self)
  ∧ (∀ err, returned out = inl err
            ↔ fetches out ≠ [] ∧ cached = []
              ∧ ∃ e, fetched = inl e ∧ err = DataUnavailable sym e)
  ∧ (fetches out = []
     ↔ force_fetch = false ∧ cached ≠ []
       ∧ fresher_than_a_day (db self) now sym).
Proof.
  simpl. unfold get_historical_data.
  set (p := resolve_period self period).
  set (cached := Database.get_historical_data _ _ _ _).
  destruct (if force_fetch then None else fresh_cache _ _ _ _)
    as [data|] eqn:Hfresh.
  - (* served from the cache *)
    destruct force_fetch; [done|].
    apply fresh_cache_Some in Hfresh as (-> & Hne & Hfr). fold cached.
    simpl. split; [done|]. split; [done|]. split; [|done].
    intros err. split; [done|]. by intros [? _].
  - (* a request is made *)
    assert (Hmiss : force_fetch = false → cached ≠ [] →
                    fresher_than_a_day (db self) now sym → False).
    { intros -> Hne Hfr.
      assert (fresh_cache (db self) now sym (_period_to_days p) = Some cached)
        as Hhit by (by apply fresh_cache_Some).
      congruence. }
    destruct (fetch alpha_vantage free_api self sym p) as [src [e|df]] eqn:Hf;
      simpl.
    + destruct (nonempty cached) eqn:Hc.
      * apply nonempty_true in Hc. split; [intros; exfalso; eauto|].
        split; [done|]. split.
        -- intros err. split; [done|]. by intros (_ & ? & _).
        -- split; [done|]. intros (? & ? & ?). exfalso. eauto.
      * apply nonempty_false in Hc. split; [intros; exfalso; eauto|].
        split; [done|]. split.
        -- intros err. unfold DataUnavailable. split.
           ++ intros [= <-]. split; [done|]. split; [done|]. by exists e.
           ++ intros (_ & _ & e' & [= <-] & ->). done.
        -- split; [done|]. intros (? & ? & ?). exfalso. eauto.
    + split; [intros; exfalso; eauto|]. split; [done|]. split.
      * intros err. split; [done|]. by intros (_ & _ & e & ? & _).
      * split; [done|]. intros (? & ? & ?). exfalso. eauto.
Qed.

End Contract.

(** C4, as stated, fails twice.  A cache that was filled a moment ago and
    covers the requested window is not served when its newest bar is more
    than a day old: the first call stores the bars of day 1 and day 2 at
    ten o'clock of day 3, and a second call an hour later asks the source
    again.  And a cache that holds data of the symbol is of no help when
    the source is down and the bars are older than the window asked for:
    the call fails. *)
Lemma gateway_contract_counterexample :
  let now := 3 * 86400 + 36000 in
  let first :=
    get_historical_data Examples.source_two_days Examples.source_two_days
      (Examples.keyless Database.create_tables) now "AAPL" (Some "5d") false in
  let again :=
    get_historical_data Examples.source_two_days Examples.source_two_days
      (Examples.keyless (db_after first)) (now + 3600) "AAPL" (Some "5d")
      false in
  let out :=
    get_historical_data Examples.source_down Examples.source_down
      (Examples.keyless Examples.old_cache) (100 * 86400) "AAPL" (Some "1d")
      false in
  (fetches first = [(YahooFinance, "AAPL", "5d")]
   ∧ Date <$> Database.get_historical_data (db_after first) (now + 3600)
                "AAPL" (Some 5)
     = [1 * 86400; 2 * 86400]
   ∧ fetches again = [(YahooFinance, "AAPL", "5d")])
  ∧ (holds_any_data Examples.old_cache (100 * 86400) "AAPL"
     ∧ fetches out = [(YahooFinance, "AAPL", "1d")]
     ∧ returned out
       = inl (DataUnavailable "AAPL"
                (Exception "Failed to fetch historical data for AAPL: timeout"))).
Proof.
  split; [split; [|split]|split; [|split]].
  - reflexivity.
  - reflexivity.
  - reflexivity.
  - intros H. vm_compute in H. discriminate.
  - reflexivity.
  - reflexivity.
Qed.

Lemma history_gateway_contract_witness :
  let now := 2 * 86400 + 40000 in
  let out :=
    get_historical_data Examples.source_up Examples.source_up
      (Examples.keyless Examples.old_cache) now "AAPL" (Some "5d") false in
  returned out
  = inr (Database.get_historical_data Examples.old_cache now "AAPL" (Some 5))
  ∧ fetches out = []
  ∧ db_after out = Examples.old_cache.
Proof.
  destruct (history_gateway_contract Examples.source_up Examples.source_up
              (Examples.keyless Examples.old_cache) (2 * 86400 + 40000)
              "AAPL" (Some "5d") false) as (Hhit & _).
  apply Hhit.
  - reflexivity.
  - intros H. vm_compute in H. discriminate.
  - exists (2 * 86400). split; [reflexivity|lia].
Defined.

(** With the same cache a day later the source is asked, and what it
    returns is stored and handed back. *)
Example refetch_when_stale :
  let out :=
    get_historical_data Examples.source_up Examples.source_up
      (Examples.keyless Examples.old_cache) (100 * 86400 + 40000) "AAPL"
      None false in
  returned out = inr [Examples.bar_on 100 110]
  ∧ fetches out = [(YahooFinance, "AAPL", "5d")]
  ∧ Database.date <$> Database.historical_data (db_after out) = [1; 2; 100].
Proof. repeat split. Qed.

End GatewayFacts.

(* ===================================================================== *)
(** ** Moving averages, MACD, bands, support and resistance               *)
(* ===================================================================== *)

Module IndicatorFacts.
Import Py Indicators RsiSpec.

(** *** Rolling windows over a series without NaN *)

Lemma window_fmap {A B} (f : A → B) (w i : nat) (s : list A) :
  window w i (f <$> s) = f <$> window w i s.
Proof. unfold window. by rewrite fmap_take, fmap_drop. Qed.

Lemma window_last (w : nat) {A} (s : list A) (n : nat) :
  length s = S n → (w ≤ S n)%nat → window w n s = last_n w s.
Proof.
  intros Hlen Hw. unfold window, last_n. rewrite Hlen.
  apply take_ge. rewrite length_drop. lia.
Qed.

(** The last entry of a rolled series of numbers: the aggregate of the
    last [w] of them. *)
Lemma last_rolling_finite (w : nat) (agg : list Q → flt) (s : list Q) :
  (0 < length s)%nat → (w ≤ length s)%nat →
  last (rolling w agg (Fin <$> s)) = Some (agg (last_n w s)).
Proof.
  intros Hpos Hw. destruct (length s) as [|n] eqn:Hlen; [lia|].
  rewrite (RsiFacts.last_rolling w agg _ n) by (by rewrite ?length_fmap).
  by rewrite window_fmap, RsiFacts.mapM_finite_Fin, (window_last w s n).
Qed.

(** X1.  A moving average over [n] bars is the arithmetic mean of the last
    [n] closes when the frame has [n] bars or more, and the current price
    otherwise. *)
Theorem sma_is_mean_of_last_closes (n : nat) (df : DataFrame)
    (current_price : Q) :
  (0 < n)%nat →
  sma n df current_price
  = inr (Fin (if decide (n ≤ length df)%nat
              then mean (last_n n (Close <$> df))
              else current_price)).
Proof.
  intros Hn. unfold sma, rolling_mean, iloc_last.
  destruct (decide (n ≤ length df)%nat) as [Hlen|]; [|done].
  by rewrite last_rolling_finite by (rewrite length_fmap; lia).
Qed.

(** *** MACD *)

Lemma length_ewm_from (alpha num den : Q) (xs : list Q) :
  length (ewm_from alpha num den xs) = length xs.
Proof.
  revert num den. induction xs as [|x xs IH]; intros num den; [done|].
  simpl. by rewrite IH.
Qed.

Lemma length_ewm_mean (span : Z) (xs : list Q) :
  length (ewm_mean span xs) = length xs.
Proof. apply length_ewm_from. Qed.

Lemma last_is_Some {A} (l : list A) : (0 < length l)%nat → is_Some (last l).
Proof. destruct l as [|x l] using rev_ind; [simpl; lia|]. rewrite last_snoc. eauto. Qed.

(** With 26 bars or more: the last MACD entry, the last entry of its
    signal line, and their difference. *)
Lemma macd_closed_form (prices : list Q) :
  (26 ≤ length prices)%nat →
  let macd := zip_with Qminus (ewm_mean 12 prices) (ewm_mean 26 prices) in
  ∃ m s, last macd = Some m
         ∧ last (ewm_mean 9 macd) = Some s
         ∧ _calculate_macd prices
           = {| macd := Fin m; macd_signal := Fin s;
                macd_histogram := Fin (m - s) |}.
Proof.
  intros Hlen macd. unfold _calculate_macd, calculate_macd_try, iloc_last.
  destruct (decide (length prices < 26)%nat); [lia|]. fold macd.
  assert (Hm : length macd = length prices).
  { unfold macd. rewrite length_zip_with, !length_ewm_mean. lia. }
  destruct (last_is_Some macd) as [m Hlast]; [lia|].
  destruct (last_is_Some (ewm_mean 9 macd)) as [s Hs];
    [rewrite length_ewm_mean; lia|].
  exists m, s. split; [done|]. split; [done|].
  rewrite RsiFacts.last_zip_with by (by rewrite length_ewm_mean).
  by rewrite Hlast, Hs.
Qed.

(** The weighted mean of entries that all equal [c] is [c]. *)
Lemma ewm_from_const (alpha c : Q) (xs : list Q) (num den : Q) :
  (0 < alpha <= 1)%Q → (0 <= den)%Q → (num == c * den)%Q →
  Forall (λ x, x == c)%Q xs →
  Forall (λ y, y == c)%Q (ewm_from alpha num den xs).
Proof.
  intros Ha Hden Hnum Hxs. revert num den Hden Hnum.
  induction Hxs as [|x xs Hx _ IH]; intros num den Hden Hnum; [constructor|].
  simpl.
  assert (Hprod : (0 <= (1 - alpha) * den)%Q)
    by (apply Qmult_le_0_compat; lra).
  assert (Hnum' : (x + (1 - alpha) * num == c * (1 + (1 - alpha) * den))%Q).
  { rewrite Hx, Hnum. ring. }
  constructor.
  - rewrite Hnum'. apply Qdiv_mult_l. lra.
  - apply IH; [lra|done].
Qed.

Lemma ewm_mean_const (span : Z) (c : Q) (xs : list Q) :
  1 ≤ span → Forall (λ x, x == c)%Q xs →
  Forall (λ y, y == c)%Q (ewm_mean span xs).
Proof.
  intros Hspan Hxs. unfold ewm_mean. apply ewm_from_const; [|lra|ring|done].
  assert (1 <= inject_Z span)%Q
    by (change 1%Q with (inject_Z 1); by rewrite <- Zle_Qle).
  split.
  - apply Qlt_shift_div_l; lra.
  - apply Qle_shift_div_r; lra.
Qed.

(** X2.  With 26 bars or more the three MACD values are numbers, the
    histogram being the MACD minus its signal; on closes that are all
    equal the three of them are zero. *)
Theorem macd_of_twenty_six_bars (prices : list Q) :
  (26 ≤ length prices)%nat →
  ∃ m s h,
    _calculate_macd prices
    = {| macd := Fin m; macd_signal := Fin s; macd_histogram := Fin h |}
    ∧ h = (m - s)%Q
    ∧ ∀ c, Forall (λ p, p == c)%Q prices →
           (m == 0)%Q ∧ (s == 0)%Q ∧ (h == 0)%Q.
Proof.
  intros Hlen.
  destruct (macd_closed_form prices Hlen) as (m & s & Hm & Hs & Heq).
  exists m, s, (m - s)%Q. split; [done|]. split; [done|]. intros c Hc.
  set (macd := zip_with Qminus (ewm_mean 12 prices) (ewm_mean 26 prices)) in *.
  assert (Hmacd : Forall (λ y, y == 0)%Q macd).
  { unfold macd. apply Forall_forall. intros y Hy.
    apply elem_of_zip_with in Hy as (a & b & -> & Ha & Hb).
    pose proof (ewm_mean_const 12 c prices ltac:(lia) Hc) as H12.
    pose proof (ewm_mean_const 26 c prices ltac:(lia) Hc) as H26.
    rewrite Forall_forall in H12, H26.
    rewrite (H12 a Ha), (H26 b Hb). ring. }
  assert (Hm0 : (m == 0)%Q).
  { rewrite Forall_forall in Hmacd. by apply Hmacd, last_Some_elem_of. }
  assert (Hs0 : (s == 0)%Q).
  { pose proof (ewm_mean_const 9 0 macd ltac:(lia) Hmacd) as H9.
    rewrite Forall_forall in H9. by apply H9, last_Some_elem_of. }
  split; [done|]. split; [done|]. rewrite Hm0, Hs0. ring.
Qed.

(** *** Bollinger bands *)

Section Bands.

Variable sqrt : Q → Q.
Hypothesis sqrt_nonneg : ∀ x, (0 <= sqrt x)%Q.

(** X3.  With 20 bars or more the middle band is the mean of the last 20
    closes and the upper and lower bands lie two sample standard deviations
    of these closes above and below it; as a root is never negative, lower
    <= middle <= upper. *)
Theorem bollinger_bands_of_twenty_bars (prices : list Q) :
  (20 ≤ length prices)%nat →
  let m := mean (last_n 20 prices) in
  let sd := sample_std sqrt (last_n 20 prices) in
  _calculate_bollinger_bands sqrt prices
  = inr {| bb_upper := Fin (m + sd * 2);
           bb_middle := Fin m;
           bb_lower := Fin (m + - (sd * 2)) |}
  ∧ (m + - (sd * 2) <= m <= m + sd * 2)%Q.
Proof.
  intros Hlen m sd. split.
  - unfold _calculate_bollinger_bands, calculate_bollinger_bands_try, iloc_last.
    destruct (decide (length prices < 20)%nat); [lia|].
    unfold rolling_mean.
    rewrite !RsiFacts.last_zip_with
      by (by rewrite length_fmap, !RsiFacts.length_rolling).
    rewrite !fmap_last, !last_rolling_finite by lia. done.
  - pose proof (sqrt_nonneg
        (Qsum ((λ x, (x - mean (last_n 20 prices)) * (x - mean (last_n 20 prices)))%Q
                 <$> last_n 20 prices)
         / (inject_Z (Z.of_nat (length (last_n 20 prices))) - 1))%Q) as Hsd.
    fold (sample_std sqrt (last_n 20 prices)) in Hsd. fold sd in Hsd. lra.
Qed.

End Bands.

(** *** Support and resistance *)

Lemma rolling_short (w : nat) (agg : list Q → flt) (s : list flt) :
  (length s < w)%nat → omap finite (rolling w agg s) = [].
Proof.
  intros Hlen. unfold rolling.
  assert (H : ∀ l, Forall (λ i, i < length s)%nat l →
              omap finite ((λ i, if decide (w ≤ S i)%nat then
                                   match mapM finite (window w i s) with
                                   | Some qs => agg qs
                                   | None => NaN
                                   end
                                 else NaN) <$> l) = []).
  { induction 1 as [|i l Hi _ IH]; [done|]. simpl.
    destruct (decide (w ≤ S i)%nat); [lia|]. simpl. exact IH. }
  apply H, Forall_forall. intros i Hi%elem_of_seq. lia.
Qed.

(** X4.  For a frame of one to four bars the five-bar rolling windows are
    never filled: resistance and support both come back as NaN, not as a
    price level and not as an error. *)
Theorem support_resistance_of_short_frame (df : DataFrame) :
  (0 < length df < 5)%nat →
  _find_support_resistance df
  = inr {| resistance_level := NaN; support_level := NaN |}.
Proof.
  intros [Hpos Hlen]. unfold _find_support_resistance, find_support_resistance_try.
  unfold series_max, series_min.
  rewrite !rolling_short by (by rewrite !length_fmap).
  destruct df as [|b df]; [simpl in Hpos; lia|]. done.
Qed.

Section Extremes.

(** An aggregate that picks, from a non-empty list, an entry [r] related
    to every entry: the greatest or the least. *)
Variable agg : list Q → flt.
Variable R : Q → Q → Prop.
Hypothesis R_trans : ∀ x y z, R x y → R y z → R x z.
Hypothesis agg_picks :
  ∀ l, l ≠ [] → ∃ r, agg l = Fin r ∧ r ∈ l ∧ Forall (R r) l.

Lemma rolling_entry (w : nat) (s : list Q) (y : Q) :
  (0 < w)%nat →
  y ∈ omap finite (rolling w agg (Fin <$> s))
  ↔ ∃ i, (w ≤ S i)%nat ∧ (i < length s)%nat ∧ agg (window w i s) = Fin y.
Proof.
  intros Hw. unfold rolling. rewrite list_elem_of_omap. split.
  - intros (x & Hx & Hy). apply list_elem_of_fmap in Hx as (i & -> & Hi).
    apply elem_of_seq in Hi. rewrite length_fmap in Hi.
    destruct (decide (w ≤ S i)%nat); [|done].
    rewrite window_fmap, RsiFacts.mapM_finite_Fin in Hy.
    exists i. split; [done|]. split; [lia|]. destruct (agg _); by simplify_eq/=.
  - intros (i & Hwi & Hi & Hy). eexists. split.
    + apply list_elem_of_fmap. exists i. split; [done|].
      apply elem_of_seq. rewrite length_fmap. lia.
    + simpl. rewrite decide_True by done.
      by rewrite window_fmap, RsiFacts.mapM_finite_Fin, Hy.
Qed.

Lemma window_subseteq {A} (w i : nat) (s : list A) (x : A) :
  x ∈ window w i s → x ∈ s.
Proof.
  unfold window. intros Hx.
  apply list_elem_of_lookup in Hx as [j Hj].
  apply lookup_take_Some in Hj as [Hj _]. rewrite lookup_drop in Hj.
  by eapply list_elem_of_lookup_2.
Qed.

Lemma window_covers {A} (w : nat) (s : list A) (j : nat) (x : A) :
  (0 < w)%nat → s !! j = Some x → x ∈ window w (j `max` (w - 1)) s.
Proof.
  intros Hw Hj. unfold window.
  apply list_elem_of_lookup. exists (j - (S (j `max` (w - 1)) - w))%nat.
  rewrite lookup_take_lt by lia. rewrite lookup_drop.
  by replace (S (j `max` (w - 1)) - w + (j - (S (j `max` (w - 1)) - w)))%nat
    with j by lia.
Qed.

(** The aggregate of the rolled aggregates is the aggregate of the whole
    series, once the series fills a window. *)
Lemma extreme_of_rolling (w : nat) (s : list Q) :
  (0 < w ≤ length s)%nat →
  ∃ r, agg (omap finite (rolling w agg (Fin <$> s))) = Fin r
       ∧ r ∈ s ∧ Forall (R r) s.
Proof.
  intros [Hw Hlen].
  set (M := omap finite (rolling w agg (Fin <$> s))).
  assert (Hwin : ∀ i, (w ≤ S i)%nat → (i < length s)%nat → window w i s ≠ []).
  { intros i Hwi Hi Hnil. apply (f_equal length) in Hnil.
    unfold window in Hnil. rewrite length_take, length_drop in Hnil.
    simpl in Hnil. lia. }
  assert (HM : M ≠ []).
  { destruct (agg_picks (window w (w - 1) s)) as (y & Hy & _); [apply Hwin; lia|].
    intros Hnil. assert (y ∈ M) as Hin.
    { apply rolling_entry; [done|]. exists (w - 1)%nat. split; [lia|]. split; [lia|done]. }
    rewrite Hnil in Hin. by apply elem_of_nil in Hin. }
  destruct (agg_picks M HM) as (r & Hr & Hin & Hall).
  exists r. split; [done|].
  apply rolling_entry in Hin as (i & Hwi & Hi & Hy); [|done].
  destruct (agg_picks (window w i s)) as (r' & Hr' & Hin' & _); [by apply Hwin|].
  rewrite Hy in Hr'. injection Hr' as <-.
  split; [by eapply window_subseteq|].
  apply Forall_forall. intros x Hx.
  apply list_elem_of_lookup in Hx as [j Hj].
  pose proof (lookup_lt_Some _ _ _ Hj) as Hjlen.
  destruct (agg_picks (window w (j `max` (w - 1)) s)) as (y & Hy' & _ & Hyall).
  { apply Hwin; lia. }
  apply (R_trans _ y).
  - rewrite Forall_forall in Hall. apply Hall, rolling_entry; [done|].
    exists (j `max` (w - 1))%nat. split; [lia|]. split; [lia|done].
  - rewrite Forall_forall in Hyall. by apply Hyall, window_covers.
Qed.

End Extremes.

Lemma foldr_Qmax_elem (x : Q) (l : list Q) : foldr Qmax x l ∈ x :: l.
Proof.
  induction l as [|y l IH]; simpl; [apply list_elem_of_here|].
  unfold Qmax at 1, GenericMinMax.gmax.
  destruct (_ ?= _)%Q.
  - apply list_elem_of_further, list_elem_of_here.
  - apply elem_of_cons in IH as [->|IH]; [apply list_elem_of_here|].
    by do 2 apply list_elem_of_further.
  - apply list_elem_of_further, list_elem_of_here.
Qed.

Lemma foldr_Qmax_ge (x : Q) (l : list Q) :
  Forall (λ y, y <= foldr Qmax x l)%Q (x :: l).
Proof.
  induction l as [|y l IH]; simpl.
  - constructor; [apply Qle_refl|constructor].
  - inversion_clear IH as [|? ? Hx Hl].
    pose proof (Q.le_max_l y (foldr Qmax x l)).
    pose proof (Q.le_max_r y (foldr Qmax x l)).
    constructor; [lra|]. constructor; [done|].
    eapply Forall_impl; [exact Hl|]. intros z Hz. simpl in Hz. lra.
Qed.

Lemma Qmax_list_picks (l : list Q) :
  l ≠ [] → ∃ r, Qmax_list l = Fin r ∧ r ∈ l ∧ Forall (λ x, x <= r)%Q l.
Proof.
  destruct l as [|x l]; [done|]. intros _. eexists. split; [done|].
  split; [apply foldr_Qmax_elem | apply foldr_Qmax_ge].
Qed.

Lemma foldr_Qmin_le (x : Q) (l : list Q) :
  Forall (λ y, foldr Qmin x l <= y)%Q (x :: l).
Proof.
  induction l as [|y l IH]; simpl.
  - constructor; [apply Qle_refl|constructor].
  - inversion_clear IH as [|? ? Hx Hl].
    pose proof (Q.le_min_l y (foldr Qmin x l)).
    pose proof (Q.le_min_r y (foldr Qmin x l)).
    constructor; [lra|]. constructor; [done|].
    eapply Forall_impl; [exact Hl|]. intros z Hz. simpl in Hz. lra.
Qed.

Lemma foldr_Qmin_elem (x : Q) (l : list Q) : foldr Qmin x l ∈ x :: l.
Proof.
  induction l as [|y l IH]; simpl; [apply list_elem_of_here|].
  unfold Qmin at 1, GenericMinMax.gmin.
  destruct (_ ?= _)%Q.
  - apply list_elem_of_further, list_elem_of_here.
  - apply list_elem_of_further, list_elem_of_here.
  - apply elem_of_cons in IH as [->|IH]; [apply list_elem_of_here|].
    by do 2 apply list_elem_of_further.
Qed.

Lemma Qmin_list_picks (l : list Q) :
  l ≠ [] → ∃ r, Qmin_list l = Fin r ∧ r ∈ l ∧ Forall (λ x, r <= x)%Q l.
Proof.
  destruct l as [|x l]; [done|]. intros _. eexists. split; [done|].
  split; [apply foldr_Qmin_elem | apply foldr_Qmin_le].
Qed.

(** X5.  For a frame of five bars or more the resistance is the highest
    high of the whole frame and the support its lowest low. *)
Theorem support_resistance_of_five_bars (df : DataFrame) :
  (5 ≤ length df)%nat →
  ∃ resistance support,
    _find_support_resistance df
    = inr {| resistance_level := Fin resistance; support_level := Fin support |}
    ∧ resistance ∈ High <$> df
    ∧ Forall (λ b, High b <= resistance)%Q df
    ∧ support ∈ Low <$> df
    ∧ Forall (λ b, support <= Low b)%Q df.
Proof.
  intros Hlen.
  destruct (extreme_of_rolling Qmax_list (λ r x, x <= r)%Q) with (w := 5%nat)
    (s := High <$> df) as (r & Hr & Hrin & Hrall).
  { intros x y z ? ?. lra. }
  { apply Qmax_list_picks. }
  { rewrite length_fmap. lia. }
  destruct (extreme_of_rolling Qmin_list (λ r x, r <= x)%Q) with (w := 5%nat)
    (s := Low <$> df) as (m & Hm & Hmin & Hmall).
  { intros x y z ? ?. lra. }
  { apply Qmin_list_picks. }
  { rewrite length_fmap. lia. }
  exists r, m. split; [|by rewrite Forall_fmap in Hrall, Hmall].
  unfold _find_support_resistance, find_support_resistance_try.
  unfold series_max, series_min. rewrite Hr, Hm.
  destruct df as [|b df]; [simpl in Hlen; lia|]. done.
Qed.

Lemma sma_is_mean_of_last_closes_witness :
  sma 5 AnalysisSpec.five_bars 90 = inr (Fin (510 # 5))
  ∧ sma 10 AnalysisSpec.five_bars 90 = inr (Fin 90).
Proof.
  split.
  - rewrite (sma_is_mean_of_last_closes 5 AnalysisSpec.five_bars 90) by lia.
    reflexivity.
  - rewrite (sma_is_mean_of_last_closes 10 AnalysisSpec.five_bars 90) by lia.
    reflexivity.
Defined.

Lemma macd_of_twenty_six_bars_witness :
  ∃ m s h,
    _calculate_macd (replicate 26 100%Q)
    = {| macd := Fin m; macd_signal := Fin s; macd_histogram := Fin h |}
    ∧ h = (m - s)%Q
    ∧ ∀ c, Forall (λ p, p == c)%Q (replicate 26 100%Q) →
           (m == 0)%Q ∧ (s == 0)%Q ∧ (h == 0)%Q.
Proof.
  apply (macd_of_twenty_six_bars (replicate 26 100%Q)).
  simpl. lia.
Defined.

Lemma floor_sqrt_nonneg (x : Q) : (0 <= AnalysisSpec.floor_sqrt x)%Q.
Proof.
  unfold AnalysisSpec.floor_sqrt. change 0%Q with (inject_Z 0).
  rewrite <- Zle_Qle. apply Z.sqrt_nonneg.
Qed.

Lemma bollinger_bands_of_twenty_bars_witness :
  _calculate_bollinger_bands AnalysisSpec.floor_sqrt (replicate 20 100%Q)
  = inr {| bb_upper := Fin (mean (replicate 20 100%Q)
                            + sample_std AnalysisSpec.floor_sqrt
                                (replicate 20 100%Q) * 2);
           bb_middle := Fin (mean (replicate 20 100%Q));
           bb_lower := Fin (mean (replicate 20 100%Q)
                            + - (sample_std AnalysisSpec.floor_sqrt
                                   (replicate 20 100%Q) * 2)) |}.
Proof.
  apply (bollinger_bands_of_twenty_bars AnalysisSpec.floor_sqrt
           floor_sqrt_nonneg (replicate 20 100%Q)).
  simpl. lia.
Defined.

Lemma support_resistance_of_short_frame_witness :
  _find_support_resistance AnalysisSpec.two_bars
  = inr {| resistance_level := NaN; support_level := NaN |}.
Proof.
  apply (support_resistance_of_short_frame AnalysisSpec.two_bars).
  simpl. lia.
Defined.

Lemma support_resistance_of_five_bars_witness :
  ∃ resistance support,
    _find_support_resistance AnalysisSpec.five_bars
    = inr {| resistance_level := Fin resistance; support_level := Fin support |}
    ∧ resistance ∈ High <$> AnalysisSpec.five_bars
    ∧ Forall (λ b, High b <= resistance)%Q AnalysisSpec.five_bars
    ∧ support ∈ Low <$> AnalysisSpec.five_bars
    ∧ Forall (λ b, support <= Low b)%Q AnalysisSpec.five_bars.
Proof.
  apply (support_resistance_of_five_bars AnalysisSpec.five_bars).
  simpl. lia.
Defined.

End IndicatorFacts.

(* ===================================================================== *)
(** ** Frames too short for the indicators                                *)
(* ===================================================================== *)

Module ShortFrameFacts.
Import Py Indicators Orchestrator.





End ShortFrameFacts.

(* ===================================================================== *)
(** ** Trend, volume and drawdown                                         *)
(* ===================================================================== *)

Module AnalysisFacts.
Import Py Indicators Analysis AnalysisSpec.

Lemma iloc_neg_lookup {A} (k : nat) (s : list A) (x : A) :
  (0 < k)%nat → s !! (length s - k)%nat = Some x → (k ≤ length s)%nat →
  iloc_neg k s = inr x.
Proof.
  intros Hk Hx Hlen. unfold iloc_neg.
  rewrite decide_True by lia. by rewrite Hx.
Qed.

Lemma iloc_neg_total {A} (k : nat) (s : list A) :
  (0 < k ≤ length s)%nat → ∃ x, iloc_neg k s = inr x.
Proof.
  intros Hk. destruct (lookup_lt_is_Some_2 s (length s - k)) as [x Hx]; [lia|].
  exists x. apply iloc_neg_lookup; [lia|done|lia].
Qed.

(** The entry [k] places from the end of a list that ends with [suffix]. *)
Lemma iloc_neg_app {A} (k : nat) (pre suffix : list A) :
  (0 < k ≤ length suffix)%nat →
  iloc_neg k (pre ++ suffix) = iloc_neg k suffix.
Proof.
  intros Hk. unfold iloc_neg. rewrite !decide_True by (rewrite ?length_app; lia).
  rewrite length_app, lookup_app_r by lia.
  by replace (length pre + length suffix - k - length pre)%nat
    with (length suffix - k)%nat by lia.
Qed.

(** With five bars or more the function reaches its last line: the trend
    is the class of the change from the fifth-last close to the last. *)
Lemma trend_analysis_computed (df : DataFrame) :
  (5 ≤ length df)%nat →
  ∃ c1 c5 mtc,
    iloc_neg 1 (Close <$> df) = inr c1
    ∧ iloc_neg 5 (Close <$> df) = inr c5
    ∧ _trend_analysis df
      = {| trend := fst (classify_trend (percent_change c1 c5));
           strength := snd (classify_trend (percent_change c1 c5));
           short_term_change := Some (percent_change c1 c5);
           medium_term_change := Some mtc;
           trend_error := None |}.
Proof.
  intros Hlen. unfold _trend_analysis, trend_analysis_try.
  destruct (decide (length df < 5)%nat); [lia|].
  destruct (iloc_neg_total 1 (Close <$> df)) as [c1 H1];
    [rewrite length_fmap; lia|].
  destruct (iloc_neg_total 5 (Close <$> df)) as [c5 H5];
    [rewrite length_fmap; lia|].
  exists c1, c5. rewrite H1, H5. simpl.
  destruct (decide (10 ≤ length df)%nat).
  - destruct (iloc_neg_total 10 (Close <$> df)) as [c10 H10];
      [rewrite length_fmap; lia|].
    rewrite H10. simpl. eexists. split; [done|]. split; [done|].
    by destruct (classify_trend _).
  - simpl. eexists. split; [done|]. split; [done|].
    by destruct (classify_trend _).
Qed.

Lemma classify_trend_strength (x : flt) :
  ∃ s, snd (classify_trend x) = Fin s
       ∧ (0 <= s <= 1)%Q
       ∧ (fst (classify_trend x) = "bullish" ∨ fst (classify_trend x) = "bearish"
          → (2 # 5 < s)%Q)
       ∧ (fst (classify_trend x) = "sideways" → s = 0.5%Q).
Proof.
  unfold classify_trend, flt_lt.
  assert (Hmin : ∀ q, (2 < q)%Q →
            ∃ s, py_min (fdiv (Fin q) (Fin 5)) (Fin 1) = Fin s
                 ∧ (0 <= s <= 1)%Q ∧ (2 # 5 < s)%Q).
  { intros q Hq. simpl. unfold py_min, flt_lt. simpl.
    destruct (Qltb 1 (q / 5)) eqn:H1.
    - exists 1%Q. split; [done|]. lra.
    - exists (q / 5)%Q. split; [done|].
      unfold Qltb in H1. apply negb_false_iff, Qle_bool_iff in H1.
      assert (2 # 5 < q / 5)%Q by (apply Qlt_shift_div_l; lra). lra. }
  destruct x as [q| | |]; simpl.
  - destruct (Qltb 2 q) eqn:Hb.
    + apply Qltb_lt in Hb. destruct (Hmin (Qabs q)) as (s & Hs & Hr & Hlo).
      { rewrite Qabs_pos; lra. }
      exists s. simpl in *. rewrite Hs. repeat split; try tauto; try lra; try done.
    + destruct (Qltb q (-2)) eqn:Hs.
      * apply Qltb_lt in Hs. destruct (Hmin (Qabs q)) as (s & Hs' & Hr & Hlo).
        { rewrite Qabs_neg; lra. }
        exists s. simpl in *. rewrite Hs'. repeat split; try tauto; try lra; try done.
      * exists 0.5%Q. simpl. repeat split; try lra; try done.
  - exists 1%Q. simpl. repeat split; try lra; try done.
  - exists 1%Q. simpl. repeat split; try lra; try done.
  - exists 0.5%Q. simpl. repeat split; try lra; try done.
Qed.

(** X6.  The strength of a trend is always a number between 0 and 1: above
    0.4 for a bullish or bearish trend, 0.5 for a sideways one (also when
    the change is NaN because the reference close is zero), and the trend
    is insufficient_data exactly for frames of fewer than five bars. *)
Theorem trend_strength_bounds (df : DataFrame) :
  ∃ s, strength (_trend_analysis df) = Fin s
       ∧ (0 <= s <= 1)%Q
       ∧ (trend (_trend_analysis df) = "bullish"
          ∨ trend (_trend_analysis df) = "bearish" → (2 # 5 < s)%Q)
       ∧ (trend (_trend_analysis df) = "sideways" → s = 0.5%Q)
       ∧ ((length df < 5)%nat ↔ trend (_trend_analysis df) = "insufficient_data").
Proof.
  destruct (decide (length df < 5)%nat) as [Hshort|Hlong].
  - unfold _trend_analysis, trend_analysis_try. rewrite decide_True by done.
    simpl. exists 0%Q. repeat split; try lra; try done.
    intros [?|?]; discriminate.
  - destruct (trend_analysis_computed df) as (c1 & c5 & mtc & _ & _ & ->); [lia|].
    simpl. destruct (classify_trend_strength (percent_change c1 c5))
      as (s & Hs & Hr & Hdir & Hside).
    exists s. split; [done|]. split; [done|]. split; [done|]. split; [done|].
    split; [lia|]. intros H. exfalso. revert H. unfold classify_trend.
    repeat case_match; discriminate.
Qed.

(** The percent change from a positive close. *)
Lemma percent_change_pos (a b : Q) :
  (0 < b)%Q → percent_change a b = Fin ((a + - b) / b * 100).
Proof.
  intros Hb. unfold percent_change. simpl.
  destruct (Qeq_bool b 0) eqn:H0; [|done].
  apply Qeq_bool_iff in H0. lra.
Qed.

Lemma ratio_gt (a b c : Q) :
  (0 < b)%Q → (c < (a + - b) / b * 100 ↔ b * (1 + c / 100) < a)%Q.
Proof.
  intros Hb. pose proof (Qmult_div_r (a + - b) b) as Hx.
  pose proof (Qmult_lt_l (c / 100) ((a + - b) / b) b Hb) as Hm.
  set (x := ((a + - b) / b)%Q) in *.
  change (c / 100)%Q with (c * (1 # 100))%Q in *.
  assert (b * x == a + - b)%Q as Hx2 by (apply Hx; lra).
  split; intros H.
  - assert (b * (c / 100) < b * x)%Q by (apply Hm; lra). lra.
  - assert (c / 100 < x)%Q; [|lra]. apply Hm. lra.
Qed.

Lemma ratio_lt (a b c : Q) :
  (0 < b)%Q → ((a + - b) / b * 100 < c ↔ a < b * (1 + c / 100))%Q.
Proof.
  intros Hb. pose proof (Qmult_div_r (a + - b) b) as Hx.
  pose proof (Qmult_lt_l ((a + - b) / b) (c / 100) b Hb) as Hm.
  set (x := ((a + - b) / b)%Q) in *.
  change (c / 100)%Q with (c * (1 # 100))%Q in *.
  assert (b * x == a + - b)%Q as Hx2 by (apply Hx; lra).
  split; intros H.
  - assert (b * x < b * (c / 100))%Q by (apply Hm; lra). lra.
  - assert (x < c / 100)%Q; [|lra]. apply Hm. lra.
Qed.

(** X7.  With a positive close five bars back, the trend is bullish exactly
    when the last close is more than 2 percent above it, bearish exactly
    when it is more than 2 percent below it, and sideways in between. *)
Theorem trend_direction (pre : DataFrame) (b5 b4 b3 b2 b1 : bar) :
  (0 < Close b5)%Q →
  let t := trend (_trend_analysis (pre ++ [b5; b4; b3; b2; b1])) in
  (t = "bullish" ↔ (Close b5 * 1.02 < Close b1)%Q)
  ∧ (t = "bearish" ↔ (Close b1 < Close b5 * 0.98)%Q)
  ∧ (t = "sideways" ↔ (Close b5 * 0.98 <= Close b1 <= Close b5 * 1.02)%Q).
Proof.
  intros Hpos. simpl.
  destruct (trend_analysis_computed (pre ++ [b5; b4; b3; b2; b1]))
    as (c1 & c5 & mtc & H1 & H5 & ->).
  { rewrite length_app. simpl. lia. }
  rewrite fmap_app in H1, H5.
  rewrite iloc_neg_app in H1 by (simpl; lia).
  rewrite iloc_neg_app in H5 by (simpl; lia).
  injection H1 as <-. injection H5 as <-. simpl.
  rewrite percent_change_pos by done. unfold classify_trend, flt_lt. simpl.
  pose proof (ratio_gt (Close b1) (Close b5) 2 Hpos) as Hgt.
  pose proof (ratio_lt (Close b1) (Close b5) (-2) Hpos) as Hlt.
  change (2 / 100)%Q with (2 # 100)%Q in Hgt.
  change (-2 / 100)%Q with (-2 # 100)%Q in Hlt.
  set (x := ((Close b1 + - Close b5) / Close b5 * 100)%Q) in *.
  destruct (Qltb 2 x) eqn:Hb; [|destruct (Qltb x (-2)) eqn:Hs]; simpl.
  - apply Qltb_lt in Hb. apply Hgt in Hb.
    split; [split; [intros _; lra|done]|].
    split; (split; [discriminate|intros ?; exfalso; lra]).
  - apply Qltb_lt in Hs. apply Hlt in Hs.
    split; [split; [discriminate|intros ?; exfalso; lra]|].
    split; [split; [intros _; lra|done]|].
    split; [discriminate|intros ?; exfalso; lra].
  - unfold Qltb in Hb, Hs. apply negb_false_iff, Qle_bool_iff in Hb, Hs.
    assert (¬ (Close b5 * (1 + (2 # 100)) < Close b1)%Q) by (intros ?%Hgt; lra).
    assert (¬ (Close b1 < Close b5 * (1 + (-2 # 100)))%Q) by (intros ?%Hlt; lra).
    split; [split; [discriminate|intros ?; exfalso; lra]|].
    split; [split; [discriminate|intros ?; exfalso; lra]|].
    split; [intros _; lra|done].
Qed.

(** *** Volume *)

Lemma Qltb_false (x y : Q) : Qltb x y = false ↔ (y <= x)%Q.
Proof. unfold Qltb. by rewrite negb_false_iff, Qle_bool_iff. Qed.

(** X8.  For a frame of exactly five bars (the default fetch window) the
    recent volume is the overall volume: the ratio is 1 and the volume
    trend is always normal. *)
Theorem volume_of_five_bars (df : DataFrame) :
  length df = 5%nat →
  volume_trend (_volume_analysis df) = "normal"
  ∧ ∃ r, volume_ratio (_volume_analysis df) = Some r ∧ (r == 1)%Q.
Proof.
  intros Hlen. unfold _volume_analysis.
  destruct (decide (length df < 5)%nat); [lia|].
  rewrite length_fmap, Hlen, Nat.sub_diag, drop_0.
  set (avg := mean (Volume <$> df)).
  set (r := if Qltb 0 avg then (avg / avg)%Q else 1%Q).
  assert (Hr : (r == 1)%Q).
  { unfold r. destruct (Qltb 0 avg) eqn:Hpos; [|reflexivity].
    apply Qltb_lt in Hpos. apply Qmult_inv_r. lra. }
  cbn [volume_trend volume_ratio]. fold r. split; [|by exists r].
  destruct (Qltb 1.5 r) eqn:H1; [apply Qltb_lt in H1; lra|].
  destruct (Qltb r 0.7) eqn:H2; [apply Qltb_lt in H2; lra|]. done.
Qed.

(** *** Drawdown *)

Lemma drawdown_entry_of (p k : Q) :
  (0 < p)%Q → (p <= k)%Q →
  drawdown_entry (fdiv (fsub (Fin p) (Fin k)) (Fin k)).
Proof.
  intros Hp Hk. simpl. destruct (Qeq_bool k 0) eqn:H0.
  { apply Qeq_bool_iff in H0. lra. }
  eexists. split; [done|]. split.
  - apply Qlt_shift_div_l; lra.
  - apply Qle_shift_div_r; lra.
Qed.

Lemma drawdown_entries_from (prices : list Q) (peak : Q) :
  (0 < peak)%Q → Forall (λ p, 0 < p)%Q prices →
  Forall drawdown_entry
    (zip_with (λ p k, fdiv (fsub (Fin p) (Fin k)) (Fin k)) prices
       (expanding_max_from peak prices)).
Proof.
  intros Hpeak Hpos. revert peak Hpeak.
  induction Hpos as [|p prices Hp _ IH]; intros peak Hpeak; [constructor|].
  simpl. pose proof (Q.le_max_l peak p). pose proof (Q.le_max_r peak p).
  constructor.
  - apply drawdown_entry_of; [done|done].
  - apply IH. lra.
Qed.

(** X9.  For a non-empty series of positive prices the maximum drawdown is
    a number greater than -1 and at most 0. *)
Theorem max_drawdown_range (prices : list Q) :
  prices ≠ [] → Forall (λ p, 0 < p)%Q prices →
  ∃ d, _calculate_max_drawdown prices = Fin d ∧ (-1 < d <= 0)%Q.
Proof.
  intros Hne Hpos. unfold _calculate_max_drawdown, series_min.
  destruct prices as [|p prices]; [done|]. simpl expanding_max.
  inversion_clear Hpos as [|? ? Hp Hrest].
  assert (Hall : Forall drawdown_entry
            (zip_with (λ p k, fdiv (fsub (Fin p) (Fin k)) (Fin k))
               (p :: prices) (p :: expanding_max_from p prices))).
  { simpl. constructor.
    - apply drawdown_entry_of; [done|lra].
    - by apply drawdown_entries_from. }
  set (dd := zip_with _ _ _) in *.
  assert (Hfin : ∃ x l, omap finite dd = x :: l
                        ∧ Forall (λ d, -1 < d <= 0)%Q (x :: l)).
  { destruct dd as [|y dd'] eqn:Hdd; [discriminate|].
    assert (Forall (λ d, -1 < d <= 0)%Q (omap finite (y :: dd'))) as Hf.
    { clear -Hall. induction Hall as [|z l (d & -> & Hd) _ IH]; simpl; [constructor|].
      by constructor. }
    inversion_clear Hall as [|? ? (d & -> & Hd) _]. simpl in *.
    by eexists _, _. }
  destruct Hfin as (x & l & -> & Hrange). simpl.
  eexists. split; [done|].
  rewrite Forall_forall in Hrange. apply Hrange, IndicatorFacts.foldr_Qmin_elem.
Qed.

Lemma trend_direction_witness :
  let t := trend (_trend_analysis AnalysisSpec.five_bars) in
  (t = "bullish" ↔ (100 * 1.02 < 104)%Q)
  ∧ (t = "bearish" ↔ (104 < 100 * 0.98)%Q)
  ∧ (t = "sideways" ↔ (100 * 0.98 <= 104 <= 100 * 1.02)%Q).
Proof.
  apply (trend_direction [] (Examples.bar_on 1 100) (Examples.bar_on 2 101)
           (Examples.bar_on 3 102) (Examples.bar_on 4 103)
           (Examples.bar_on 5 104)).
  reflexivity.
Defined.

Lemma volume_of_five_bars_witness :
  volume_trend (_volume_analysis AnalysisSpec.five_bars) = "normal"
  ∧ ∃ r, volume_ratio (_volume_analysis AnalysisSpec.five_bars) = Some r
         ∧ (r == 1)%Q.
Proof. apply (volume_of_five_bars AnalysisSpec.five_bars). reflexivity. Defined.

Lemma max_drawdown_range_witness :
  ∃ d, _calculate_max_drawdown [100; 120; 90; 130; 65]%Q = Fin d
       ∧ (-1 < d <= 0)%Q.
Proof.
  apply (max_drawdown_range [100; 120; 90; 130; 65]%Q); [done|].
  repeat constructor.
Defined.

Example drawdown_of_a_halving :
  _calculate_max_drawdown [100; 120; 90; 130; 65]%Q = Fin (-65 # 130).
Proof. reflexivity. Qed.

End AnalysisFacts.

(* ===================================================================== *)
(** ** Bounds of the recommendation                                      *)
(* ===================================================================== *)

Module EngineFacts.
Import Py Recommendation.

Lemma technical_factors_bounds (technical : dict) (t t' : tally) :
  technical_factors technical t = inr t' → fst t - 3 ≤ fst t' ≤ fst t + 3.
Proof.
  unfold technical_factors.
  destruct (dict_mem technical "indicators"); [|intros [= <-]; lia].
  destruct (py_item technical "indicators") as [|ind]; [discriminate|]. simpl.
  destruct (py_get ind "rsi" (VInt 50)) as [|rsi]; [discriminate|]. simpl.
  destruct (py_lt rsi (VInt 30)) as [|[]]; [discriminate| |]; simpl.
  - destruct (py_get ind "macd" (VInt 0)) as [|m]; [discriminate|]. simpl.
    destruct (py_get ind "macd_signal" (VInt 0)) as [|s]; [discriminate|]. simpl.
    destruct (py_gt m s) as [|[]]; [discriminate| |]; simpl;
      intros [= <-]; simpl; lia.
  - destruct (py_gt rsi (VInt 70)) as [|[]]; [discriminate| |]; simpl;
      (destruct (py_get ind "macd" (VInt 0)) as [|m]; [discriminate|]; simpl;
       destruct (py_get ind "macd_signal" (VInt 0)) as [|s]; [discriminate|]; simpl;
       destruct (py_gt m s) as [|[]]; [discriminate| |]; simpl;
       intros [= <-]; simpl; lia).
Qed.

Lemma later_factors_bounds (trend risk news : dict) (t : tally) :
  fst t - 4 ≤ fst (risk_factors risk (news_factors news (trend_factors trend t)))
  ≤ fst t + 3.
Proof.
  unfold risk_factors, news_factors, trend_factors.
  repeat case_match; simpl; lia.
Qed.

Lemma conclude_bounds (s : Z) (fs : list string) :
  -7 ≤ s ≤ 6 →
  let r := conclude (s, fs) in
  (33.3 <= confidence r <= 95)%Q
  ∧ (action r = "BUY" ↔ 1 ≤ s)
  ∧ (action r = "SELL" ↔ s ≤ -1)
  ∧ (action r = "HOLD" ↔ s = 0).
Proof.
  intros Hs.
  assert (s = -7 ∨ s = -6 ∨ s = -5 ∨ s = -4 ∨ s = -3 ∨ s = -2 ∨ s = -1
          ∨ s = 0 ∨ s = 1 ∨ s = 2 ∨ s = 3 ∨ s = 4 ∨ s = 5 ∨ s = 6) as Hcases
    by lia.
  repeat (destruct Hcases as [-> | Hcases]); try subst s;
    (split; [split; vm_compute; discriminate|]);
    simpl; repeat split; intros; try lia; try discriminate; reflexivity.
Qed.

(** X10.  Whatever the five analyses hold, the recommendation has a
    confidence between 33.3 and 95; when it carries a score, the score lies
    between -7 and 6 and the action is BUY exactly for a positive score, SELL
    exactly for a negative one and HOLD exactly for 0. *)
Theorem recommendation_bounds (technical trend volume risk news : dict) :
  let r := _generate_recommendation technical trend volume risk news in
  (33.3 <= confidence r <= 95)%Q
  ∧ ∀ s, score r = Some s →
         -7 ≤ s ≤ 6
         ∧ (action r = "BUY" ↔ 1 ≤ s)
         ∧ (action r = "SELL" ↔ s ≤ -1)
         ∧ (action r = "HOLD" ↔ s = 0).
Proof.
  unfold _generate_recommendation, generate_recommendation_try.
  destruct (technical_factors technical (0, [])) as [e|t] eqn:Ht; simpl.
  - split; [split; vm_compute; discriminate|]. discriminate.
  - apply technical_factors_bounds in Ht. simpl in Ht.
    pose proof (later_factors_bounds trend risk news t) as Hl.
    destruct (risk_factors _ _) as [s fs]. simpl in Hl.
    assert (-7 ≤ s ≤ 6) as Hs by lia.
    destruct (conclude_bounds s fs Hs) as (Hc & Ha).
    split; [done|]. intros s'. rewrite RecommendationFacts.score_conclude.
    intros [= <-]. done.
Qed.

End EngineFacts.

(* ===================================================================== *)
(** ** The sentiment summary                                             *)
(* ===================================================================== *)

Module SentimentFacts.
Import Py News NewsSpec NewsNotions.

Lemma score_of_alter (h : store) (r ref : nat) (s : string) :
  score_of (alter (insert "sentiment" s) r h) ref = score_of h ref.
Proof.
  unfold score_of. destruct (decide (ref = r)) as [->|Hne].
  - rewrite lookup_alter_eq. destruct (h !! r) as [a|]; [|done]. simpl.
    by rewrite NewsFacts.article_sentiment_insert_sentiment.
  - by rewrite lookup_alter_ne.
Qed.

(** The scores do not depend on the writes the loop makes on its way. *)
Lemma score_articles_scores (articles : list nat) (h : store) (acc : list Z) :
  snd (score_articles h articles acc) = (acc ++ (score_of h <$> articles))%list.
Proof.
  revert h acc. induction articles as [|r rest IH]; intros h acc; simpl.
  { by rewrite app_nil_r. }
  destruct (article_sentiment (default ∅ (h !! r))) as [sentiment score] eqn:Hs.
  rewrite IH, <- app_assoc. simpl. f_equal. f_equal.
  - unfold score_of. by rewrite Hs.
  - apply list_fmap_ext. intros _ ref _. apply score_of_alter.
Qed.

Lemma score_of_range (h : store) (ref : nat) :
  score_of h ref = 1 ∨ score_of h ref = -1 ∨ score_of h ref = 0.
Proof.
  unfold score_of, article_sentiment. repeat case_match; simpl; tauto.
Qed.


Lemma Zsum_signs (l : list Z) :
  signs l →
  Zsum l = Z.of_nat (length (List.filter (λ z, 0 <? z) l))
           - Z.of_nat (length (List.filter (λ z, z <? 0) l))
  ∧ Z.of_nat (length (List.filter (λ z, 0 <? z) l))
    + Z.of_nat (length (List.filter (λ z, z <? 0) l)) ≤ Z.of_nat (length l).
Proof.
  induction 1 as [|z l Hz _ [IH1 IH2]]; [done|].
  unfold Zsum in *. simpl. destruct Hz as [-> | [-> | ->]]; simpl; lia.
Qed.

(** The summary of a non-empty list, from the scores of its articles. *)
Lemma analyze_scores (h : store) (articles : list nat) :
  articles ≠ [] →
  let scores := score_of h <$> articles in
  let avg := (inject_Z (Zsum scores) / inject_Z (Z.of_nat (length scores)))%Q in
  let pos := Z.of_nat (length (List.filter (λ z, 0 <? z) scores)) in
  let neg := Z.of_nat (length (List.filter (λ z, z <? 0) scores)) in
  snd (analyze_news_sentiment h articles)
  = {| overall_sentiment :=
         if Qltb 0.1 avg then "positive"
         else if Qltb avg (-0.1) then "negative" else "neutral";
       positive_count := pos;
       negative_count := neg;
       neutral_count := Z.of_nat (length scores) - pos - neg;
       confidence := Qabs avg;
       articles_analyzed := Some (Z.of_nat (length articles));
       sentiment_score := Some ((avg + 1) * 5)%Q |}.
Proof.
  intros Hne. simpl. unfold analyze_news_sentiment.
  destruct articles as [|r rest]; [done|].
  pose proof (score_articles_scores (r :: rest) h []) as Hs.
  destruct (score_articles h (r :: rest) []) as [h' scores]. simpl in Hs.
  subst scores. simpl. done.
Qed.

Lemma avg_bounds (z n : Z) :
  0 < n → - n ≤ z ≤ n →
  (-1 <= inject_Z z / inject_Z n <= 1)%Q
  ∧ ((0.1 < inject_Z z / inject_Z n)%Q ↔ n < 10 * z)
  ∧ ((inject_Z z / inject_Z n < -0.1)%Q ↔ 10 * z < - n).
Proof.
  intros Hn Hz.
  assert (Hq : (0 < inject_Z n)%Q)
    by (change 0%Q with (inject_Z 0); by rewrite <- Zlt_Qlt).
  assert (Hlo : (- inject_Z n <= inject_Z z)%Q)
    by (rewrite <- inject_Z_opp, <- Zle_Qle; lia).
  assert (Hhi : (inject_Z z <= inject_Z n)%Q) by (rewrite <- Zle_Qle; lia).
  assert (H10 : (inject_Z n < 10 * inject_Z z)%Q ↔ n < 10 * z).
  { change 10%Q with (inject_Z 10). by rewrite <- inject_Z_mult, <- Zlt_Qlt. }
  assert (H10' : (10 * inject_Z z < - inject_Z n)%Q ↔ 10 * z < - n).
  { change 10%Q with (inject_Z 10).
    by rewrite <- inject_Z_opp, <- inject_Z_mult, <- Zlt_Qlt. }
  pose proof (Qmult_div_r (inject_Z z) (inject_Z n)) as Hx.
  set (x := (inject_Z z / inject_Z n)%Q) in *.
  assert (Hx' : (inject_Z n * x == inject_Z z)%Q) by (apply Hx; lra).
  pose proof (Qmult_le_l (-1) x (inject_Z n) Hq) as Hle1.
  pose proof (Qmult_le_l x 1 (inject_Z n) Hq) as Hle2.
  pose proof (Qmult_lt_l 0.1 x (inject_Z n) Hq) as Hlt1.
  pose proof (Qmult_lt_l x (-0.1) (inject_Z n) Hq) as Hlt2.
  split; [split|split].
  - apply Hle1. lra.
  - apply Hle2. lra.
  - rewrite <- H10, <- Hlt1. split; intros; lra.
  - rewrite <- H10', <- Hlt2. split; intros; lra.
Qed.

Lemma scores_signs (h : store) (articles : list nat) :
  signs (score_of h <$> articles).
Proof. apply Forall_fmap, Forall_forall. intros ref _. apply score_of_range. Qed.

(** X11.  For a non-empty list of articles the summary reports the length
    of the list as [articles_analyzed]; the positive, negative and neutral
    counts are non-negative and add up to it; the confidence lies between 0
    and 1 and the sentiment score between 0 and 10. *)
Theorem summary_counts_and_ranges (h : store) (articles : list nat) :
  articles ≠ [] →
  let s := snd (analyze_news_sentiment h articles) in
  let n := Z.of_nat (length articles) in
  articles_analyzed s = Some n
  ∧ positive_count s + negative_count s + neutral_count s = n
  ∧ 0 ≤ positive_count s ∧ 0 ≤ negative_count s ∧ 0 ≤ neutral_count s
  ∧ (0 <= confidence s <= 1)%Q
  ∧ ∃ v, sentiment_score s = Some v ∧ (0 <= v <= 10)%Q.
Proof.
  intros Hne. cbv zeta. rewrite analyze_scores by done.
  cbn [articles_analyzed positive_count negative_count neutral_count
       confidence sentiment_score overall_sentiment].
  pose proof (scores_signs h articles) as Hsigns.
  destruct (Zsum_signs _ Hsigns) as [Hsum Hle].
  set (scores := score_of h <$> articles) in *.
  assert (Hlen : length scores = length articles)
    by (unfold scores; by rewrite length_fmap).
  assert (Hpos : 0 < Z.of_nat (length scores)).
  { rewrite Hlen. destruct articles; [done|]. simpl. lia. }
  destruct (avg_bounds (Zsum scores) (Z.of_nat (length scores)) Hpos)
    as (Havg & _); [lia|].
  rewrite Hlen in *.
  split; [done|]. split; [lia|]. split; [lia|]. split; [lia|]. split; [lia|].
  split.
  - split; [apply Qabs_nonneg|]. apply Qabs_Qle_condition. lra.
  - eexists. split; [done|]. lra.
Qed.

(** X12.  For a non-empty list of [n] articles the overall sentiment is
    decided by the lead of the positive over the negative articles: positive
    exactly when ten times the lead exceeds [n], negative exactly when it is
    below [-n], neutral in between. *)
Theorem overall_sentiment_from_counts (h : store) (articles : list nat) :
  articles ≠ [] →
  let s := snd (analyze_news_sentiment h articles) in
  let n := Z.of_nat (length articles) in
  let lead := positive_count s - negative_count s in
  (overall_sentiment s = "positive" ↔ n < 10 * lead)
  ∧ (overall_sentiment s = "negative" ↔ 10 * lead < - n)
  ∧ (overall_sentiment s = "neutral" ↔ - n ≤ 10 * lead ≤ n).
Proof.
  intros Hne. cbv zeta. rewrite analyze_scores by done.
  cbn [articles_analyzed positive_count negative_count neutral_count
       confidence sentiment_score overall_sentiment].
  pose proof (scores_signs h articles) as Hsigns.
  destruct (Zsum_signs _ Hsigns) as [Hsum Hle].
  set (scores := score_of h <$> articles) in *.
  assert (Hlen : length scores = length articles)
    by (unfold scores; by rewrite length_fmap).
  assert (Hpos : 0 < Z.of_nat (length scores)).
  { rewrite Hlen. destruct articles; [done|]. simpl. lia. }
  destruct (avg_bounds (Zsum scores) (Z.of_nat (length scores)) Hpos)
    as (_ & Hup & Hdown); [lia|].
  rewrite Hlen, Hsum in *.
  set (avg := (inject_Z _ / inject_Z _)%Q) in *.
  destruct (Qltb 0.1 avg) eqn:H1; [|destruct (Qltb avg (-0.1)) eqn:H2].
  - apply Qltb_lt, Hup in H1.
    split; [done|]. split; (split; [discriminate|lia]).
  - apply Qltb_lt, Hdown in H2.
    split; [split; [discriminate|lia]|].
    split; [done|]. split; [discriminate|lia].
  - assert (¬ (0.1 < avg)%Q) as N1 by (intros ?%Qltb_lt; congruence).
    assert (¬ (avg < -0.1)%Q) as N2 by (intros ?%Qltb_lt; congruence).
    rewrite Hup in N1. rewrite Hdown in N2.
    split; [split; [discriminate|lia]|].
    split; [split; [discriminate|lia]|]. split; [lia|done].
Qed.

(** X13.  Analysing a list of articles a second time changes nothing: the
    store after the second run is the store after the first, and the summary
    is the same, although the first run has overwritten the sentiment
    entries. *)
Theorem analysis_is_idempotent (h : store) (articles : list nat) :
  let once := analyze_news_sentiment h articles in
  analyze_news_sentiment (fst once) articles = once.
Proof.
  simpl. destruct articles as [|r rest] eqn:Harts; [done|]. rewrite <- Harts.
  assert (Hne : articles ≠ []) by (by rewrite Harts).
  assert (Hfst : ∀ h0, fst (analyze_news_sentiment h0 articles)
                       = fst (score_articles h0 articles [])).
  { intros h0. unfold analyze_news_sentiment. rewrite Harts.
    by destruct (score_articles h0 (r :: rest) []). }
  set (h1 := fst (analyze_news_sentiment h articles)).
  assert (Hstore : fst (analyze_news_sentiment h1 articles) = h1).
  { apply map_eq. intros ref. rewrite Hfst, NewsFacts.score_articles_store.
    unfold h1. rewrite Hfst, NewsFacts.score_articles_store.
    destruct (decide (ref ∈ articles)); [|done].
    destruct (h !! ref) as [a|]; [|done]. simpl. by rewrite NewsFacts.mark_mark. }
  assert (Hscore : ∀ ref, score_of h1 ref = score_of h ref).
  { intros ref. unfold score_of, h1.
    rewrite Hfst, NewsFacts.score_articles_store.
    destruct (decide (ref ∈ articles)); [|done].
    destruct (h !! ref) as [a|]; [|done]. simpl. unfold mark.
    by rewrite NewsFacts.article_sentiment_insert_sentiment. }
  rewrite (surjective_pairing (analyze_news_sentiment h1 articles)).
  rewrite (surjective_pairing (analyze_news_sentiment h articles)).
  f_equal; [done|]. rewrite !analyze_scores by done.
  assert (score_of h1 <$> articles = score_of h <$> articles) as ->; [|done].
  apply list_fmap_ext. intros _ ref _. apply Hscore.
Qed.

Lemma summary_counts_and_ranges_witness :
  let s := snd (analyze_news_sentiment Examples.newsroom [1; 2; 1]%nat) in
  articles_analyzed s = Some 3
  ∧ positive_count s + negative_count s + neutral_count s = 3
  ∧ 0 ≤ positive_count s ∧ 0 ≤ negative_count s ∧ 0 ≤ neutral_count s
  ∧ (0 <= confidence s <= 1)%Q
  ∧ ∃ v, sentiment_score s = Some v ∧ (0 <= v <= 10)%Q.
Proof.
  apply (summary_counts_and_ranges Examples.newsroom [1; 2; 1]%nat).
  discriminate.
Defined.

Lemma overall_sentiment_from_counts_witness :
  let s := snd (analyze_news_sentiment Examples.newsroom [1; 2; 1]%nat) in
  let lead := positive_count s - negative_count s in
  (overall_sentiment s = "positive" ↔ 3 < 10 * lead)
  ∧ (overall_sentiment s = "negative" ↔ 10 * lead < - 3)
  ∧ (overall_sentiment s = "neutral" ↔ - 3 ≤ 10 * lead ≤ 3).
Proof.
  apply (overall_sentiment_from_counts Examples.newsroom [1; 2; 1]%nat).
  discriminate.
Defined.

(** The example list has two positive articles and a negative one. *)
Example newsroom_counts :
  let s := snd (analyze_news_sentiment Examples.newsroom [1; 2; 1]%nat) in
  overall_sentiment s = "positive" ∧ positive_count s = 2
  ∧ negative_count s = 1 ∧ neutral_count s = 0.
Proof. vm_compute. done. Qed.

End SentimentFacts.

(* ===================================================================== *)
(** ** Collecting the news                                               *)
(* ===================================================================== *)

Module NewsSearchFacts.
Import Py News NewsSearch NewsNotions.

Lemma ltb_asym (s1 s2 : string) :
  String.ltb s1 s2 = true → String.ltb s2 s1 = false.
Proof.
  unfold String.ltb. rewrite (String.compare_antisym s1 s2).
  by destruct (String.compare s2 s1).
Qed.

Lemma queries_for_three (symbol : string) :
  queries_for symbol = [symbol; symbol ++ " stock"; symbol ++ " earnings"].
Proof. unfold queries_for. by destruct (_get_company_name symbol). Qed.

Lemma unique_by_title_spec (articles : list article) (seen : gset string) :
  NoDup (title_key <$> unique_by_title seen articles)
  ∧ ∀ a, a ∈ unique_by_title seen articles →
         a ∈ articles ∧ title_key a ∉ seen.
Proof.
  revert seen. induction articles as [|a rest IH]; intros seen; simpl.
  { split; [constructor|]. by intros a Ha%elem_of_nil. }
  destruct (decide (title_key a ∈ seen)) as [Hin|Hnin].
  - destruct (IH seen) as [Hnd Hsub]. split; [done|].
    intros b Hb. destruct (Hsub b Hb). split; [by apply list_elem_of_further|done].
  - destruct (IH ({[title_key a]} ∪ seen)) as [Hnd Hsub]. split.
    + rewrite fmap_cons. apply NoDup_cons. split; [|done].
      intros (b & Hkey & Hb)%list_elem_of_fmap.
      destruct (Hsub b Hb) as [_ Hb']. apply Hb'. rewrite Hkey.
      apply elem_of_union. left. by apply elem_of_singleton.
    + intros b [->|Hb]%elem_of_cons.
      * split; [apply list_elem_of_here|done].
      * destruct (Hsub b Hb) as [? Hb']. split; [by apply list_elem_of_further|].
        intros Hs. apply Hb', elem_of_union. by right.
Qed.

Lemma insert_newest_first_perm (a : article) (l : list article) :
  insert_newest_first a l ≡ₚ a :: l.
Proof.
  induction l as [|b l IH]; simpl; [done|].
  destruct (String.ltb _ _); [|done]. rewrite IH. apply Permutation_swap.
Qed.

Lemma sort_newest_first_perm (l : list article) : sort_newest_first l ≡ₚ l.
Proof.
  induction l as [|a l IH]; simpl; [done|].
  by rewrite insert_newest_first_perm, IH.
Qed.

Lemma insert_newest_first_sorted (a : article) (l : list article) :
  Sorted not_older l → Sorted not_older (insert_newest_first a l).
Proof.
  induction 1 as [|b l Hl IH Hb]; simpl.
  { by repeat constructor. }
  destruct (String.ltb (published a) (published b)) eqn:Hab.
  - constructor; [done|]. destruct l as [|c l]; simpl in *.
    + constructor. by apply ltb_asym.
    + destruct (String.ltb (published a) (published c)).
      * inversion_clear Hb. by constructor.
      * constructor. by apply ltb_asym.
  - constructor; [by constructor|]. by constructor.
Qed.

Lemma sort_newest_first_sorted (l : list article) :
  Sorted not_older (sort_newest_first l).
Proof.
  induction l as [|a l IH]; simpl; [constructor|].
  by apply insert_newest_first_sorted.
Qed.

Lemma Sorted_take {A} (R : relation A) (n : nat) (l : list A) :
  Sorted R l → Sorted R (take n l).
Proof.
  intros Hl. revert n. induction Hl as [|a l Hl IH Ha]; intros [|n]; simpl;
    try constructor; [by apply IH|].
  destruct Ha as [|b l Hab]; destruct n; simpl; by constructor.
Qed.

Section Search.

Variable search : string → Z → result (list article).

Lemma gather_elem (queries : list string) (days : Z) (a : article) :
  a ∈ gather search queries days
  ↔ ∃ query articles,
      query ∈ queries ∧ search query days = inr articles ∧ a ∈ articles.
Proof.
  induction queries as [|q rest IH]; simpl.
  { split; [by intros ?%elem_of_nil|]. by intros (? & ? & ?%elem_of_nil & _). }
  destruct (search q days) as [e|articles] eqn:Hq.
  - rewrite IH. split.
    + intros (q' & l & Hin & Hs & Ha). exists q', l.
      split; [by apply list_elem_of_further|done].
    + intros (q' & l & [->|Hin]%elem_of_cons & Hs & Ha); [congruence|].
      by exists q', l.
  - rewrite elem_of_app, IH. split.
    + intros [Ha|(q' & l & Hin & Hs & Ha)].
      * exists q, articles. split; [apply list_elem_of_here|done].
      * exists q', l. split; [by apply list_elem_of_further|done].
    + intros (q' & l & [->|Hin]%elem_of_cons & Hs & Ha).
      * left. congruence.
      * right. by exists q', l.
Qed.

(** X14.  The news of a symbol: the searches made are exactly those for the
    symbol, the symbol followed by stock and the symbol followed by earnings
    (the company name is never searched); at most 10 articles are returned,
    no two with the same lower-cased title, newest first, and each of them
    was returned by one of the three searches. *)
Theorem stock_news_is_a_digest (symbol : string) (days : Z) :
  let news := fst (get_stock_news search symbol days) in
  let queries := snd (get_stock_news search symbol days) in
  queries = [symbol; symbol ++ " stock"; symbol ++ " earnings"]
  ∧ (length news ≤ 10)%nat
  ∧ NoDup (title_key <$> news)
  ∧ Sorted not_older news
  ∧ ∀ a, a ∈ news →
         ∃ query articles,
           query ∈ queries ∧ search query days = inr articles ∧ a ∈ articles.
Proof.
  simpl. set (found := gather search (queries_for symbol) days).
  destruct (unique_by_title_spec found ∅) as [Hnd Hsub].
  split; [apply queries_for_three|]. split; [|split; [|split]].
  - rewrite length_take. lia.
  - apply (NoDup_fmap_2_strong title_key).
    + intros a b Ha%subseteq_take Hb%subseteq_take.
      pose proof (sort_newest_first_perm (unique_by_title ∅ found)) as Hperm.
      rewrite Hperm in Ha, Hb.
      intros Hkey. by apply (DatabaseFacts.NoDup_fmap_inj_on title_key
                               (unique_by_title ∅ found)).
    + apply (sublist_NoDup _ (sort_newest_first (unique_by_title ∅ found)));
        [|apply sublist_take].
      rewrite sort_newest_first_perm. by eapply NoDup_fmap_1.
  - apply Sorted_take, sort_newest_first_sorted.
  - intros a Ha%subseteq_take. rewrite sort_newest_first_perm in Ha.
    destruct (Hsub a Ha) as [Hfound _]. by apply gather_elem.
Qed.

Lemma gather_two_elem (queries : list string) (a : article) :
  a ∈ gather_two search queries →
  ∃ query articles,
    query ∈ queries ∧ search query 3 = inr articles ∧ a ∈ take 2 articles.
Proof.
  induction queries as [|q rest IH]; simpl; [by intros ?%elem_of_nil|].
  destruct (search q 3) as [e|articles] eqn:Hq.
  - intros (q' & l & Hin & Hs & Ha)%IH. exists q', l.
    split; [by apply list_elem_of_further|done].
  - intros [Ha|(q' & l & Hin & Hs & Ha)%IH]%elem_of_app.
    + exists q, articles. split; [apply list_elem_of_here|done].
    + exists q', l. split; [by apply list_elem_of_further|done].
Qed.

Lemma gather_two_length (queries : list string) :
  (length (gather_two search queries) ≤ 2 * length queries)%nat.
Proof.
  induction queries as [|q rest IH]; simpl; [lia|].
  destruct (search q 3) as [e|articles]; [lia|].
  rewrite length_app, length_take. lia.
Qed.

Lemma unique_up_to_spec (limit : Z) (all : list article) (seen : gset string)
    (acc : list article) :
  NoDup (title_key <$> acc) → (∀ a, a ∈ acc → title_key a ∈ seen) →
  let out := unique_up_to limit seen acc all in
  NoDup (title_key <$> out)
  ∧ Z.of_nat (length out) ≤ Z.max limit (Z.of_nat (length acc))
  ∧ (length out ≤ length acc + length all)%nat
  ∧ ∀ a, a ∈ out → a ∈ acc ∨ a ∈ all.
Proof.
  revert seen acc. induction all as [|a rest IH]; intros seen acc Hnd Hseen; simpl.
  { split; [done|]. split; [lia|]. split; [lia|]. by left. }
  destruct (decide _) as [[Hnew Hroom]|_].
  - destruct (IH ({[title_key a]} ∪ seen) (acc ++ [a])%list)
      as (Hnd' & Hlim & Hlen & Hsub).
    + rewrite fmap_app. apply NoDup_app. split; [done|]. split; [|apply NoDup_singleton].
      intros k (b & -> & Hb)%list_elem_of_fmap Hk%list_elem_of_singleton.
      apply Hnew. rewrite <- Hk. by apply Hseen.
    + intros b [Hb|Hb%list_elem_of_singleton]%elem_of_app; apply elem_of_union.
      * right. by apply Hseen.
      * left. apply elem_of_singleton. by subst b.
    + rewrite length_app in Hlim, Hlen. simpl in Hlim, Hlen.
      split; [done|]. split; [lia|]. split; [lia|].
      intros b [[Hb|Hb%list_elem_of_singleton]%elem_of_app|Hb]%Hsub.
      * by left.
      * right. subst b. apply list_elem_of_here.
      * right. by apply list_elem_of_further.
  - destruct (IH seen acc Hnd Hseen) as (Hnd' & Hlim & Hlen & Hsub).
    split; [done|]. split; [done|]. split; [lia|].
    intros b [Hb|Hb]%Hsub; [by left|right; by apply list_elem_of_further].
Qed.

(** X15.  The market news: at most [limit] articles (none for a limit of
    0 or less) and never more than 8, no two with the same lower-cased
    title, each among the first two results of a successful search of one
    of the four market queries. *)
Theorem market_news_is_bounded (limit : Z) :
  let news := get_market_news search limit in
  Z.of_nat (length news) ≤ Z.max 0 limit
  ∧ (length news ≤ 8)%nat
  ∧ NoDup (title_key <$> news)
  ∧ ∀ a, a ∈ news →
         ∃ query articles,
           query ∈ market_queries ∧ search query 3 = inr articles
           ∧ a ∈ take 2 articles.
Proof.
  simpl. unfold get_market_news.
  destruct (unique_up_to_spec limit (gather_two search market_queries) ∅ [])
    as (Hnd & Hlim & Hlen & Hsub).
  { constructor. }
  { by intros a Ha%elem_of_nil. }
  pose proof (gather_two_length market_queries) as Hg.
  change (length market_queries) with 4%nat in Hg.
  change (length (@nil article)) with 0%nat in Hlim, Hlen.
  split; [lia|]. split; [lia|]. split; [done|].
  intros a [Ha%elem_of_nil|Ha]%Hsub; [done|]. by apply gather_two_elem.
Qed.

End Search.

End NewsSearchFacts.

(* ===================================================================== *)
(** ** Reading the cache back                                            *)
(* ===================================================================== *)

Module CacheFacts.
Import Indicators Database CacheSpec CacheNotions DatabaseFacts.

#[local] Existing Instance by_date_total.
#[local] Existing Instance by_Date_trans.
#[local] Existing Instance before_trans.

Lemma insert_rows_snoc (t : db) (sym : string) (df : DataFrame) (b : bar) :
  insert_rows t sym (df ++ [b]) = insert_or_replace (insert_rows t sym df) sym b.
Proof. unfold insert_rows. by rewrite foldl_app. Qed.

Lemma last_of_day_snoc (df : DataFrame) (b b0 : bar) :
  last_of_day (df ++ [b]) b0
  ↔ b0 = b ∨ (last_of_day df b0 ∧ day_of (Date b0) ≠ day_of (Date b)).
Proof.
  split.
  - intros (l1 & l2 & Heq & Hl2).
    destruct l2 as [|x l2 _] using rev_ind.
    + apply app_inj_tail in Heq as [_ ->]. by left.
    + rewrite app_comm_cons, app_assoc in Heq.
      apply app_inj_tail in Heq as [-> ->]. right. split.
      * exists l1, l2. split; [done|]. intros b' Hb'. apply Hl2.
        apply elem_of_app. by left.
      * intros Heq. apply (Hl2 x); [|done]. apply elem_of_app. right.
        apply list_elem_of_singleton. done.
  - intros [->|[(l1 & l2 & -> & Hl2) Hne]].
    + exists df, []. split; [done|]. by intros b' ?%elem_of_nil.
    + exists l1, (l2 ++ [b])%list. split; [by rewrite <- app_assoc|].
      intros b' [Hb'|Hb'%list_elem_of_singleton]%elem_of_app; [by apply Hl2|].
      subst b'. done.
Qed.

Lemma series_bars (t : db) (now : Z) (sym : string) (days : option Z) (b : bar) :
  b ∈ get_historical_data t now sym days
  ↔ ∃ x, x ∈ content <$> historical_data t ∧ x.1.1 = sym
         ∧ since now days x.1.2 ∧ x.2 = b.
Proof. by rewrite series_permutation, selected_bars. Qed.

(** X17.  Writing the history of one symbol leaves the Series of every
    other symbol as it was, for every window. *)
Theorem upsert_leaves_other_symbols (t : db) (sym sym' : string)
    (df : DataFrame) (now : Z) (days : option Z) :
  sym' ≠ sym →
  get_historical_data (store_historical_data t sym df) now sym' days
  = get_historical_data t now sym' days.
Proof.
  intros Hne. unfold get_historical_data. rewrite historical_data_store.
  f_equal. f_equal. revert t. unfold insert_rows.
  induction df as [|b df IH]; intros t; [done|].
  simpl. rewrite IH. simpl. unfold selected.
  rewrite filter_app, list_filter_filter.
  rewrite filter_cons_False by (simpl; intros [? _]; congruence).
  rewrite filter_nil, app_nil_r.
  apply list_filter_iff. intros r. unfold key. split; [tauto|].
  intros [Hs Hd]. split; [done|]. congruence.
Qed.

Lemma max_date_spec (d : Z) (ds : list Z) :
  foldr Z.max d ds ∈ d :: ds ∧ ∀ x, x ∈ d :: ds → x ≤ foldr Z.max d ds.
Proof.
  induction ds as [|y ds [IHin IHle]]; simpl.
  - split; [apply list_elem_of_here|]. intros x ?%list_elem_of_singleton. lia.
  - split.
    + destruct (Z.max_spec y (foldr Z.max d ds)) as [[_ ->]|[_ ->]].
      * apply elem_of_cons in IHin as [Heq|Hin]; [rewrite Heq; apply list_elem_of_here|].
        by do 2 apply list_elem_of_further.
      * apply list_elem_of_further, list_elem_of_here.
    + intros x [->|[->|Hx]%elem_of_cons]%elem_of_cons.
      * specialize (IHle d (list_elem_of_here _ _)). lia.
      * lia.
      * specialize (IHle x (list_elem_of_further _ _ _ Hx)). lia.
Qed.

Lemma sorted_last_greatest (l : list hist_row) (r : hist_row) :
  Sorted by_date l → last l = Some r → ∀ x, x ∈ l → date x ≤ date r.
Proof.
  intros Hs.
  assert (Transitive by_date) as Htrans
    by (intros a b c; unfold by_date; lia).
  apply (Sorted_StronglySorted by_date) in Hs.
  induction Hs as [|y l Hl IH Hy]; [done|].
  intros Hlast x Hx. destruct l as [|z l].
  - simpl in Hlast. injection Hlast as <-.
    apply list_elem_of_singleton in Hx. subst x. lia.
  - change (last (z :: l) = Some r) in Hlast.
    apply elem_of_cons in Hx as [->|Hx]; [|by apply IH].
    rewrite Forall_forall in Hy. apply (Hy r).
    by apply last_Some_elem_of.
Qed.

(** X18.  The last historical date of a symbol is the date of the last
    bar of its whole Series, and there is none exactly when the Series is
    empty. *)
Theorem last_date_is_newest_bar (t : db) (now : Z) (sym : string) :
  get_last_historical_date t sym
  = Date <$> last (get_historical_data t now sym None).
Proof.
  unfold get_last_historical_date, get_historical_data, selected.
  assert (filter (λ r, symbol r = sym ∧ since now None (date r)) (historical_data t)
          = filter (λ r, symbol r = sym) (historical_data t)) as ->.
  { apply list_filter_iff. intros r. simpl. tauto. }
  set (rows := filter _ (historical_data t)).
  pose proof (merge_sort_Permutation by_date rows) as Hperm.
  pose proof (Sorted_merge_sort by_date rows) as Hsorted.
  rewrite fmap_last.
  destruct (last (merge_sort by_date rows)) as [r|] eqn:Hlast.
  - assert (r ∈ rows) as Hr by (rewrite <- Hperm; by apply last_Some_elem_of).
    destruct rows as [|r0 rows']; [by apply elem_of_nil in Hr|].
    rewrite fmap_cons. simpl. f_equal.
    destruct (max_date_spec (date r0) (date <$> rows')) as [Hin Hle].
    rewrite <- fmap_cons in Hin, Hle.
    apply list_elem_of_fmap in Hin as (m & Hm & Hmin).
    pose proof (sorted_last_greatest _ _ Hsorted Hlast m) as H1.
    rewrite Hperm in H1. specialize (H1 Hmin).
    specialize (Hle (date r) (list_elem_of_fmap_2 _ _ _ Hr)). lia.
  - apply last_None in Hlast. rewrite Hlast in Hperm.
    apply Permutation_nil_l in Hperm. by rewrite <- Hperm.
Qed.

(** X19.  A Series read from a cache that was filled by upserts is in
    strictly ascending order of date; each of its bars is dated at
    midnight, and not before the start of the window when a window of days
    other than 0 is asked for. *)
Theorem series_is_ascending_window (ops : list (string * DataFrame))
    (now : Z) (sym : string) (days : option Z) :
  let series := get_historical_data (upserts ops) now sym days in
  Sorted before series
  ∧ ∀ b, b ∈ series →
         ∃ d, Date b = d * 86400
              ∧ ∀ n, days = Some n → n ≠ 0 → day_of now - n ≤ d.
Proof.
  simpl. split.
  - apply StronglySorted_Sorted, strictly_sorted.
    + apply (Sorted_StronglySorted by_Date), series_sorted.
    + rewrite series_permutation. apply selected_unique_dates, unique_keys_upserts.
  - intros b (x & (r & -> & Hr)%list_elem_of_fmap & Hs & Hd & <-)%series_bars.
    exists (date r). split; [done|]. intros n -> Hn. simpl in Hd.
    apply Z.eqb_neq in Hn. rewrite Hn in Hd. apply Is_true_true in Hd. lia.
Qed.

Lemma upsert_leaves_other_symbols_witness :
  get_historical_data
    (store_historical_data Examples.old_cache "MSFT" [Examples.bar_on 2 300])
    (3 * 86400) "AAPL" None
  = get_historical_data Examples.old_cache (3 * 86400) "AAPL" None.
Proof.
  apply (upsert_leaves_other_symbols Examples.old_cache "MSFT" "AAPL").
  discriminate.
Defined.

(** Two bars of one day and a bar of the next: the second bar of the first
    day is the one that is read back. *)
Example last_bar_of_a_day_wins :
  Close <$> get_historical_data
              (store_historical_data create_tables "AAPL"
                 [Examples.bar_on 1 100; Examples.bar_on 1 105;
                  Examples.bar_on 2 110])
              (3 * 86400) "AAPL" None
  = [105; 110]%Q.
Proof. reflexivity. Qed.

End CacheFacts.

(* ===================================================================== *)
(** ** The round trip of an upsert                                        *)
(* ===================================================================== *)

Module BindingFacts.
Import Indicators CacheSpec CacheNotions Binding.

Lemma erase_insert (t : db) (sym : string) (dt : dtype) (b : bar) :
  erase (insert_or_replace t sym dt b)
  = Database.insert_or_replace (erase t) sym b.
Proof.
  unfold erase, insert_or_replace, Database.insert_or_replace. simpl.
  f_equal. rewrite fmap_app. f_equal.
  induction (historical_data t) as [|r rows IH]; [done|].
  rewrite filter_cons, fmap_cons, filter_cons.
  destruct (decide (Database.key (fields r) ≠ (sym, Database.day_of (Date b))));
    [rewrite fmap_cons|]; by rewrite IH.
Qed.

Lemma erase_insert_rows (df : DataFrame) (t : db) (sym : string) (dt : dtype) :
  erase (insert_rows t sym (dt, df)) = Database.insert_rows (erase t) sym df.
Proof.
  revert t. unfold insert_rows, Database.insert_rows. simpl.
  induction df as [|b df IH]; intros t; [done|].
  simpl. by rewrite IH, erase_insert.
Qed.

(** With the bindings forgotten, the upsert is the upsert of module
    [Database]. *)
Lemma erase_store (t : db) (sym : string) (f : frame) :
  erase (store_historical_data t sym f)
  = Database.store_historical_data (erase t) sym f.2.
Proof.
  destruct f as [dt df].
  unfold store_historical_data, Database.store_historical_data.
  simpl. rewrite <- (erase_insert_rows df t sym dt). by destruct (last df).
Qed.

Lemma bound_rows_store (t : db) (sym : string) (f : frame) :
  historical_data (store_historical_data t sym f)
  = historical_data (insert_rows t sym f).
Proof. unfold store_historical_data. by destruct (last f.2). Qed.

Lemma bound_insert_rows_snoc (t : db) (sym : string) (dt : dtype) (df : DataFrame)
    (b : bar) :
  insert_rows t sym (dt, (df ++ [b])%list)
  = insert_or_replace (insert_rows t sym (dt, df)) sym dt b.
Proof. unfold insert_rows. simpl. by rewrite foldl_app. Qed.

Lemma bound_content_insert (t : db) (sym : string) (dt : dtype) (b : bar)
    (x : string * Z * stored_bar) :
  x ∈ content <$> historical_data (insert_or_replace t sym dt b)
  ↔ (x ∈ content <$> historical_data t ∧ x.1 ≠ (sym, Database.day_of (Date b)))
    ∨ x = (sym, Database.day_of (Date b), bound_bar dt b).
Proof.
  simpl. rewrite fmap_app, elem_of_app. split.
  - intros [Hx|Hx]; apply list_elem_of_fmap in Hx as (r & -> & Hr).
    + apply list_elem_of_filter in Hr as [Hne Hr]. left. split; [|done].
      by apply list_elem_of_fmap_2.
    + right. apply list_elem_of_singleton in Hr. by subst r.
  - intros [[Hx Hne]| ->].
    + left. apply list_elem_of_fmap in Hx as (r & -> & Hr).
      by apply list_elem_of_fmap_2, list_elem_of_filter.
    + right. apply list_elem_of_fmap. eexists.
      split; [|by apply list_elem_of_singleton]. done.
Qed.

(** What the table holds after the rows of a frame were written. *)
Lemma bound_content_insert_rows (df : DataFrame) (t : db) (sym : string)
    (dt : dtype) (x : string * Z * stored_bar) :
  x ∈ content <$> historical_data (insert_rows t sym (dt, df))
  ↔ (x ∈ content <$> historical_data t ∧ x.1 ∉ keys_of sym df)
    ∨ ∃ b, last_of_day df b
           ∧ x = (sym, Database.day_of (Date b), bound_bar dt b).
Proof.
  induction df as [|b df IH] using rev_ind.
  - simpl. split.
    + intros ?. left. split; [done|]. apply not_elem_of_nil.
    + intros [[? _]|(b & (l1 & l2 & Heq & _) & _)]; [done|].
      by destruct l1.
  - rewrite bound_insert_rows_snoc, bound_content_insert, IH. unfold keys_of.
    rewrite fmap_app, not_elem_of_app. simpl.
    rewrite list_elem_of_singleton. split.
    + intros [[[[Hx Hk]|(b0 & Hb0 & ->)] Hne]| ->].
      * left. done.
      * right. exists b0. split; [|done]. apply CacheFacts.last_of_day_snoc.
        right. split; [done|]. simpl in Hne. congruence.
      * right. exists b. split; [|done]. apply CacheFacts.last_of_day_snoc.
        by left.
    + intros [[Hx [Hk Hne]]
             |(b0 & [->|[Hb0 Hne]]%CacheFacts.last_of_day_snoc & ->)].
      * left. split; [|done]. left. done.
      * by right.
      * left. split; [|simpl; congruence]. right. by exists b0.
Qed.

Lemma bound_series_bars (t : db) (now : Z) (sym : string) (days : option Z)
    (b : stored_bar) :
  b ∈ get_historical_data t now sym days
  ↔ ∃ x, x ∈ content <$> historical_data t ∧ x.1.1 = sym
         ∧ Database.since now days x.1.2 ∧ x.2 = b.
Proof.
  unfold get_historical_data. rewrite merge_sort_Permutation. split.
  - intros (r & -> & Hr)%list_elem_of_fmap.
    apply list_elem_of_filter in Hr as [[Hs Hd] Hr].
    exists (content r). split; [by apply list_elem_of_fmap_2|done].
  - intros (x & (r & -> & Hr)%list_elem_of_fmap & Hs & Hd & <-).
    simpl. apply list_elem_of_fmap_2, list_elem_of_filter. done.
Qed.

(** X16.  What is read back after an upsert: a bar is in the Series of the
    symbol exactly when it is the bar the frame wrote last for its day,
    dated at midnight, inside the window and with its values bound as the
    dtype of the rows has them, or a bar that was in the Series before and
    whose date no bar of the frame falls on.  The values of a frame of
    floats come back as the numbers they are, those of a frame of integers
    as bytes. *)
Theorem stored_frame_is_read_back (t : db) (sym : string) (f : frame)
    (now : Z) (days : option Z) (b : stored_bar) :
  (b ∈ get_historical_data (store_historical_data t sym f) now sym days
   ↔ (∃ b0, last_of_day f.2 b0 ∧ b = bound_bar f.1 b0
            ∧ Database.since now days (Database.day_of (Date b0)) = true)
     ∨ (b ∈ get_historical_data t now sym days
        ∧ ∀ b0, b0 ∈ f.2 → sDate b ≠ Database.day_of (Date b0) * 86400))
  ∧ (∀ b0, f.1 = float64 →
           sOpen (bound_bar f.1 b0) = Number (Open b0)
           ∧ sHigh (bound_bar f.1 b0) = Number (High b0)
           ∧ sLow (bound_bar f.1 b0) = Number (Low b0)
           ∧ sClose (bound_bar f.1 b0) = Number (Close b0)
           ∧ sVolume (bound_bar f.1 b0) = Number (Volume b0))
  ∧ (∀ b0, f.1 = int64 →
           sOpen (bound_bar f.1 b0) = Bytes (Open b0)
           ∧ sHigh (bound_bar f.1 b0) = Bytes (High b0)
           ∧ sLow (bound_bar f.1 b0) = Bytes (Low b0)
           ∧ sClose (bound_bar f.1 b0) = Bytes (Close b0)
           ∧ sVolume (bound_bar f.1 b0) = Bytes (Volume b0)).
Proof.
  destruct f as [dt df]. simpl. split; [|split; intros b0 ->; done].
  rewrite !bound_series_bars, bound_rows_store. split.
  - intros (x & Hx & Hs & Hd & <-). apply bound_content_insert_rows in Hx.
    destruct Hx as [[Hx Hk]|(b0 & Hb0 & ->)].
    + right. split; [exists x; done|]. intros b0 Hb0 Heq. apply Hk.
      apply list_elem_of_fmap. exists b0. split; [|done].
      apply list_elem_of_fmap in Hx as (r & -> & Hr). simpl in *.
      f_equal; [done|]. lia.
    + left. exists b0. simpl in Hd. split; [done|]. split; [done|].
      by apply Is_true_true.
  - intros [(b0 & Hb0 & -> & Hd)|[(x & Hx & Hs & Hd & <-) Hne]].
    + exists (sym, Database.day_of (Date b0), bound_bar dt b0). split.
      * apply bound_content_insert_rows. right. by exists b0.
      * simpl. split; [done|]. split; [by apply Is_true_true|done].
    + exists x. split; [|done]. apply bound_content_insert_rows. left.
      split; [done|]. intros (b0 & Hk & Hb0)%list_elem_of_fmap.
      apply (Hne b0 Hb0). apply list_elem_of_fmap in Hx as (r & -> & Hr).
      simpl in *. injection Hk as _ ->. done.
Qed.


(** A frame of integers: the row comes back with bytes where the frame
    had numbers. *)
Example integers_come_back_as_bytes :
  get_historical_data
    (store_historical_data
       {| historical_data := []; historical_seq := 0;
          fetch_tracking := ∅; configuration := ∅ |}
       "AAPL" (int64, [Examples.bar_on 1 100]))
    (3 * 86400) "AAPL" None
  = [{| sDate := 1 * 86400; sOpen := Bytes 100; sHigh := Bytes (100 + 1);
        sLow := Bytes (100 - 1); sClose := Bytes 100; sVolume := Bytes 1000 |}].
Proof. reflexivity. Qed.

End BindingFacts.

(* ===================================================================== *)
(** ** The tracking table                                                *)
(* ===================================================================== *)

Module TrackingFacts.
Import Indicators Database Tracking.

Lemma tracking_store (t : db) (sym : string) (df : DataFrame) :
  fetch_tracking (store_historical_data t sym df)
  = match last df with
    | Some b => alter (λ ft, {| last_historical_date := Some (day_of (Date b));
                                fetch_count := fetch_count ft |})
                  sym (fetch_tracking t)
    | None => fetch_tracking t
    end.
Proof.
  unfold store_historical_data.
  assert (∀ t0, fetch_tracking (insert_rows t0 sym df) = fetch_tracking t0) as H.
  { unfold insert_rows. induction df as [|b df IH]; intros t0; [done|].
    simpl. by rewrite IH. }
  destruct (last df); simpl; by rewrite H.
Qed.

Lemma count_after_write (t : db) (w : write) (sym : string) :
  fetch_count <$> fetch_tracking (apply_write t w) !! sym
  = if is_quote sym w
    then Some (default 0 (fetch_count <$> fetch_tracking t !! sym) + 1)
    else fetch_count <$> fetch_tracking t !! sym.
Proof.
  destruct w as [s|s df]; simpl.
  - destruct (String.eqb_spec s sym) as [->|Hne].
    + by rewrite lookup_insert_eq.
    + by rewrite lookup_insert_ne.
  - rewrite tracking_store. destruct (last df) as [b|]; [|done].
    destruct (decide (s = sym)) as [->|Hne].
    + rewrite lookup_alter_eq. by destruct (fetch_tracking t !! sym).
    + by rewrite lookup_alter_ne.
Qed.

Lemma count_of_writes (ws : list write) (sym : string) :
  fetch_count <$> fetch_tracking (writes ws) !! sym
  = if quotes_of sym ws =? 0 then None else Some (quotes_of sym ws).
Proof.
  unfold writes, quotes_of.
  induction ws as [|w ws IH] using rev_ind; [done|].
  rewrite foldl_app. simpl. rewrite count_after_write, IH.
  rewrite List.filter_app, length_app, Nat2Z.inj_add.
  set (k := Z.of_nat (length (List.filter (is_quote sym) ws))).
  assert (0 ≤ k) as Hk by (unfold k; lia).
  simpl. destruct (is_quote sym w); simpl.
  - destruct (Z.eqb_spec k 0) as [->|Hne]; simpl; [done|].
    change (Z.of_nat 1) with 1.
    destruct (Z.eqb_spec (k + 1) 0) as [|_]; [lia|]. done.
  - change (Z.of_nat 0) with 0. by rewrite Z.add_0_r.
Qed.

(** X20.  After any sequence of quote and history writes into a new
    database, a symbol has a tracking row exactly when a quote of it was
    stored, and the row counts these quotes; a further quote leaves the row
    without a last historical date, whatever it was; a further upsert of
    history records the day of the last bar of its frame, but only for a
    symbol that has a row. *)
Theorem tracking_after_writes (ws : list write) (sym : string) :
  let n := quotes_of sym ws in
  let row := fetch_tracking (writes ws) !! sym in
  (n = 0 → row = None)
  ∧ (0 < n → fetch_count <$> row = Some n)
  ∧ fetch_tracking (writes (ws ++ [Quote sym])) !! sym
    = Some {| last_historical_date := None; fetch_count := n + 1 |}
  ∧ ∀ df b, last df = Some b →
      fetch_tracking (writes (ws ++ [History sym df])) !! sym
      = if n =? 0 then None
        else Some {| last_historical_date := Some (day_of (Date b));
                     fetch_count := n |}.
Proof.
  cbv zeta. pose proof (count_of_writes ws sym) as Hc.
  pose proof (Zle_0_nat (length (List.filter (is_quote sym) ws))) as Hn.
  fold (quotes_of sym ws) in Hn.
  split; [|split; [|split]].
  - intros H0. rewrite H0 in Hc. simpl in Hc.
    by destruct (fetch_tracking (writes ws) !! sym).
  - intros Hpos. rewrite Hc. destruct (Z.eqb_spec (quotes_of sym ws) 0); [lia|done].
  - unfold writes in *. rewrite foldl_app. simpl. rewrite lookup_insert_eq.
    rewrite Hc. destruct (Z.eqb_spec (quotes_of sym ws) 0) as [->|]; done.
  - intros df b Hb. unfold writes in *. rewrite foldl_app. simpl.
    rewrite tracking_store, Hb, lookup_alter_eq.
    destruct (fetch_tracking _ !! sym) as [ft|]; simpl in *.
    + destruct (Z.eqb_spec (quotes_of sym ws) 0); [done|].
      injection Hc as ->. done.
    + destruct (Z.eqb_spec (quotes_of sym ws) 0); done.
Qed.

End TrackingFacts.

(* ===================================================================== *)
(** ** The cache after a call of the gateway                             *)
(* ===================================================================== *)

Module CacheHitFacts.
Import Py Indicators Gateway GatewaySpec Manager.

Lemma period_to_days_pos (period : string) : 1 ≤ _period_to_days period.
Proof. unfold _period_to_days. repeat case_match; lia. Qed.

Lemma configuration_store (t : Database.db) (sym : string) (df : DataFrame) :
  Database.configuration (Database.store_historical_data t sym df)
  = Database.configuration t.
Proof.
  unfold Database.store_historical_data.
  assert (∀ t0, Database.configuration (Database.insert_rows t0 sym df)
                = Database.configuration t0) as H.
  { unfold Database.insert_rows. induction df as [|b df IH]; intros t0; [done|].
    simpl. by rewrite IH. }
  destruct (last df); simpl; by rewrite H.
Qed.

(** A table that holds a row of the symbol dated today is a fresh cache
    for every window of a day or more. *)
Lemma row_of_today_is_fresh (t : Database.db) (now : Z) (sym : string)
    (days : Z) (r : Database.hist_row) :
  1 ≤ days → r ∈ Database.historical_data t → Database.symbol r = sym →
  Database.date r = Database.day_of now →
  fresh_cache t now sym days
  = Some (Database.get_historical_data t now sym (Some days))
  ∧ Database.row_bar r ∈ Database.get_historical_data t now sym (Some days).
Proof.
  intros Hdays Hr Hsym Hdate.
  assert (Database.row_bar r
          ∈ Database.get_historical_data t now sym (Some days)) as Hin.
  { rewrite DatabaseFacts.series_permutation.
    apply list_elem_of_fmap_2, list_elem_of_filter. split; [|done].
    split; [done|]. simpl. destruct (Z.eqb_spec days 0); [done|].
    apply Is_true_true, Z.leb_le. lia. }
  split; [|done]. apply GatewayFacts.fresh_cache_Some.
  split; [done|]. split.
  { intros Heq. rewrite Heq in Hin. by apply elem_of_nil in Hin. }
  unfold fresher_than_a_day, Database.get_last_historical_date.
  assert (Database.date r
          ∈ Database.date <$> filter (λ r, Database.symbol r = sym)
                                (Database.historical_data t)) as Hd.
  { by apply list_elem_of_fmap_2, list_elem_of_filter. }
  destruct (Database.date <$> filter _ (Database.historical_data t))
    as [|d ds]; [by apply elem_of_nil in Hd|].
  destruct (CacheFacts.max_date_spec d ds) as [_ Hle].
  specialize (Hle _ Hd). eexists. split; [done|].
  rewrite Hdate in Hle. unfold Database.day_of in Hle.
  pose proof (Z.div_mod now 86400 ltac:(lia)).
  pose proof (Z.mod_pos_bound now 86400 ltac:(lia)). lia.
Qed.

Lemma stored_row (df : DataFrame) (t : Database.db) (sym : string) (b : bar) :
  b ∈ df →
  ∃ r, r ∈ Database.historical_data (Database.store_historical_data t sym df)
       ∧ Database.symbol r = sym
       ∧ Database.date r = Database.day_of (Date b).
Proof.
  rewrite DatabaseFacts.historical_data_store. revert b.
  induction df as [|b0 df IH] using rev_ind; intros b Hb;
    [by apply elem_of_nil in Hb|].
  rewrite CacheFacts.insert_rows_snoc. simpl.
  destruct (decide (Database.day_of (Date b) = Database.day_of (Date b0)))
    as [Heq|Hne].
  - eexists. split; [apply elem_of_app; right; apply list_elem_of_here|].
    simpl. done.
  - apply elem_of_app in Hb as [Hb|Hb%list_elem_of_singleton]; [|by subst b].
    destruct (IH b Hb) as (r & Hr & Hs & Hd). exists r. split; [|done].
    apply elem_of_app. left. apply list_elem_of_filter. split; [|done].
    unfold Database.key. rewrite Hd. congruence.
Qed.

Section CacheHit.

Variable alpha_vantage free_api : string → string → result DataFrame.

(** X21.  A call that returns a frame with a bar of some day leaves a
    cache from which every later call during that day, for the same symbol
    and period and not forced, is answered without asking a source and
    without writing: it returns the cached window, which holds a bar of
    that day. *)
Theorem bar_of_today_is_served_from_cache (self : StockDataFetcher)
    (now now' : Z) (sym : string) (period : option string)
    (force_fetch : bool) (df : DataFrame) (b : bar) :
  let out :=
    get_historical_data alpha_vantage free_api self now sym period force_fetch in
  returned out = inr df → b ∈ df →
  Database.day_of (Date b) = Database.day_of now' →
  let self' := {| api_key := api_key self; db := db_after out |} in
  let out' :=
    get_historical_data alpha_vantage free_api self' now' sym period false in
  fetches out' = [] ∧ db_after out' = db_after out
  ∧ ∃ series, returned out' = inr series
              ∧ ∃ b', b' ∈ series ∧ Date b' = Database.day_of now' * 86400.
Proof.
  cbv zeta. intros Hret Hb Hday.
  set (out := get_historical_data alpha_vantage free_api self now sym period
                force_fetch) in *.
  assert (∃ r, r ∈ Database.historical_data (db_after out)
               ∧ Database.symbol r = sym
               ∧ Database.date r = Database.day_of now') as (r & Hr & Hs & Hd).
  { rewrite <- Hday. unfold out, get_historical_data in *.
    set (p := resolve_period self period) in *.
    destruct (if force_fetch then None else fresh_cache _ _ _ _)
      as [data|] eqn:Hfresh.
    - destruct force_fetch; [done|].
      apply GatewayFacts.fresh_cache_Some in Hfresh as (-> & _ & _).
      simpl in Hret. injection Hret as <-.
      rewrite DatabaseFacts.series_permutation in Hb.
      apply list_elem_of_fmap in Hb as (r & -> & Hr).
      apply list_elem_of_filter in Hr as [[Hs _] Hr].
      exists r. split; [done|]. split; [done|]. simpl.
      unfold Database.day_of. by rewrite Z.div_mul.
    - destruct (fetch alpha_vantage free_api self sym p) as [src [e|df']];
        simpl in *.
      + destruct (nonempty _); [|discriminate]. injection Hret as <-.
        rewrite DatabaseFacts.series_permutation in Hb.
        apply list_elem_of_fmap in Hb as (r & -> & Hr).
        apply list_elem_of_filter in Hr as [[Hs _] Hr].
        exists r. split; [done|]. split; [done|]. simpl.
        unfold Database.day_of. by rewrite Z.div_mul.
      + injection Hret as <-. destruct df' as [|b0 df]; [by apply elem_of_nil in Hb|].
        simpl. by apply stored_row. }
  assert (Database.configuration (db_after out) = Database.configuration (db self))
    as Hconf.
  { unfold out, get_historical_data.
    destruct (if force_fetch then None else fresh_cache _ _ _ _); [done|].
    destruct (fetch _ _ _ _ _) as [src [e|df']]; simpl; [done|].
    destruct (nonempty df'); [apply configuration_store|done]. }
  unfold get_historical_data at 1 2 3.
  assert (resolve_period {| api_key := api_key self; db := db_after out |} period
          = resolve_period self period) as ->.
  { unfold resolve_period, Database.get_config_value. simpl. by rewrite Hconf. }
  set (p := resolve_period self period). simpl db.
  destruct (row_of_today_is_fresh (db_after out) now' sym (_period_to_days p) r
              (period_to_days_pos p) Hr Hs Hd) as [-> Hin].
  simpl. split; [done|]. split; [done|]. eexists. split; [done|].
  exists (Database.row_bar r). split; [done|].
  change (Database.date r * 86400 = Database.day_of now' * 86400).
  by rewrite Hd.
Qed.

End CacheHit.

(** A period that ends in d and is neither 1d nor 5d is not among the
    periods the gateway knows. *)
Lemma period_days_of_day_count (v : string) :
  v ≠ "1" → v ≠ "5" → _period_to_days (v ++ "d") = 30.
Proof.
  intros H1 H5. unfold _period_to_days.
  repeat (match goal with
          | |- context [String.eqb ?a ?b] =>
              destruct (String.eqb_spec a b) as [Heq|_];
              [exfalso; clear -Heq H1 H5;
               do 4 (try destruct v as [|? v]; cbv in Heq;
                     try congruence)|]
          end); reflexivity.
Qed.

(** X22.  Setting the default number of days succeeds for 1 to 365 days,
    and a history call without a period then uses that number followed by
    d as its period; the number of days the gateway derives from it,
    though, is 30 unless the number set is 1 or 5. *)
Theorem fetch_days_window (t : Database.db) (days : Z) (key : option string) :
  1 ≤ days ≤ 365 →
  let t' := fst (set_fetch_days t days) in
  let period := resolve_period {| api_key := key; db := t' |} None in
  snd (set_fetch_days t days)
  = (true, "Default fetch days set to: " ++ pretty days)
  ∧ period = pretty days ++ "d"
  ∧ _period_to_days period
    = (if days =? 1 then 1 else if days =? 5 then 5 else 30).
Proof.
  intros Hdays. cbv zeta. unfold set_fetch_days.
  destruct (decide (days < 1 ∨ days > 365)) as [|_]; [lia|]. simpl.
  split; [done|]. unfold resolve_period, Database.get_config_value. simpl.
  rewrite lookup_insert_eq. simpl. split; [done|].
  destruct (Z.eqb_spec days 1) as [->|H1]; [reflexivity|].
  destruct (Z.eqb_spec days 5) as [->|H5]; [reflexivity|].
  apply period_days_of_day_count.
  - change "1" with (pretty 1). by intros ?%(inj pretty).
  - change "5" with (pretty 5). by intros ?%(inj pretty).
Qed.


Lemma bar_of_today_is_served_from_cache_witness :
  let out :=
    get_historical_data Examples.source_up Examples.source_up
      (Examples.keyless Examples.old_cache) (100 * 86400 + 40000) "AAPL"
      None false in
  let self' := {| api_key := None; db := db_after out |} in
  let out' :=
    get_historical_data Examples.source_up Examples.source_up self'
      (100 * 86400 + 50000) "AAPL" None false in
  fetches out' = [] ∧ db_after out' = db_after out
  ∧ ∃ series, returned out' = inr series
              ∧ ∃ b', b' ∈ series
                      ∧ Date b' = Database.day_of (100 * 86400 + 50000) * 86400.
Proof.
  apply (bar_of_today_is_served_from_cache Examples.source_up
           Examples.source_up (Examples.keyless Examples.old_cache)
           (100 * 86400 + 40000) (100 * 86400 + 50000) "AAPL" None false
           [Examples.bar_on 100 110] (Examples.bar_on 100 110)).
  - reflexivity.
  - apply list_elem_of_here.
  - reflexivity.
Defined.

Lemma fetch_days_window_witness :
  let t' := fst (set_fetch_days Database.create_tables 7) in
  let period := resolve_period {| api_key := None; db := t' |} None in
  snd (set_fetch_days Database.create_tables 7)
  = (true, "Default fetch days set to: " ++ pretty 7)
  ∧ period = pretty 7 ++ "d"
  ∧ _period_to_days period = 30.
Proof. apply (fetch_days_window Database.create_tables 7 None). lia. Defined.

(** A week is asked of the source, a month is read from the cache. *)
Example seven_days_configured :
  let t' := fst (set_fetch_days Database.create_tables 7) in
  let out :=
    get_historical_data Examples.source_down Examples.source_down
      {| api_key := None; db := t' |} (100 * 86400) "AAPL" None false in
  fetches out = [(YahooFinance, "AAPL", "7d")].
Proof. reflexivity. Qed.

End CacheHitFacts.

(* ===================================================================== *)
(** ** Market hours                                                      *)
(* ===================================================================== *)

Module MarketFacts.
Import Market.

Lemma skip_weekend_spec (fuel : nat) (now : datetime) (k : Z) :
  (3 ≤ fuel)%nat →
  ∃ n, skip_weekend fuel now k = Some n
       ∧ k ≤ n ≤ k + 2
       ∧ weekday (plus_days now n) < 5
       ∧ ∀ j, k ≤ j < n → 5 ≤ weekday (plus_days now j).
Proof.
  intros Hfuel.
  destruct fuel as [|[|[|fuel]]]; [lia..|].
  cbn [skip_weekend]. unfold weekday, plus_days. cbn [day].
  destruct (Z.leb_spec 5 ((day now + k + 3) mod 7)) as [H1|H1].
  - destruct (Z.leb_spec 5 ((day now + (k + 1) + 3) mod 7)) as [H2|H2].
    + destruct (Z.leb_spec 5 ((day now + (k + 1 + 1) + 3) mod 7)) as [H3|H3].
      * exfalso.
        pose proof (Z.mod_pos_bound (day now + k + 3) 7 ltac:(lia)).
        pose proof (Z.div_mod (day now + k + 3) 7 ltac:(lia)).
        pose proof (Z.mod_pos_bound (day now + (k + 1) + 3) 7 ltac:(lia)).
        pose proof (Z.div_mod (day now + (k + 1) + 3) 7 ltac:(lia)).
        pose proof (Z.mod_pos_bound (day now + (k + 1 + 1) + 3) 7 ltac:(lia)).
        pose proof (Z.div_mod (day now + (k + 1 + 1) + 3) 7 ltac:(lia)).
        lia.
      * exists (k + 1 + 1). cbn [day]. split; [done|]. split; [lia|].
        split; [done|].
        intros j Hj. assert (j = k ∨ j = k + 1) as [->| ->] by lia; done.
    + exists (k + 1). cbn [day]. split; [done|]. split; [lia|]. split; [done|].
      intros j Hj. assert (j = k) as -> by lia. done.
  - exists k. cbn [day]. split; [done|]. split; [lia|]. split; [done|].
    intros j Hj. lia.
Qed.

(** The two ways of [_get_next_market_open]: today, or the first weekday
    after today. *)
Lemma next_market_open_cases (fuel : nat) (now now2 : datetime) :
  (3 ≤ fuel)%nat →
  (usec now < half_past_nine_of now2 ∧ weekday now < 5
   ∧ _get_next_market_open fuel now now2 = Some (at_open now))
  ∨ (¬ (usec now < half_past_nine_of now2 ∧ weekday now < 5)
     ∧ ∃ n, _get_next_market_open fuel now now2
            = Some (at_open (plus_days now n))
            ∧ 1 ≤ n ≤ 3
            ∧ weekday (plus_days now n) < 5
            ∧ ∀ j, 1 ≤ j < n → 5 ≤ weekday (plus_days now j)).
Proof.
  intros Hfuel. unfold _get_next_market_open.
  destruct (decide _) as [[Hbefore Hweek]|Hnot]; [by left|]. right.
  split; [done|].
  destruct (skip_weekend_spec fuel now 1 Hfuel) as (n & -> & Hn & Hday & Hskip).
  exists n. simpl. split; [done|]. split; [lia|]. done.
Qed.

(** X23.  The loop over the weekend ends within three rounds, and the next
    market open is 09:30:00 of a weekday, today or at most three days
    ahead, with only Saturdays and Sundays in between; it is today on every
    weekday before 09:30, and never unless it is a weekday before 09:31. *)
Theorem next_market_open_is_a_weekday (fuel : nat) (now now2 : datetime) :
  (3 ≤ fuel)%nat →
  ∃ r, _get_next_market_open fuel now now2 = Some r
       ∧ usec r = open_usec
       ∧ weekday r < 5
       ∧ day now ≤ day r ≤ day now + 3
       ∧ (∀ d, day now < d < day r → 5 ≤ (d + 3) mod 7)
       ∧ (day r = day now → weekday now < 5 ∧ usec now < open_usec + 60000000)
       ∧ (weekday now < 5 → usec now < open_usec → day r = day now).
Proof.
  intros Hfuel.
  pose proof (Z.mod_pos_bound (usec now2) 60000000 ltac:(lia)) as Hmod.
  destruct (next_market_open_cases fuel now now2 Hfuel)
    as [(Hbefore & Hweek & ->)|(Hnot & n & -> & Hn & Hday & Hskip)].
  - exists (at_open now). unfold half_past_nine_of in Hbefore. simpl.
    split; [done|]. split; [done|]. split; [done|]. split; [lia|].
    split; [intros; lia|]. split; [intros; lia|]. done.
  - exists (at_open (plus_days now n)). cbn [day at_open plus_days].
    split; [done|]. split; [done|]. split; [done|]. split; [lia|].
    split; [|split].
    + intros d Hd. specialize (Hskip (d - day now) ltac:(lia)).
      unfold weekday, plus_days in Hskip. simpl in Hskip.
      by replace (day now + (d - day now)) with d in Hskip by lia.
    + intros ?. lia.
    + intros Hweek Hu. exfalso. apply Hnot. unfold half_past_nine_of. lia.
Qed.

(** X24.  The market is reported open exactly on weekdays from 09:30:00
    to 16:00:00, both included, and then no next open is given; when it is
    reported closed, the next open is 09:30:00 of a weekday, and it lies
    after the time of the report whenever the clock has not gone backwards
    between the readings. *)
Theorem market_status_next_open (fuel : nat) (now now1 now2 : datetime) :
  (3 ≤ fuel)%nat →
  ∃ s, get_market_status fuel now now1 now2 = Some s
       ∧ current_time s = now
       ∧ (is_open s = true
          ↔ weekday now < 5 ∧ open_usec ≤ usec now ≤ close_usec)
       ∧ (is_open s = true → next_open s = None)
       ∧ (is_open s = false →
          ∃ r, next_open s = Some r ∧ usec r = open_usec ∧ weekday r < 5
               ∧ (dt_le now now1 → dt_lt now r)).
Proof.
  intros Hfuel. unfold get_market_status.
  assert (bool_decide (weekday now < 5)
          && bool_decide (dt_le (at_open now) now ∧ dt_le now (at_close now))
          = true
          ↔ weekday now < 5 ∧ open_usec ≤ usec now ≤ close_usec) as Hopen.
  { rewrite andb_true_iff, !bool_decide_eq_true. unfold dt_le. simpl. lia. }
  destruct (bool_decide (weekday now < 5) && _) eqn:Ho.
  - simpl. eexists. split; [done|]. simpl. split; [done|]. split; [done|].
    split; [done|]. discriminate.
  - assert (¬ (weekday now < 5 ∧ open_usec ≤ usec now ≤ close_usec)) as Hclosed.
    { rewrite <- Hopen. congruence. }
    pose proof (Z.mod_pos_bound (usec now2) 60000000 ltac:(lia)) as Hmod.
    destruct (next_market_open_cases fuel now1 now2 Hfuel)
      as [(Hbefore & Hweek & ->)|(_ & n & -> & Hn & Hday & _)].
    + simpl. eexists. split; [done|]. simpl. split; [done|].
      split; [done|]. split; [discriminate|]. intros _.
      exists (at_open now1). split; [done|]. split; [done|]. split; [done|].
      unfold dt_le, dt_lt, half_past_nine_of in *. cbn [day usec at_open].
      intros [Hlt|[Heq Hus]]; [by left|]. right. split; [done|].
      assert (weekday now = weekday now1) as Hwd
        by (unfold weekday; by rewrite Heq).
      unfold open_usec, close_usec in *. lia.
    + simpl. eexists. split; [done|]. simpl. split; [done|].
      split; [done|]. split; [discriminate|]. intros _.
      exists (at_open (plus_days now1 n)).
      split; [done|]. split; [done|]. split; [done|].
      unfold dt_le, dt_lt. cbn [day usec at_open plus_days]. lia.
Qed.


(** Saturday 1970-01-03, at noon: the next open is Monday the 5th. *)
Lemma next_market_open_is_a_weekday_witness :
  let now := {| day := 2; usec := 43200000000 |} in
  ∃ r, _get_next_market_open 3 now now = Some r
       ∧ usec r = open_usec
       ∧ weekday r < 5
       ∧ day now ≤ day r ≤ day now + 3
       ∧ (∀ d, day now < d < day r → 5 ≤ (d + 3) mod 7)
       ∧ (day r = day now → weekday now < 5 ∧ usec now < open_usec + 60000000)
       ∧ (weekday now < 5 → usec now < open_usec → day r = day now).
Proof.
  apply (next_market_open_is_a_weekday 3 {| day := 2; usec := 43200000000 |}
           {| day := 2; usec := 43200000000 |}).
  lia.
Defined.

Lemma market_status_next_open_witness :
  let now := {| day := 2; usec := 43200000000 |} in
  ∃ s, get_market_status 3 now now now = Some s
       ∧ current_time s = now
       ∧ (is_open s = true
          ↔ weekday now < 5 ∧ open_usec ≤ usec now ≤ close_usec)
       ∧ (is_open s = true → next_open s = None)
       ∧ (is_open s = false →
          ∃ r, next_open s = Some r ∧ usec r = open_usec ∧ weekday r < 5
               ∧ (dt_le now now → dt_lt now r)).
Proof.
  apply (market_status_next_open 3 {| day := 2; usec := 43200000000 |}
           {| day := 2; usec := 43200000000 |}
           {| day := 2; usec := 43200000000 |}).
  lia.
Defined.

Example saturday_noon :
  get_market_status 3 {| day := 2; usec := 43200000000 |}
    {| day := 2; usec := 43200000000 |} {| day := 2; usec := 43200000000 |}
  = Some {| is_open := false;
            current_time := {| day := 2; usec := 43200000000 |};
            market_open := "09:30:00";
            market_close := "16:00:00";
            next_open := Some {| day := 4; usec := open_usec |};
            timezone := "ET" |}.
Proof. reflexivity. Qed.

End MarketFacts.
